(** * Career advisor agent: retrying transports, tolerant JSON extraction,
      schema repair and the agent cache

    A shallow embedding of
      - config/__init__.py       (Config),
      - tools/llm_interface.py   (OpenRouterLLM),
      - tools/tavily_search.py   (TavilySearchTool),
      - agents/base_agent.py     (BaseAgent),
      - agents/profile_analyzer.py (Skill, ProfileAnalysis, ProfileAnalyzerAgent)
    followed by the properties of section 8 of the specification and by
    further properties read off the code.

    Conventions of the embedding.
      - A Python [str] is a Rocq [string]; its characters are the code points
        below 256.  [str.strip] and [str.lower] are written out for that range.
      - A Python value met at run time (the result of [json.loads], a response
        envelope, a keyword dictionary) is a [value]; a [dict] is an
        association list in insertion order with distinct keys.
      - A call that may raise returns [res A]; a method that also mutates its
        object or talks to the network takes and returns that state.  State
        changes made before an exception is raised are kept, as in Python.
      - Python [int]s are [Z], durations and timestamps are exact rationals
        [Q]: rounding and overflow of binary floating point are not modelled.
      - Logging calls have no effect on any value and are left out. *)

#[local] Set Warnings "-register-all".
From Stdlib Require Import ZArith QArith String Ascii List Lia Bool.
From stdpp Require Import base option list strings gmap pretty.

Local Open Scope Z_scope.

(** ** Exceptions and results *)

Inductive exn_class : Set :=
| Exception
| ValueError
| TypeError
| AttributeError
| IndexError
| KeyError
| JSONDecodeError
| ValidationError
| RequestException
| APIError.

(** [C(msg)], and [C(msg)] raised [from] a cause. *)
Inductive exn : Set :=
| Exn (cls : exn_class) (msg : string)
| ExnFrom (cls : exn_class) (msg : string) (cause : exn).

Definition exn_cls (e : exn) : exn_class :=
  match e with Exn c _ | ExnFrom c _ _ => c end.

Definition exn_cause (e : exn) : option exn :=
  match e with Exn _ _ => None | ExnFrom _ _ c => Some c end.

(** [str(e)] *)
Definition exn_msg (e : exn) : string :=
  match e with Exn _ m | ExnFrom _ m _ => m end.

Inductive res (A : Type) : Type :=
| Ok (a : A)
| Raise (e : exn).
Arguments Ok {A} a.
Arguments Raise {A} e.

Definition res_bind {A B} (r : res A) (k : A -> res B) : res B :=
  match r with
  | Ok a => k a
  | Raise e => Raise e
  end.

Definition raises {A} (r : res A) : Prop :=
  match r with Ok _ => False | Raise _ => True end.

Declare Scope res_scope.
Delimit Scope res_scope with res.
Notation "x <- r ;; k" := (res_bind r (fun x => k))
  (at level 60, r at next level, right associativity) : res_scope.

(** ** Python strings *)

Module PyStr.

Definition dquote : ascii := "034"%char.
Definition backslash : ascii := "092"%char.
Definition backtick : ascii := "096"%char.

(** [str.find(c)] for a one-character needle: the lowest index, or -1. *)
Fixpoint find_from (c : ascii) (s : string) (i : Z) : Z :=
  match s with
  | EmptyString => -1
  | String a r => if Ascii.eqb a c then i else find_from c r (i + 1)
  end.

Definition find (s : string) (c : ascii) : Z := find_from c s 0.

(** [str.rfind(c)]: the highest index, or -1. *)
Fixpoint rfind_from (c : ascii) (s : string) (i last : Z) : Z :=
  match s with
  | EmptyString => last
  | String a r => rfind_from c r (i + 1) (if Ascii.eqb a c then i else last)
  end.

Definition rfind (s : string) (c : ascii) : Z := rfind_from c s 0 (-1).

Definition len (s : string) : Z := Z.of_nat (String.length s).

(** A slice bound as Python normalises it: negative bounds count from the
    end, and the result is clamped to [0, len]. *)
Definition clamp (n : Z) (i : Z) : Z :=
  if i <? 0 then Z.max 0 (i + n) else Z.min i n.

(** [s[lo:hi]]; an omitted bound is [None]. *)
Definition slice (s : string) (lo hi : option Z) : string :=
  let n := len s in
  let l := match lo with Some i => clamp n i | None => 0 end in
  let h := match hi with Some i => clamp n i | None => n end in
  String.substring (Z.to_nat l) (Z.to_nat (h - l)) s.

(** [c.isspace()] on the code points below 256. *)
Definition isspace (c : ascii) : bool :=
  let n := N_of_ascii c in
  ((9 <=? n) && (n <=? 13) || (28 <=? n) && (n <=? 32)
   || (n =? 133) || (n =? 160))%N.

Fixpoint lstrip (s : string) : string :=
  match s with
  | EmptyString => EmptyString
  | String c r => if isspace c then lstrip r else s
  end.

Fixpoint rstrip (s : string) : string :=
  match s with
  | EmptyString => EmptyString
  | String c r =>
      match rstrip r with
      | EmptyString => if isspace c then EmptyString else String c EmptyString
      | r' => String c r'
      end
  end.

Definition strip (s : string) : string := rstrip (lstrip s).

Definition startswith (s p : string) : bool := String.prefix p s.

Definition endswith (s p : string) : bool :=
  (String.length p <=? String.length s)%nat
  && String.eqb (String.substring (String.length s - String.length p)
                                  (String.length p) s) p.

(** [c.lower()] on the code points below 256: A-Z and the Latin-1 capitals. *)
Definition lower_char (c : ascii) : ascii :=
  let n := N_of_ascii c in
  if ((65 <=? n) && (n <=? 90)
      || (192 <=? n) && (n <=? 222) && negb (n =? 215))%N
  then ascii_of_N (n + 32) else c.

Fixpoint lower (s : string) : string :=
  match s with
  | EmptyString => EmptyString
  | String c r => String (lower_char c) (lower r)
  end.

(** [needle in s] for two strings. *)
Fixpoint contains (s needle : string) : bool :=
  String.prefix needle s
  || match s with
     | EmptyString => false
     | String _ r => contains r needle
     end.

Fixpoint all_chars (p : ascii -> bool) (s : string) : bool :=
  match s with
  | EmptyString => true
  | String c r => p c && all_chars p r
  end.

(** Test data is written with an apostrophe wherever the text has a double
    quote. *)
Fixpoint q (s : string) : string :=
  match s with
  | EmptyString => EmptyString
  | String c r => String (if Ascii.eqb c "'"%char then dquote else c) (q r)
  end.

(** [c.isprintable()] on the code points below 256. *)
Definition isprintable (c : ascii) : bool :=
  let n := N_of_ascii c in
  ((32 <=? n) && (n <=? 126) || (161 <=? n) && negb (n =? 173))%N.

Definition hex_digit (n : N) : ascii :=
  if (n <? 10)%N then ascii_of_N (48 + n) else ascii_of_N (87 + n).

(** One character of [repr(s)] between the quotes [quote]. *)
Definition repr_char (quote c : ascii) : string :=
  let n := N_of_ascii c in
  let bs (x : ascii) := String backslash (String x EmptyString) in
  if Ascii.eqb c quote || Ascii.eqb c backslash then bs c
  else if (n =? 9)%N then bs "t"%char
  else if (n =? 10)%N then bs "n"%char
  else if (n =? 13)%N then bs "r"%char
  else if isprintable c then String c EmptyString
  else String backslash
         (String "x"%char
            (String (hex_digit (n / 16))
               (String (hex_digit (n mod 16)) EmptyString))).

Fixpoint repr_body (quote : ascii) (s : string) : string :=
  match s with
  | EmptyString => EmptyString
  | String c r => repr_char quote c +:+ repr_body quote r
  end.

(** [repr(s)]: apostrophes around the text, unless it holds an apostrophe
    and no double quote. *)
Definition repr (s : string) : string :=
  let quote :=
    if negb (find s "'"%char =? -1) && (find s dquote =? -1)
    then dquote else "'"%char in
  String quote (repr_body quote s) +:+ String quote EmptyString.

(** [str.format] called with keyword arguments only, all of them strings,
    for templates made of literal text, the doubled braces and replacement
    fields that are a bare name.  A field with a conversion, a format
    specification, an attribute or an index is outside this embedding: the
    result is then [None]. *)
Definition isdecimal (c : ascii) : bool :=
  let n := N_of_ascii c in ((48 <=? n) && (n <=? 57))%N.

Definition PY_SSIZE_T_MAX : Z := 9223372036854775807.

(** The number a field name writes: the digits are read from the left, and
    the reading stops with an error as soon as the number leaves the range of
    an index, or at the first character that is no digit. *)
Inductive integer_result : Set :=
| NotInteger
| TooManyDigits
| Integer (n : Z).

Fixpoint get_integer_from (accumulator : Z) (s : string) : integer_result :=
  match s with
  | EmptyString => Integer accumulator
  | String c r =>
      if isdecimal c then
        let digitval := Z.of_N (N_of_ascii c) - 48 in
        if accumulator >? (PY_SSIZE_T_MAX - digitval) / 10 then TooManyDigits
        else get_integer_from (accumulator * 10 + digitval) r
      else NotInteger
  end.

Definition get_integer (s : string) : integer_result :=
  match s with
  | EmptyString => NotInteger
  | _ => get_integer_from 0 s
  end.

Fixpoint kw_lookup (kwargs : list (string * string)) (k : string)
  : option string :=
  match kwargs with
  | [] => None
  | (k', v) :: r => if String.eqb k' k then Some v else kw_lookup r k
  end.

(** The object a replacement field names: an empty or numeric name is a
    position, and there are no positional arguments; any other name is a
    keyword. *)
Definition no_such_position (n : Z) : exn :=
  Exn IndexError ("Replacement index " +:+ pretty n
                  +:+ " out of range for positional args tuple").

Definition get_field (name : string) (kwargs : list (string * string))
  : res string :=
  match get_integer name with
  | TooManyDigits =>
      Raise (Exn ValueError "Too many decimal digits in format string")
  | Integer n => Raise (no_such_position n)
  | NotInteger =>
      if String.eqb name EmptyString then Raise (no_such_position 0)
      else
        match kw_lookup kwargs name with
        | Some v => Ok v
        | None => Raise (Exn KeyError (repr name))
        end
  end.

Definition emit (c : ascii) (r : option (res string)) : option (res string) :=
  match r with
  | Some (Ok s) => Some (Ok (String c s))
  | _ => r
  end.

Definition emit_str (v : string) (r : option (res string))
  : option (res string) :=
  match r with
  | Some (Ok s) => Some (Ok (v +:+ s))
  | _ => r
  end.

(** The scan of the template, left to right: [field] is [None] in literal
    text and holds the characters of the name read so far inside a
    replacement field. *)
Fixpoint format_from (field : option string) (template : string)
    (kwargs : list (string * string)) : option (res string) :=
  match template with
  | EmptyString =>
      match field with
      | None => Some (Ok EmptyString)
      | Some _ =>
          Some (Raise (Exn ValueError "expected '}' before end of string"))
      end
  | String c r =>
      match field with
      | None =>
          if Ascii.eqb c "{"%char then
            match r with
            | EmptyString =>
                Some (Raise (Exn ValueError
                               "Single '{' encountered in format string"))
            | String c1 r1 =>
                if Ascii.eqb c1 "{"%char
                then emit c (format_from None r1 kwargs)
                else format_from (Some EmptyString) r kwargs
            end
          else if Ascii.eqb c "}"%char then
            match r with
            | String c1 r1 =>
                if Ascii.eqb c1 "}"%char
                then emit c (format_from None r1 kwargs)
                else Some (Raise (Exn ValueError
                                    "Single '}' encountered in format string"))
            | EmptyString =>
                Some (Raise (Exn ValueError
                               "Single '}' encountered in format string"))
            end
          else emit c (format_from None r kwargs)
      | Some name =>
          if Ascii.eqb c "}"%char then
            match get_field name kwargs with
            | Ok v => emit_str v (format_from None r kwargs)
            | Raise e => Some (Raise e)
            end
          else if Ascii.eqb c "{"%char then
            Some (Raise (Exn ValueError "unexpected '{' in field name"))
          else if Ascii.eqb c "["%char || Ascii.eqb c "."%char
                  || Ascii.eqb c "!"%char || Ascii.eqb c ":"%char
          then None
          else format_from (Some (name +:+ String c EmptyString)) r kwargs
      end
  end.

Definition format (template : string) (kwargs : list (string * string))
  : option (res string) :=
  format_from None template kwargs.

End PyStr.

(** ** Python values and [json.loads] *)

(** What [json.loads] builds and what the envelope and keyword dictionaries
    hold.  A number keeps the literal it was read from. *)
Inductive value : Type :=
| VNone
| VBool (b : bool)
| VNum (literal : string)
| VStr (s : string)
| VList (l : list value)
| VDict (d : list (string * value)).

Module Dict.

Definition t : Type := list (string * value).

(** [d.get(k)] *)
Fixpoint get (d : t) (k : string) : option value :=
  match d with
  | [] => None
  | (k', v) :: r => if String.eqb k' k then Some v else get r k
  end.

(** [k in d] *)
Definition mem (d : t) (k : string) : bool :=
  match get d k with Some _ => true | None => false end.

(** [d[k] = v]: an existing key keeps its place, a new one goes last. *)
Fixpoint set (d : t) (k : string) (v : value) : t :=
  match d with
  | [] => [(k, v)]
  | (k', v') :: r =>
      if String.eqb k' k then (k', v) :: r else (k', v') :: set r k v
  end.

(** [dict(pairs)] *)
Definition of_pairs (l : list (string * value)) : t :=
  fold_left (fun d kv => set d (fst kv) (snd kv)) l [].

Definition keys (d : t) : list string := map fst d.

End Dict.

Module Json.
Import PyStr.

(** The four characters [json] skips between tokens. *)
Definition is_ws (c : ascii) : bool :=
  match c with
  | " "%char | "009"%char | "010"%char | "013"%char => true
  | _ => false
  end.

Fixpoint skip_ws (s : string) : string :=
  match s with
  | EmptyString => EmptyString
  | String c r => if is_ws c then skip_ws r else s
  end.

Definition is_digit (c : ascii) : bool :=
  let n := N_of_ascii c in ((48 <=? n) && (n <=? 57))%N.

Definition hex_val (c : ascii) : option N :=
  let n := N_of_ascii c in
  if ((48 <=? n) && (n <=? 57))%N then Some (n - 48)%N
  else if ((65 <=? n) && (n <=? 70))%N then Some (n - 55)%N
  else if ((97 <=? n) && (n <=? 102))%N then Some (n - 87)%N
  else None.

(** The character a [\uXXXX] escape denotes; escapes of code points from 256
    on are outside the strings of this embedding and are not read. *)
Definition hex4 (a b c d : ascii) : option ascii :=
  match hex_val a, hex_val b, hex_val c, hex_val d with
  | Some x, Some y, Some z, Some w =>
      let n := (x * 4096 + y * 256 + z * 16 + w)%N in
      if (n <? 256)%N then Some (ascii_of_N n) else None
  | _, _, _, _ => None
  end.

Definition unescape (e : ascii) : option ascii :=
  match e with
  | "034"%char => Some dquote
  | "092"%char => Some backslash
  | "/"%char => Some "/"%char
  | "b"%char => Some "008"%char
  | "f"%char => Some "012"%char
  | "n"%char => Some "010"%char
  | "r"%char => Some "013"%char
  | "t"%char => Some "009"%char
  | _ => None
  end.

Definition cons_char (c : ascii) (r : option (string * string))
  : option (string * string) :=
  match r with
  | Some (t, rest) => Some (String c t, rest)
  | None => None
  end.

(** The body of a string literal, read from just after its opening quote
    (strict mode: a raw control character is an error). *)
Fixpoint scan_string (s : string) : option (string * string) :=
  match s with
  | EmptyString => None
  | String c r =>
      if Ascii.eqb c dquote then Some (EmptyString, r)
      else if Ascii.eqb c backslash then
        match r with
        | EmptyString => None
        | String e r1 =>
            if Ascii.eqb e "u"%char then
              match r1 with
              | String h1 (String h2 (String h3 (String h4 r2))) =>
                  match hex4 h1 h2 h3 h4 with
                  | Some ch => cons_char ch (scan_string r2)
                  | None => None
                  end
              | _ => None
              end
            else
              match unescape e with
              | Some ch => cons_char ch (scan_string r1)
              | None => None
              end
        end
      else if (N_of_ascii c <? 32)%N then None
      else cons_char c (scan_string r)
  end.

(** The longest run of digits at the head of [s], and what follows it. *)
Fixpoint span_digits (s : string) : string * string :=
  match s with
  | EmptyString => (EmptyString, EmptyString)
  | String c r =>
      if is_digit c
      then let '(d, rest) := span_digits r in (String c d, rest)
      else (EmptyString, s)
  end.

(** The optional fraction: a dot and at least one digit. *)
Definition scan_frac (s : string) : string * string :=
  match s with
  | String c r =>
      if Ascii.eqb c "."%char then
        match span_digits r with
        | (EmptyString, _) => (EmptyString, s)
        | (d, rest) => (String c d, rest)
        end
      else (EmptyString, s)
  | EmptyString => (EmptyString, s)
  end.

(** The optional exponent: e or E, an optional sign, at least one digit. *)
Definition scan_exp (s : string) : string * string :=
  match s with
  | String e r =>
      if Ascii.eqb e "e"%char || Ascii.eqb e "E"%char then
        let '(sg, r1) :=
          match r with
          | String g r' =>
              if Ascii.eqb g "+"%char || Ascii.eqb g "-"%char
              then (String g EmptyString, r') else (EmptyString, r)
          | EmptyString => (EmptyString, r)
          end in
        match span_digits r1 with
        | (EmptyString, _) => (EmptyString, s)
        | (d, rest) => (String e (sg +:+ d), rest)
        end
      else (EmptyString, s)
  | EmptyString => (EmptyString, s)
  end.

(** The integer part: an optional minus sign, then a single 0 or a digit
    from 1 to 9 followed by any digits. *)
Definition scan_int (s : string) : option (string * string) :=
  let '(sg, r) :=
    match s with
    | String g r' =>
        if Ascii.eqb g "-"%char then (String g EmptyString, r')
        else (EmptyString, s)
    | EmptyString => (EmptyString, s)
    end in
  match r with
  | String c r' =>
      if Ascii.eqb c "0"%char then Some (sg +:+ String c EmptyString, r')
      else if is_digit c
      then let '(d, rest) := span_digits r' in Some (sg +:+ String c d, rest)
      else None
  | EmptyString => None
  end.

Definition scan_number (s : string) : option (string * string) :=
  match scan_int s with
  | Some (i, r) =>
      let '(f, r1) := scan_frac r in
      let '(e, r2) := scan_exp r1 in
      Some (i +:+ f +:+ e, r2)
  | None => None
  end.

(** [s] starts with the word [w]: what follows it. *)
Fixpoint after_word (w s : string) : option string :=
  match w with
  | EmptyString => Some s
  | String a w' =>
      match s with
      | String b s' => if Ascii.eqb a b then after_word w' s' else None
      | EmptyString => None
      end
  end.

Definition scan_word (w : string) (v : value) (s : string)
  : option (value * string) :=
  match after_word w s with
  | Some r => Some (v, r)
  | None => None
  end.

(** [scan_once]: one value at the head of [s] (no leading blank), and the
    rest of the text.  The argument [n] bounds the number of nested calls;
    [loads] gives more than any text needs. *)
Fixpoint scan_once (n : nat) (s : string) {struct n} : option (value * string) :=
  match n with
  | O => None
  | S n' =>
      match s with
      | EmptyString => None
      | String c r =>
          if Ascii.eqb c dquote then
            match scan_string r with
            | Some (t, rest) => Some (VStr t, rest)
            | None => None
            end
          else if Ascii.eqb c "{"%char then
            match skip_ws r with
            | String c1 r1 =>
                if Ascii.eqb c1 "}"%char then Some (VDict [], r1)
                else if Ascii.eqb c1 dquote then
                  match scan_members n' r1 with
                  | Some (kvs, rest) => Some (VDict (Dict.of_pairs kvs), rest)
                  | None => None
                  end
                else None
            | EmptyString => None
            end
          else if Ascii.eqb c "["%char then
            match skip_ws r with
            | String c1 r1 =>
                if Ascii.eqb c1 "]"%char then Some (VList [], r1)
                else
                  match scan_elems n' (String c1 r1) with
                  | Some (vs, rest) => Some (VList vs, rest)
                  | None => None
                  end
            | EmptyString => None
            end
          else if Ascii.eqb c "n"%char then scan_word "null" VNone s
          else if Ascii.eqb c "t"%char then scan_word "true" (VBool true) s
          else if Ascii.eqb c "f"%char then scan_word "false" (VBool false) s
          else
            match scan_number s with
            | Some (lit, rest) => Some (VNum lit, rest)
            | None =>
                if Ascii.eqb c "N"%char then scan_word "NaN" (VNum "NaN") s
                else if Ascii.eqb c "I"%char
                then scan_word "Infinity" (VNum "Infinity") s
                else if Ascii.eqb c "-"%char
                then scan_word "-Infinity" (VNum "-Infinity") s
                else None
            end
      end
  end

(** The elements of an array, from the first one to the closing bracket. *)
with scan_elems (n : nat) (s : string) {struct n}
  : option (list value * string) :=
  match n with
  | O => None
  | S n' =>
      match scan_once n' s with
      | Some (v, r) =>
          match skip_ws r with
          | String c r1 =>
              if Ascii.eqb c "]"%char then Some ([v], r1)
              else if Ascii.eqb c ","%char then
                match scan_elems n' (skip_ws r1) with
                | Some (vs, rest) => Some (v :: vs, rest)
                | None => None
                end
              else None
          | EmptyString => None
          end
      | None => None
      end
  end

(** The members of an object, from just after the opening quote of the first
    key to the closing brace. *)
with scan_members (n : nat) (s : string) {struct n}
  : option (list (string * value) * string) :=
  match n with
  | O => None
  | S n' =>
      match scan_string s with
      | Some (k, r) =>
          match skip_ws r with
          | String c r1 =>
              if Ascii.eqb c ":"%char then
                match scan_once n' (skip_ws r1) with
                | Some (v, r2) =>
                    match skip_ws r2 with
                    | String c2 r3 =>
                        if Ascii.eqb c2 "}"%char then Some ([(k, v)], r3)
                        else if Ascii.eqb c2 ","%char then
                          match skip_ws r3 with
                          | String c3 r4 =>
                              if Ascii.eqb c3 dquote then
                                match scan_members n' r4 with
                                | Some (kvs, rest) => Some ((k, v) :: kvs, rest)
                                | None => None
                                end
                              else None
                          | EmptyString => None
                          end
                        else None
                    | EmptyString => None
                    end
                | None => None
                end
              else None
          | EmptyString => None
          end
      | None => None
      end
  end.

(** [json.loads(s)]: [None] stands for [json.JSONDecodeError].  Blanks are
    skipped on both sides of the one value; anything else left over is the
    "Extra data" error. *)
Definition loads (s : string) : option value :=
  match scan_once (2 * String.length s + 2) (skip_ws s) with
  | Some (v, rest) =>
      match skip_ws rest with
      | EmptyString => Some v
      | String _ _ => None
      end
  | None => None
  end.

End Json.

(** ** The surroundings of the program *)

(** What the interpreter and pydantic provide and this embedding leaves
    open: binary floating point ([float(...)] of a JSON number, of a bool and
    of a string as pydantic's lax mode converts them, and [repr] of a float as
    [json.dumps] writes it) and the per-process salted [hash] of a string. *)
Class PyRuntime : Type := {
  pyfloat : Type;
  float_of_number : string -> option pyfloat;
  float_of_bool : bool -> pyfloat;
  float_of_str : string -> option pyfloat;
  float_repr : pyfloat -> string;
  str_hash : string -> Z
}.

(** config/__init__.py: the settings read from the environment. *)
Record Config : Type := {
  TAVILY_API_KEY : option string;
  OPENROUTER_API_KEY : option string;
  OPENROUTER_BASE_URL : string;
  TAVILY_SEARCH_PARAMS_JOB : Dict.t;
  TAVILY_SEARCH_PARAMS_COURSE : Dict.t;
  API_TIMEOUT : Z
}.

(** [x or y] for an optional string and for an optional integer: [None], the
    empty string and 0 are falsy. *)
Definition or_str (x y : option string) : option string :=
  match x with
  | Some s => if String.eqb s EmptyString then y else x
  | None => y
  end.

Definition or_int (x : option Z) (y : Z) : Z :=
  match x with
  | Some n => if n =? 0 then y else n
  | None => y
  end.

(** [Config.validate()] *)
Definition Config_validate (cfg : Config) : res unit :=
  match or_str (TAVILY_API_KEY cfg) None with
  | None =>
      Raise (Exn ValueError "Missing TAVILY_API_KEY in environment variables.")
  | Some _ =>
      match or_str (OPENROUTER_API_KEY cfg) None with
      | None =>
          Raise (Exn ValueError
                   "Missing OPENROUTER_API_KEY in environment variables.")
      | Some _ => Ok tt
      end
  end.

(** One chat message, the request sent to the generation endpoint and the
    parts of its answer the client reads. *)
Record message : Type := { role : string; content : string }.

Record chat_request : Type := {
  extra_headers : list (string * string);
  model : string;
  messages : list message;
  temperature : Q;
  max_tokens : Z
}.

Inductive usage_attr : Type :=
| NoUsageAttr
| UsageNone
| Usage (prompt_tokens completion_tokens total_tokens : Z).

(** [choices] holds [choice.message.content] of each choice, a [str] or
    [None]. *)
Record completion : Type := {
  usage : usage_attr;
  choices : list (option string)
}.

Record http_request : Type := {
  url : string;
  headers : list (string * string);
  data : Dict.t;
  http_timeout : Z
}.

(** The world outside the process: how each endpoint answers its n-th
    request, the requests made so far and the durations slept so far, oldest
    first. *)
Record World : Type := {
  chat_endpoint : nat -> chat_request -> res completion;
  chat_log : list chat_request;
  http_endpoint : nat -> http_request -> res value;
  http_log : list http_request;
  slept : list Q
}.

(** [client.chat.completions.create(...)] *)
Definition chat_create (rq : chat_request) (w : World) : res completion * World :=
  (chat_endpoint w (length (chat_log w)) rq,
   {| chat_endpoint := chat_endpoint w; chat_log := chat_log w ++ [rq];
      http_endpoint := http_endpoint w; http_log := http_log w;
      slept := slept w |}).

(** [requests.post(...)], [raise_for_status()] and [response.json()] *)
Definition http_post (rq : http_request) (w : World) : res value * World :=
  (http_endpoint w (length (http_log w)) rq,
   {| chat_endpoint := chat_endpoint w; chat_log := chat_log w;
      http_endpoint := http_endpoint w; http_log := http_log w ++ [rq];
      slept := slept w |}).

(** [time.sleep(d)]: a negative duration is a [ValueError]. *)
Definition sleep (d : Q) (w : World) : res unit * World :=
  if Qle_bool 0 d then
    (Ok tt,
     {| chat_endpoint := chat_endpoint w; chat_log := chat_log w;
        http_endpoint := http_endpoint w; http_log := http_log w;
        slept := slept w ++ [d] |})
  else (Raise (Exn ValueError "sleep length must be non-negative"), w).

(** [retry_delay * (2 ** attempt)] *)
Definition backoff (retry_delay : Q) (attempt : Z) : Q :=
  (retry_delay * inject_Z (2 ^ attempt))%Q.

(** ** tools/llm_interface.py *)

Module OpenRouterLLM.

Record t : Type := {
  api_key : string;
  base_url : string;
  max_retries : Z;
  retry_delay : Q;
  timeout : Z;
  total_tokens : Z;
  total_prompt_tokens : Z;
  total_completion_tokens : Z;
  total_cost : Q
}.

Definition default_max_retries : Z := 3.
Definition default_retry_delay : Q := 1.

Definition __init__ (cfg : Config) (api_key : option string)
    (max_retries : Z) (retry_delay : Q) (timeout : option Z) : res t :=
  match or_str api_key (OPENROUTER_API_KEY cfg) with
  | None => Raise (Exn ValueError "OpenRouter API key is required")
  | Some k =>
      if String.eqb k EmptyString
      then Raise (Exn ValueError "OpenRouter API key is required")
      else Ok {| api_key := k;
                 base_url := OPENROUTER_BASE_URL cfg;
                 max_retries := max_retries;
                 retry_delay := retry_delay;
                 timeout := or_int timeout (API_TIMEOUT cfg);
                 total_tokens := 0;
                 total_prompt_tokens := 0;
                 total_completion_tokens := 0;
                 total_cost := 0 |}
  end.

Definition the_extra_headers : list (string * string) :=
  [("HTTP-Referer", "https://career-advisor-agent.com");
   ("X-Title", "Career Advisor Agent")].

(** [prompt: Union[str, List[Dict[str, str]]]] *)
Inductive prompt : Type :=
| PromptStr (s : string)
| PromptMessages (l : list message).

Definition messages_of (p : prompt) : list message :=
  match p with
  | PromptStr s => [{| role := "user"; content := s |}]
  | PromptMessages l => l
  end.

(** The three [+=] of the usage block, in order. *)
Definition add_usage (self : t) (p c n : Z) : t :=
  {| api_key := api_key self; base_url := base_url self;
     max_retries := max_retries self; retry_delay := retry_delay self;
     timeout := timeout self;
     total_tokens := total_tokens self + n;
     total_prompt_tokens := total_prompt_tokens self + p;
     total_completion_tokens := total_completion_tokens self + c;
     total_cost := total_cost self |}.

(** "Track usage if available": [usage] may be absent as an attribute, or
    present and [None], in which case reading [usage.prompt_tokens] raises. *)
Definition track_usage (self : t) (c : completion) : res unit * t :=
  match usage c with
  | NoUsageAttr => (Ok tt, self)
  | UsageNone =>
      (Raise (Exn AttributeError
                "'NoneType' object has no attribute 'prompt_tokens'"), self)
  | Usage p k n => (Ok tt, add_usage self p k n)
  end.

Definition opt_str (o : option string) : value :=
  match o with Some s => VStr s | None => VNone end.

(** The dictionary [generate_text] returns around [content]. *)
Definition envelope (content : value) : value :=
  VDict [("choices", VList [VDict [("message", VDict [("content", content)])]])].

(** [completion.choices[0].message.content] wrapped in the envelope. *)
Definition build_response (c : completion) : res value :=
  match choices c with
  | [] => Raise (Exn IndexError "list index out of range")
  | m :: _ => Ok (envelope (opt_str m))
  end.

(** The body of the [try] of one attempt. *)
Definition attempt_once (self : t) (rq : chat_request) (w : World)
  : res value * t * World :=
  let '(r, w1) := chat_create rq w in
  match r with
  | Raise e => (Raise e, self, w1)
  | Ok c =>
      let '(u, self1) := track_usage self c in
      match u with
      | Raise e => (Raise e, self1, w1)
      | Ok _ => (build_response c, self1, w1)
      end
  end.

Definition failed_message (self : t) : string :=
  "Failed to get LLM response after " +:+ pretty (max_retries self)
  +:+ " attempts".

(** [for attempt in range(self.max_retries)]: [todo] iterations are left and
    the next one has index [attempt].  When the range is used up the function
    falls off its end and returns [None]. *)
Fixpoint attempts (rq : chat_request) (todo : nat) (attempt : Z)
    (self : t) (w : World) {struct todo} : res value * t * World :=
  match todo with
  | O => (Ok VNone, self, w)
  | S todo' =>
      let '(r, self1, w1) := attempt_once self rq w in
      match r with
      | Ok response => (Ok response, self1, w1)
      | Raise e =>
          if attempt <? max_retries self1 - 1 then
            let '(s, w2) := sleep (backoff (retry_delay self1) attempt) w1 in
            match s with
            | Ok _ => attempts rq todo' (attempt + 1) self1 w2
            | Raise e' => (Raise e', self1, w2)
            end
          else (Raise (ExnFrom Exception (failed_message self1) e), self1, w1)
      end
  end.

Definition generate_text (self : t) (p : prompt) (model : string)
    (temperature : Q) (max_tokens : Z) (w : World) : res value * t * World :=
  let rq := {| extra_headers := the_extra_headers; model := model;
               messages := messages_of p; temperature := temperature;
               max_tokens := max_tokens |} in
  attempts rq (Z.to_nat (max_retries self)) 0 self w.

Record usage_stats : Type := {
  stats_total_tokens : Z;
  stats_prompt_tokens : Z;
  stats_completion_tokens : Z;
  estimated_cost : Q
}.

Definition get_usage_stats (self : t) : usage_stats :=
  {| stats_total_tokens := total_tokens self;
     stats_prompt_tokens := total_prompt_tokens self;
     stats_completion_tokens := total_completion_tokens self;
     estimated_cost := total_cost self |}.

End OpenRouterLLM.

(** The keyword arguments [get_completion] passes on; an omitted one takes
    the default of [generate_text]. *)
Record kwargs : Type := {
  kw_model : option string;
  kw_temperature : option Q;
  kw_max_tokens : option Z
}.

Definition kw_temp (x : Q) : kwargs :=
  {| kw_model := None; kw_temperature := Some x; kw_max_tokens := None |}.

(** An object with the [generate_text] method of [OpenRouterLLM]: the class
    itself, a subclass or a stand-in.  [L] is all the state the method sees. *)
Class TextGenerator (L : Type) : Type := {
  generate_text : L -> string -> string -> Q -> Z -> res value * L
}.

(** [d.get(k, default)]; only a [dict] has the method. *)
Definition py_get (v : value) (k : string) (default : value) : res value :=
  match v with
  | VDict d => Ok (match Dict.get d k with Some x => x | None => default end)
  | _ => Raise (Exn AttributeError "object has no attribute 'get'")
  end.

(** [v[0]] *)
Definition py_first (v : value) : res value :=
  match v with
  | VList (x :: _) => Ok x
  | VList [] => Raise (Exn IndexError "list index out of range")
  | VStr (String c _) => Ok (VStr (String c EmptyString))
  | VStr EmptyString => Raise (Exn IndexError "string index out of range")
  | VDict _ => Raise (Exn KeyError "0")
  | _ => Raise (Exn TypeError "object is not subscriptable")
  end.

(** [response.get("choices", [{}])[0].get("message", {}).get("content", empty)],
    [empty] the empty string. *)
Definition completion_text (response : value) : res value :=
  (c <- py_get response "choices" (VList [VDict []]) ;;
   c0 <- py_first c ;;
   m <- py_get c0 "message" (VDict []) ;;
   py_get m "content" (VStr EmptyString))%res.

(** [get_completion(prompt, **kwargs)] *)
Definition get_completion {L} `{TextGenerator L} (self : L) (prompt : string)
    (kw : kwargs) : res value * L :=
  let '(r, self1) :=
    generate_text self prompt
      (default "openai/gpt-4o-mini" (kw_model kw))
      (default (7 # 10)%Q (kw_temperature kw))
      (default 1000 (kw_max_tokens kw)) in
  match r with
  | Ok response => (completion_text response, self1)
  | Raise e => (Raise e, self1)
  end.

(** [OpenRouterLLM] talking to the world. *)
#[export] Instance OpenRouterLLM_generator
  : TextGenerator (OpenRouterLLM.t * World) := {
  generate_text '(self, w) p m t k :=
    let '(r, self1, w1) :=
      OpenRouterLLM.generate_text self (OpenRouterLLM.PromptStr p) m t k w in
    (r, (self1, w1))
}.

(** ** tools/tavily_search.py *)

Module TavilySearchTool.

Record t : Type := {
  api_key : string;
  max_retries : Z;
  retry_delay : Q;
  timeout : Z
}.

Definition BASE_URL : string := "https://api.tavily.com/search".

Definition the_headers : list (string * string) :=
  [("Content-Type", "application/json")].

Definition __init__ (cfg : Config) (api_key : option string)
    (max_retries : Z) (retry_delay : Q) (timeout : option Z) : res t :=
  match or_str api_key (TAVILY_API_KEY cfg) with
  | None => Raise (Exn ValueError "Tavily API key is required")
  | Some k =>
      if String.eqb k EmptyString
      then Raise (Exn ValueError "Tavily API key is required")
      else Ok {| api_key := k; max_retries := max_retries;
                 retry_delay := retry_delay;
                 timeout := or_int timeout (API_TIMEOUT cfg) |}
  end.

(** [dict.update]: the entries of [extra], in order, written over [d]. *)
Definition update (d extra : Dict.t) : Dict.t :=
  fold_left (fun acc kv => Dict.set acc (fst kv) (snd kv)) extra d.

(** [{"api_key": ..., "query": ..., **search_params}] *)
Definition payload (self : t) (query : string) (search_params : Dict.t)
  : Dict.t :=
  update [("api_key", VStr (api_key self)); ("query", VStr query)]
         search_params.

Definition failed_message (self : t) : string :=
  "Failed to get search results after " +:+ pretty (max_retries self)
  +:+ " attempts".

(** The retry loop of [search]; the handler is
    [except requests.exceptions.RequestException], any other exception
    leaves the function at once. *)
Fixpoint attempts (self : t) (rq : http_request) (todo : nat) (attempt : Z)
    (w : World) {struct todo} : res value * World :=
  match todo with
  | O => (Ok VNone, w)
  | S todo' =>
      let '(r, w1) := http_post rq w in
      match r with
      | Ok result => (Ok result, w1)
      | Raise e =>
          match exn_cls e with
          | RequestException =>
              if attempt <? max_retries self - 1 then
                let '(s, w2) := sleep (backoff (retry_delay self) attempt) w1 in
                match s with
                | Ok _ => attempts self rq todo' (attempt + 1) w2
                | Raise e' => (Raise e', w2)
                end
              else (Raise (ExnFrom Exception (failed_message self) e), w1)
          | _ => (Raise e, w1)
          end
      end
  end.

Definition search (self : t) (query : string) (search_params : option Dict.t)
    (w : World) : res value * World :=
  let rq := {| url := BASE_URL; headers := the_headers;
               data := payload self query (default [] search_params);
               http_timeout := timeout self |} in
  attempts self rq (Z.to_nat (max_retries self)) 0 w.

Definition strs (l : list string) : value := VList (map VStr l).

Definition search_job_market (cfg : Config) (self : t) (query : string)
    (w : World) : res value * World :=
  search self query
    (Some (update (TAVILY_SEARCH_PARAMS_JOB cfg)
             [("include_domains",
               strs ["linkedin.com"; "indeed.com"; "glassdoor.com";
                     "monster.com"; "dice.com"; "bls.gov"]);
              ("search_depth", VStr "advanced")])) w.

Definition search_courses (cfg : Config) (self : t) (query : string)
    (w : World) : res value * World :=
  search self query
    (Some (update (TAVILY_SEARCH_PARAMS_COURSE cfg)
             [("include_domains",
               strs ["coursera.org"; "udemy.com"; "edx.org"; "pluralsight.com";
                     "udacity.com"; "linkedin.com/learning"; "skillshare.com"]);
              ("search_depth", VStr "advanced")])) w.

End TavilySearchTool.

(** ** agents/base_agent.py *)

Module BaseAgent.

(** [L] is the state of the injected generation client, [D] the type of the
    cached payloads.  A cache entry is [{"data": ..., "timestamp": ...}]. *)
Record t (L D : Type) : Type := {
  llm : L;
  search_tool : TavilySearchTool.t;
  execution_time : Q;
  result_cache : gmap string (D * Q)
}.
Arguments llm {L D} _.
Arguments search_tool {L D} _.
Arguments execution_time {L D} _.
Arguments result_cache {L D} _.

Definition __init__ {L D} (llm : L) (search_tool : TavilySearchTool.t) : t L D :=
  {| llm := llm; search_tool := search_tool; execution_time := 0;
     result_cache := ∅ |}.

Definition set_llm {L D} (self : t L D) (l : L) : t L D :=
  {| llm := l; search_tool := search_tool self;
     execution_time := execution_time self;
     result_cache := result_cache self |}.

(** [_cache_result(key, data)]; [now] is what [time.time()] returns. *)
Definition _cache_result {L D} (self : t L D) (key : string) (data : D)
    (now : Q) : t L D :=
  {| llm := llm self; search_tool := search_tool self;
     execution_time := execution_time self;
     result_cache := <[key := (data, now)]> (result_cache self) |}.

(** [age > max_age_seconds] *)
Definition too_old (now timestamp max_age_seconds : Q) : bool :=
  negb (Qle_bool (now - timestamp) max_age_seconds).

(** [_get_cached_result(key, max_age_seconds)]: the value returned ([None]
    for Python's [None]) and the agent after the call. *)
Definition _get_cached_result {L D} (self : t L D) (key : string)
    (max_age_seconds : Q) (now : Q) : option D * t L D :=
  match result_cache self !! key with
  | None => (None, self)
  | Some (data, timestamp) =>
      if too_old now timestamp max_age_seconds then (None, self)
      else (Some data, self)
  end.

Definition default_max_age_seconds : Q := 3600.

(** [_format_prompt(template, **kwargs)]: a [KeyError] of [str.format]
    becomes a [ValueError], any other exception passes.  The variables are
    strings, as in the two calls of the source; [None] where [str.format] is
    outside the embedding. *)
Definition _format_prompt (template : string)
    (kwargs : list (string * string)) : option (res string) :=
  match PyStr.format template kwargs with
  | Some (Raise e) =>
      match exn_cls e with
      | KeyError =>
          Some (Raise (Exn ValueError
                         ("Missing required variable in prompt template: "
                          +:+ exn_msg e)))
      | _ => Some (Raise e)
      end
  | r => r
  end.

(** [get_performance_stats()] of an agent whose client is the stock
    [OpenRouterLLM] (an object without [__bool__] or [__len__], hence true). *)
Record performance_stats : Type := {
  stats_execution_time : Q;
  llm_usage : option OpenRouterLLM.usage_stats;
  cache_size : Z
}.

Definition get_performance_stats {D}
    (self : t (OpenRouterLLM.t * World) D) : performance_stats :=
  {| stats_execution_time := execution_time self;
     llm_usage := Some (OpenRouterLLM.get_usage_stats (fst (llm self)));
     cache_size := Z.of_nat (size (result_cache self)) |}.

End BaseAgent.

(** ** agents/profile_analyzer.py: the two models *)

Definition str_field (d : Dict.t) (k : string) : option string :=
  match Dict.get d k with
  | Some (VStr s) => Some s
  | _ => None
  end.

Definition all_strs (l : list value) : option (list string) :=
  mapM (fun v => match v with VStr s => Some s | _ => None end) l.

Definition str_list_field (d : Dict.t) (k : string) : option (list string) :=
  match Dict.get d k with
  | Some (VList l) => all_strs l
  | _ => None
  end.

Definition member (x : string) (l : list string) : bool :=
  existsb (String.eqb x) l.

(** A validator: the lowered value when it is one of [allowed], else the
    [ValueError] with the message of the source. *)
Definition one_of (what : string) (allowed : list string) (v : string)
  : res string :=
  if negb (member (PyStr.lower v) allowed)
  then Raise (Exn ValueError (what +:+ " must be one of: "
                              +:+ String.concat ", " allowed))
  else Ok (PyStr.lower v).

Definition res_opt {A} (r : res A) : option A :=
  match r with Ok a => Some a | Raise _ => None end.

Module Skill.
Section WithRuntime.
Context `{PyRuntime}.

Record t : Type := {
  name : string;
  category : string;
  level : string;
  years_experience : pyfloat
}.

Definition validate_level (v : string) : res string :=
  one_of "Skill level" ["beginner"; "intermediate"; "advanced"; "expert"] v.

Definition validate_category (v : string) : res string :=
  one_of "Skill category" ["technical"; "soft"; "domain"] v.

(** The [float] field in pydantic's lax mode. *)
Definition float_field (d : Dict.t) (k : string) : option pyfloat :=
  match Dict.get d k with
  | Some (VNum lit) => float_of_number lit
  | Some (VBool b) => Some (float_of_bool b)
  | Some (VStr s) => float_of_str s
  | _ => None
  end.

(** [Skill] called with [skill_data] unpacked as keyword arguments: the
    argument must be a mapping; every field is
    required, a [str] field takes a [str] only, extra keys are ignored, and
    a field validator runs on a value of the right type. *)
Definition init (skill_data : value) : res t :=
  match skill_data with
  | VDict d =>
      match str_field d "name",
            str_field d "category" ≫= (fun v => res_opt (validate_category v)),
            str_field d "level" ≫= (fun v => res_opt (validate_level v)),
            float_field d "years_experience" with
      | Some n, Some c, Some l, Some y =>
          Ok {| name := n; category := c; level := l; years_experience := y |}
      | _, _, _, _ =>
          Raise (Exn ValidationError "validation errors for Skill")
      end
  | _ => Raise (Exn TypeError "argument after ** must be a mapping")
  end.

End WithRuntime.
End Skill.

Module ProfileAnalysis.
Section WithRuntime.
Context `{PyRuntime}.

Record t : Type := {
  skills : list Skill.t;
  experience_level : string;
  career_progression : string;
  strengths : list string;
  weaknesses : list string;
  career_trajectory : string;
  education_relevance : string
}.

Definition validate_experience_level (v : string) : res string :=
  one_of "Experience level"
    ["entry"; "junior"; "mid"; "senior"; "lead"; "executive"] v.

(** [ProfileAnalysis(skills=skills, **analysis)]: [analysis] must be a
    mapping and may not itself carry the keyword [skills]. *)
Definition init (skills : list Skill.t) (analysis : value) : res t :=
  match analysis with
  | VDict d =>
      if Dict.mem d "skills"
      then Raise (Exn TypeError
                    "got multiple values for keyword argument 'skills'")
      else
        match str_field d "experience_level"
                ≫= (fun v => res_opt (validate_experience_level v)),
              str_field d "career_progression",
              str_list_field d "strengths",
              str_list_field d "weaknesses",
              str_field d "career_trajectory",
              str_field d "education_relevance" with
        | Some e, Some p, Some s, Some k, Some j, Some r =>
            Ok {| skills := skills; experience_level := e;
                  career_progression := p; strengths := s; weaknesses := k;
                  career_trajectory := j; education_relevance := r |}
        | _, _, _, _, _, _ =>
            Raise (Exn ValidationError "validation errors for ProfileAnalysis")
        end
  | _ => Raise (Exn TypeError "argument after ** must be a mapping")
  end.

End WithRuntime.
End ProfileAnalysis.

(** ** agents/profile_analyzer.py: the agent *)

(** [json.dumps] of a string (with [ensure_ascii]) and of the list of
    [skill.dict()]. *)
Module Dumps.
Import PyStr.

Definition hex_digit (n : N) : ascii :=
  if (n <? 10)%N then ascii_of_N (48 + n) else ascii_of_N (87 + n).

Definition escape_char (c : ascii) : string :=
  let n := N_of_ascii c in
  let bs (x : ascii) := String backslash (String x EmptyString) in
  if Ascii.eqb c dquote then bs dquote
  else if Ascii.eqb c backslash then bs backslash
  else if (n =? 10)%N then bs "n"%char
  else if (n =? 13)%N then bs "r"%char
  else if (n =? 9)%N then bs "t"%char
  else if (n =? 8)%N then bs "b"%char
  else if (n =? 12)%N then bs "f"%char
  else if ((n <? 32) || (126 <? n))%N
  then String backslash
         (String "u"%char
            (String "0"%char
               (String "0"%char
                  (String (hex_digit (n / 16))
                     (String (hex_digit (n mod 16)) EmptyString)))))
  else String c EmptyString.

Fixpoint escape (s : string) : string :=
  match s with
  | EmptyString => EmptyString
  | String c r => escape_char c +:+ escape r
  end.

Definition str (s : string) : string :=
  String dquote (escape s) +:+ String dquote EmptyString.

Definition skill `{PyRuntime} (sk : Skill.t) : string :=
  "{" +:+ str "name" +:+ ": " +:+ str (Skill.name sk) +:+ ", "
  +:+ str "category" +:+ ": " +:+ str (Skill.category sk) +:+ ", "
  +:+ str "level" +:+ ": " +:+ str (Skill.level sk) +:+ ", "
  +:+ str "years_experience" +:+ ": "
  +:+ float_repr (Skill.years_experience sk) +:+ "}".

Definition skills `{PyRuntime} (l : list Skill.t) : string :=
  "[" +:+ String.concat ", " (map skill l) +:+ "]".

End Dumps.

Module ProfileAnalyzerAgent.
Import PyStr.
Section WithRuntime.
Context `{PyRuntime} {L : Type} `{TextGenerator L}.

Local Abbreviation agent := (BaseAgent.t L ProfileAnalysis.t).

(** [_format_prompt(SKILL_EXTRACTION_PROMPT, profile_text=...)] *)
Definition SKILL_EXTRACTION_PROMPT (profile_text : string) : string :=
  q "
    Analyze the following professional profile and extract all the skills mentioned.
    For each skill, determine:
    1. The skill name
    2. The category (technical, soft, domain)
    3. The estimated proficiency level (beginner, intermediate, advanced, expert)
    4. The estimated years of experience with the skill

    Return the results as a JSON array of objects with the following structure:
    [
        {
            'name': 'skill name',
            'category': 'skill category',
            'level': 'proficiency level',
            'years_experience': years as a number
        }
    ]

    Your response must contain ONLY the JSON array and nothing else.

    Profile to analyze:
    "
  +:+ profile_text
  +:+ q "
    ".

(** [_format_prompt(PROFILE_ANALYSIS_PROMPT, profile_text=..., skills_json=...)] *)
Definition PROFILE_ANALYSIS_PROMPT (profile_text skills_json : string) : string :=
  q "
    Perform a comprehensive analysis of the following professional profile.
    Consider the skills, experience, education, and career history to provide:

    1. An overall experience level (entry, junior, mid, senior, lead, executive)
    2. An analysis of career progression (e.g. 'steady advancement in software engineering roles')
    3. A list of 3-5 key strengths
    4. A list of 2-4 potential weaknesses or areas for improvement
    5. An analysis of career trajectory and potential future paths
    6. An assessment of the relevance of their education to their career

    Return the results in JSON format with the following structure:
    {
        'experience_level': 'level',
        'career_progression': 'analysis',
        'strengths': ['strength1', 'strength2', ...],
        'weaknesses': ['weakness1', 'weakness2', ...],
        'career_trajectory': 'analysis',
        'education_relevance': 'analysis'
    }

    Your response must contain ONLY the JSON object and nothing else.

    Profile to analyze:
    "
  +:+ profile_text
  +:+ q "
    
    Skills already identified:
    "
  +:+ skills_json
  +:+ q "
    ".

(** The two class attributes as written, before [_format_prompt]. *)
Definition SKILL_EXTRACTION_PROMPT_template : string :=
  q "
    Analyze the following professional profile and extract all the skills mentioned.
    For each skill, determine:
    1. The skill name
    2. The category (technical, soft, domain)
    3. The estimated proficiency level (beginner, intermediate, advanced, expert)
    4. The estimated years of experience with the skill

    Return the results as a JSON array of objects with the following structure:
    [
        {{
            'name': 'skill name',
            'category': 'skill category',
            'level': 'proficiency level',
            'years_experience': years as a number
        }}
    ]

    Your response must contain ONLY the JSON array and nothing else.

    Profile to analyze:
    {profile_text}
    ".

Definition PROFILE_ANALYSIS_PROMPT_template : string :=
  q "
    Perform a comprehensive analysis of the following professional profile.
    Consider the skills, experience, education, and career history to provide:

    1. An overall experience level (entry, junior, mid, senior, lead, executive)
    2. An analysis of career progression (e.g. 'steady advancement in software engineering roles')
    3. A list of 3-5 key strengths
    4. A list of 2-4 potential weaknesses or areas for improvement
    5. An analysis of career trajectory and potential future paths
    6. An assessment of the relevance of their education to their career

    Return the results in JSON format with the following structure:
    {{
        'experience_level': 'level',
        'career_progression': 'analysis',
        'strengths': ['strength1', 'strength2', ...],
        'weaknesses': ['weakness1', 'weakness2', ...],
        'career_trajectory': 'analysis',
        'education_relevance': 'analysis'
    }}

    Your response must contain ONLY the JSON object and nothing else.

    Profile to analyze:
    {profile_text}
    
    Skills already identified:
    {skills_json}
    ".

Definition fence_open : string := "```json".
Definition fence_close : string := "```".

(** "Last resort: try to clean the string" *)
Definition clean (response : string) : string :=
  let clean_response := strip response in
  let clean_response :=
    if startswith clean_response fence_open
    then slice clean_response (Some 7) None else clean_response in
  let clean_response :=
    if endswith clean_response fence_close
    then slice clean_response None (Some (-3)) else clean_response in
  strip clean_response.

(** The inner [try] / [except json.JSONDecodeError] that both methods carry,
    for the delimiters [opening] and [closing] ('[' and ']' in
    [_extract_skills], '{' and '}' in [_analyze_profile]).  [None] is the
    [JSONDecodeError] of the last [json.loads], which leaves the handler. *)
Definition parse_response (opening closing : ascii) (response : string)
  : option value :=
  let start_idx := find response opening in
  let end_idx := rfind response closing in
  let first_try :=
    if negb (start_idx =? -1) && negb (end_idx =? -1) && (end_idx >? start_idx)
    then Json.loads (slice response (Some start_idx) (Some (end_idx + 1)))
    else Json.loads response in
  match first_try with
  | Some data => Some data
  | None => Json.loads (clean response)
  end.

(** [for skill_data in skills_data]: what the loop iterates over. *)
Definition py_iter (v : value) : res (list value) :=
  match v with
  | VList l => Ok l
  | VDict d => Ok (map VStr (Dict.keys d))
  | VStr s => Ok (map (fun c => VStr (String c EmptyString))
                      (list_ascii_of_string s))
  | _ => Raise (Exn TypeError "object is not iterable")
  end.

(** The loop over the parsed items: an item whose [Skill] cannot be built is
    skipped with a warning. *)
Fixpoint collect_skills (skills_data : list value) : list Skill.t :=
  match skills_data with
  | [] => []
  | skill_data :: rest =>
      match Skill.init skill_data with
      | Ok skill => skill :: collect_skills rest
      | Raise _ => collect_skills rest
      end
  end.

(** The outer [try] of [_extract_skills] from the answer of
    [get_completion] on: every exception gives the empty list. *)
Definition skills_of_completion (r : res value) : list Skill.t :=
  match r with
  | Ok (VStr response) =>
      match parse_response "["%char "]"%char response with
      | Some skills_data =>
          match py_iter skills_data with
          | Ok items => collect_skills items
          | Raise _ => []
          end
      | None => []
      end
  | Ok _ => []
  | Raise _ => []
  end.

Definition _extract_skills (self : agent) (profile_text : string)
  : list Skill.t * agent :=
  let prompt := SKILL_EXTRACTION_PROMPT profile_text in
  let '(r, l) := get_completion (BaseAgent.llm self) prompt (kw_temp (3 # 10)) in
  (skills_of_completion r, BaseAgent.set_llm self l).

Definition required_fields : list string :=
  ["experience_level"; "career_progression"; "strengths";
   "weaknesses"; "career_trajectory"; "education_relevance"].

Definition not_enough : string := "Not enough information to analyze".

Definition default_value (field : string) : value :=
  if member field ["strengths"; "weaknesses"] then VList [] else VStr not_enough.

(** [field in analysis_data] *)
Definition py_in (field : string) (analysis_data : value) : res bool :=
  match analysis_data with
  | VDict d => Ok (Dict.mem d field)
  | VList l =>
      Ok (existsb (fun v => match v with
                            | VStr s => String.eqb s field
                            | _ => false
                            end) l)
  | VStr s => Ok (contains s field)
  | _ => Raise (Exn TypeError "argument is not iterable")
  end.

(** [analysis_data[field] = v] *)
Definition py_setitem (analysis_data : value) (field : string) (v : value)
  : res value :=
  match analysis_data with
  | VDict d => Ok (VDict (Dict.set d field v))
  | _ => Raise (Exn TypeError "object does not support item assignment")
  end.

(** "Validate the expected fields exist": the loop over the fields. *)
Fixpoint fill_defaults (fields : list string) (analysis_data : value)
  : res value :=
  match fields with
  | [] => Ok analysis_data
  | field :: rest =>
      (present <- py_in field analysis_data ;;
       if negb present
       then (filled <- py_setitem analysis_data field (default_value field) ;;
             fill_defaults rest filled)
       else fill_defaults rest analysis_data)%res
  end.

(** "Return default analysis in case of failure" *)
Definition default_analysis : value :=
  VDict [("experience_level", VStr "mid");
         ("career_progression", VStr "Unable to analyze career progression");
         ("strengths", VList [VStr "Unable to identify strengths"]);
         ("weaknesses", VList [VStr "Unable to identify areas for improvement"]);
         ("career_trajectory", VStr "Unable to analyze career trajectory");
         ("education_relevance", VStr "Unable to analyze education relevance")].

(** The outer [try] of [_analyze_profile] from the answer of
    [get_completion] on. *)
Definition analysis_of_completion (r : res value) : value :=
  match r with
  | Ok (VStr response) =>
      match parse_response "{"%char "}"%char response with
      | Some analysis_data =>
          match fill_defaults required_fields analysis_data with
          | Ok repaired => repaired
          | Raise _ => default_analysis
          end
      | None => default_analysis
      end
  | Ok _ => default_analysis
  | Raise _ => default_analysis
  end.

Definition _analyze_profile (self : agent) (profile_text skills_json : string)
  : value * agent :=
  let prompt := PROFILE_ANALYSIS_PROMPT profile_text skills_json in
  let '(r, l) := get_completion (BaseAgent.llm self) prompt (kw_temp (5 # 10)) in
  (analysis_of_completion r, BaseAgent.set_llm self l).

Definition cache_key (profile_text : string) : string :=
  "profile_analysis_" +:+ pretty (str_hash profile_text).

(** [execute(input_data)]; the result is [profile_analysis.dict()], kept here
    as the record, and [now] is the clock reading of [_cache_result]. *)
Definition execute (self : agent) (input_data : gmap string string)
    (now : Q) : res ProfileAnalysis.t * agent :=
  match input_data !! "profile_text" with
  | None =>
      (Raise (Exn ValueError "Profile text is required for analysis"), self)
  | Some profile_text =>
      let '(skills, self1) := _extract_skills self profile_text in
      let skills_json := Dumps.skills skills in
      let '(analysis, self2) := _analyze_profile self1 profile_text skills_json in
      match ProfileAnalysis.init skills analysis with
      | Raise e => (Raise e, self2)
      | Ok profile_analysis =>
          (Ok profile_analysis,
           BaseAgent._cache_result self2 (cache_key profile_text)
             profile_analysis now)
      end
  end.

End WithRuntime.
End ProfileAnalyzerAgent.

(** ** Vocabulary of the properties *)

(** The world after further chat requests, search requests and sleeps. *)
Definition after (w : World) (chat : list chat_request)
    (http : list http_request) (naps : list Q) : World :=
  {| chat_endpoint := chat_endpoint w; chat_log := chat_log w ++ chat;
     http_endpoint := http_endpoint w; http_log := http_log w ++ http;
     slept := slept w ++ naps |}.

(** The generation endpoint fails at every request. *)
Definition chat_always_fails (w : World) : Prop :=
  forall i rq, raises (chat_endpoint w i rq).

(** The search endpoint fails at every request, with a failure of
    [requests]. *)
Definition http_always_fails (w : World) : Prop :=
  forall i rq, exists e,
    http_endpoint w i rq = Raise e /\ exn_cls e = RequestException.

(** The delays [d * 2^0, d * 2^1, ...] of the first [n] retries. *)
Definition backoff_delays (d : Q) (n : Z) : list Q :=
  (fun k => (d * inject_Z (2 ^ k))%Q) <$> seqZ 0 n.

Definition chat_request_of (p : OpenRouterLLM.prompt) (model : string)
    (temperature : Q) (max_tokens : Z) : chat_request :=
  {| extra_headers := OpenRouterLLM.the_extra_headers; model := model;
     messages := OpenRouterLLM.messages_of p; temperature := temperature;
     max_tokens := max_tokens |}.

Definition http_request_of (self : TavilySearchTool.t) (query : string)
    (search_params : option Dict.t) : http_request :=
  {| url := TavilySearchTool.BASE_URL; headers := TavilySearchTool.the_headers;
     data := TavilySearchTool.payload self query (default [] search_params);
     http_timeout := TavilySearchTool.timeout self |}.

(** A world in which both endpoints refuse every request. *)
Definition dead_world : World :=
  {| chat_endpoint := fun _ _ => Raise (Exn APIError "Connection error.");
     chat_log := [];
     http_endpoint := fun _ _ => Raise (Exn RequestException "timed out");
     http_log := [];
     slept := [] |}.

Definition sample_llm (n : Z) (d : Q) : OpenRouterLLM.t :=
  {| OpenRouterLLM.api_key := "k";
     OpenRouterLLM.base_url := "https://openrouter.ai/api/v1";
     OpenRouterLLM.max_retries := n; OpenRouterLLM.retry_delay := d;
     OpenRouterLLM.timeout := 30; OpenRouterLLM.total_tokens := 0;
     OpenRouterLLM.total_prompt_tokens := 0;
     OpenRouterLLM.total_completion_tokens := 0;
     OpenRouterLLM.total_cost := 0 |}.

Definition sample_tool (n : Z) (d : Q) : TavilySearchTool.t :=
  {| TavilySearchTool.api_key := "k"; TavilySearchTool.max_retries := n;
     TavilySearchTool.retry_delay := d; TavilySearchTool.timeout := 30 |}.

(** One call of [generate_text] and a sequence of such calls on the same
    client. *)
Record gen_call : Type := {
  call_prompt : OpenRouterLLM.prompt;
  call_model : string;
  call_temperature : Q;
  call_max_tokens : Z
}.

Fixpoint run_calls (calls : list gen_call) (self : OpenRouterLLM.t) (w : World)
  : OpenRouterLLM.t * World :=
  match calls with
  | [] => (self, w)
  | c :: rest =>
      let '(_, self1, w1) :=
        OpenRouterLLM.generate_text self (call_prompt c) (call_model c)
          (call_temperature c) (call_max_tokens c) w in
      run_calls rest self1 w1
  end.

(** The endpoint never reports a negative token count. *)
Definition usage_nonneg (w : World) : Prop :=
  forall i rq c p k n,
    chat_endpoint w i rq = Ok c -> usage c = Usage p k n ->
    0 <= p /\ 0 <= k /\ 0 <= n.

(** The three token counters of [self2] are at least those of [self1]. *)
Definition counters_le (self1 self2 : OpenRouterLLM.t) : Prop :=
  OpenRouterLLM.total_tokens self1 <= OpenRouterLLM.total_tokens self2
  /\ OpenRouterLLM.total_prompt_tokens self1
     <= OpenRouterLLM.total_prompt_tokens self2
  /\ OpenRouterLLM.total_completion_tokens self1
     <= OpenRouterLLM.total_completion_tokens self2.

Definition sample_config : Config :=
  {| TAVILY_API_KEY := Some "tvly-key";
     OPENROUTER_API_KEY := Some "sk-or-key";
     OPENROUTER_BASE_URL := "https://openrouter.ai/api/v1";
     TAVILY_SEARCH_PARAMS_JOB :=
       [("search_depth", VStr "advanced"); ("max_results", VNum "10")];
     TAVILY_SEARCH_PARAMS_COURSE :=
       [("search_depth", VStr "advanced"); ("max_results", VNum "10")];
     API_TIMEOUT := 30 |}.

(** A world whose generation endpoint fails once and then answers, with a
    usage report. *)
Definition flaky_world : World :=
  {| chat_endpoint := fun i _ =>
       match i with
       | O => Raise (Exn APIError "Connection error.")
       | _ => Ok {| usage := Usage 12 30 42; choices := [Some "[]"] |}
       end;
     chat_log := [];
     http_endpoint := fun _ _ => Raise (Exn RequestException "timed out");
     http_log := [];
     slept := [] |}.

Definition sample_call (p : string) : gen_call :=
  {| call_prompt := OpenRouterLLM.PromptStr p;
     call_model := "openai/gpt-4o-mini";
     call_temperature := 7 # 10;
     call_max_tokens := 1000 |}.

(** The envelope carries the fields [get_completion] reads: it is a
    dictionary whose [choices] is a list that starts with a dictionary, whose
    [message] is a dictionary with a [content] entry. *)
Definition has_fields (response : value) : bool :=
  match response with
  | VDict d =>
      match Dict.get d "choices" with
      | Some (VList (VDict c :: _)) =>
          match Dict.get c "message" with
          | Some (VDict m) => Dict.mem m "content"
          | _ => false
          end
      | _ => false
      end
  | _ => false
  end.

(** A field is missing as a key that is absent: the envelope is a
    dictionary without [choices], or its first choice is a dictionary without
    [message], or that message is a dictionary without [content]. *)
Definition key_absent (response : value) : bool :=
  match response with
  | VDict d =>
      match Dict.get d "choices" with
      | None => true
      | Some (VList (VDict c :: _)) =>
          match Dict.get c "message" with
          | None => true
          | Some (VDict m) => negb (Dict.mem m "content")
          | Some _ => false
          end
      | Some _ => false
      end
  | _ => false
  end.


(** A stand-in for the client, as a test would use: [generate_text] hands
    out the scripted results one after the other. *)
#[export] Instance scripted_generator : TextGenerator (list (res value)) := {
  generate_text script _ _ _ _ :=
    match script with
    | [] => (Raise (Exn Exception "script exhausted"), [])
    | r :: rest => (r, rest)
    end
}.

(** A runtime for the examples: a float is kept as the text it came from,
    a string converts when it is a run of digits, the hash is the length. *)
Definition sample_runtime : PyRuntime :=
  {| pyfloat := string;
     float_of_number := Some;
     float_of_bool := fun b => if b then "1.0" else "0.0";
     float_of_str := fun s =>
       if PyStr.all_chars Json.is_digit s && negb (String.eqb s EmptyString)
       then Some s else None;
     float_repr := fun s => s;
     str_hash := fun s => Z.of_nat (String.length s) |}.

Definition sample_skill (name category level years : string)
  : @Skill.t sample_runtime :=
  @Skill.Build_t sample_runtime name category level years.

Definition sample_agent {L : Type} (l : L)
  : BaseAgent.t L (@ProfileAnalysis.t sample_runtime) :=
  BaseAgent.__init__ l (sample_tool 3 1).

(** The record [execute] returns when both generation calls fail. *)
Definition fallback_profile `{PyRuntime} : ProfileAnalysis.t :=
  {| ProfileAnalysis.skills := [];
     ProfileAnalysis.experience_level := "mid";
     ProfileAnalysis.career_progression := "Unable to analyze career progression";
     ProfileAnalysis.strengths := ["Unable to identify strengths"];
     ProfileAnalysis.weaknesses := ["Unable to identify areas for improvement"];
     ProfileAnalysis.career_trajectory := "Unable to analyze career trajectory";
     ProfileAnalysis.education_relevance := "Unable to analyze education relevance" |}.

(** A well-formed analysis object with every field but [experience_level]. *)
Definition no_level_response : string :=
  PyStr.q "{'career_progression': 'steady', 'strengths': ['focus'], 'weaknesses': ['haste'], 'career_trajectory': 'upward', 'education_relevance': 'direct'}".

(** One valid skill, and an item whose level is not an allowed one. *)
Definition python_item : string :=
  PyStr.q "{'name':'Python','category':'technical','level':'advanced','years_experience':5}".
Definition lead_item : string :=
  PyStr.q "{'name':'Leadership','category':'Soft','level':'Expert','years_experience':3}".
Definition bad_item : string :=
  PyStr.q "{'name':'Cobol','category':'technical','level':'guru','years_experience':1}".

(** The character [c] occurs in [s]. *)
Fixpoint occurs (c : ascii) (s : string) : bool :=
  match s with
  | EmptyString => false
  | String a r => Ascii.eqb a c || occurs c r
  end.

(** A run of characters that [str.strip] removes. *)
Definition blank (s : string) : bool := PyStr.all_chars PyStr.isspace s.

(** A run of the blanks of JSON. *)
Definition jblank (s : string) : bool := PyStr.all_chars Json.is_ws s.

(** [s] is empty or starts with something else than a digit. *)
Definition nodigit (s : string) : bool :=
  match s with
  | EmptyString => true
  | String c _ => negb (Json.is_digit c)
  end.

(** [s] cannot continue a number: it is empty or starts with something else
    than a digit, a dot or an exponent letter. *)
Definition stops (s : string) : bool :=
  match s with
  | EmptyString => true
  | String c _ =>
      negb (Json.is_digit c || Ascii.eqb c "."%char || Ascii.eqb c "e"%char
            || Ascii.eqb c "E"%char)
  end.

Fixpoint last_char (s : string) : option ascii :=
  match s with
  | EmptyString => None
  | String c EmptyString => Some c
  | String _ r => last_char r
  end.

(** The characters the text of a value can start with and end with. *)
Definition opens (v : value) (c : ascii) : bool :=
  match v with
  | VNone => Ascii.eqb c "n"%char
  | VBool b => Ascii.eqb c (if b then "t"%char else "f"%char)
  | VNum _ => Json.is_digit c || Ascii.eqb c "-"%char || Ascii.eqb c "N"%char
              || Ascii.eqb c "I"%char
  | VStr _ => Ascii.eqb c PyStr.dquote
  | VList _ => Ascii.eqb c "["%char
  | VDict _ => Ascii.eqb c "{"%char
  end.

Definition closes (v : value) (c : ascii) : bool :=
  match v with
  | VNone => Ascii.eqb c "l"%char
  | VBool _ => Ascii.eqb c "e"%char
  | VNum _ => Json.is_digit c || Ascii.eqb c "N"%char || Ascii.eqb c "y"%char
  | VStr _ => Ascii.eqb c PyStr.dquote
  | VList _ => Ascii.eqb c "]"%char
  | VDict _ => Ascii.eqb c "}"%char
  end.

(** [s] is empty or starts with something else than a dot, and the same for
    an exponent letter. *)
Definition nodot (s : string) : bool :=
  match s with
  | String c _ => negb (Ascii.eqb c "."%char)
  | EmptyString => true
  end.

Definition noexp (s : string) : bool :=
  match s with
  | String c _ => negb (Ascii.eqb c "e"%char || Ascii.eqb c "E"%char)
  | EmptyString => true
  end.

(** The shape of a piece of a number literal: from a first character of a
    given kind to a last digit. *)
Definition piece (first : ascii -> bool) (u : string) : Prop :=
  exists c r x, u = String c r /\ first c = true
                /\ last_char u = Some x /\ Json.is_digit x = true.

(** Locality of the scanners with [n] nested calls allowed: a successful
    scan used a prefix [used] of its text, shaped as its value wants, and
    scans the same value from [used] followed by any other text that cannot
    continue a number, as soon as twice the length of [used] many nested
    calls are allowed. *)
Definition local_once (n : nat) : Prop :=
  forall s v rest,
    Json.scan_once n s = Some (v, rest) ->
    exists used,
      s = used +:+ rest
      /\ (exists c u, used = String c u /\ opens v c = true)
      /\ (exists x, last_char used = Some x /\ closes v x = true)
      /\ forall m x,
           (2 * String.length used <= m)%nat -> stops x = true ->
           Json.scan_once m (used +:+ x) = Some (v, x).

Definition local_elems (n : nat) : Prop :=
  forall s vs rest,
    Json.scan_elems n s = Some (vs, rest) ->
    exists used,
      s = used +:+ String "]" rest
      /\ forall m x,
           (2 * String.length used + 1 <= m)%nat ->
           Json.scan_elems m (used +:+ String "]" x) = Some (vs, x).

Definition local_members (n : nat) : Prop :=
  forall s kvs rest,
    Json.scan_members n s = Some (kvs, rest) ->
    exists used,
      s = used +:+ String "}" rest
      /\ forall m x,
           (2 * String.length used + 1 <= m)%nat ->
           Json.scan_members m (used +:+ String "}" x) = Some (kvs, x).

(** A world whose search endpoint fails with something else than a failure
    of [requests], and one whose generation endpoint answers without usage
    data ([usage] is [None]). *)
Definition broken_world : World :=
  {| chat_endpoint := fun _ _ => Raise (Exn APIError "Connection error.");
     chat_log := [];
     http_endpoint := fun _ _ => Raise (Exn TypeError "not JSON serializable");
     http_log := [];
     slept := [] |}.

Definition no_usage_world : World :=
  {| chat_endpoint := fun _ _ => Ok {| usage := UsageNone; choices := [Some "[]"] |};
     chat_log := [];
     http_endpoint := fun _ _ => Raise (Exn RequestException "timed out");
     http_log := [];
     slept := [] |}.

(** ** Vocabulary of the further properties *)

(** Literal text of a template: no brace in it. *)
Definition plain (s : string) : bool :=
  PyStr.all_chars
    (fun c => negb (Ascii.eqb c "{"%char || Ascii.eqb c "}"%char)) s.

(** A character that the name of a replacement field may hold in this
    embedding. *)
Definition name_char (c : ascii) : bool :=
  negb (Ascii.eqb c "{"%char || Ascii.eqb c "}"%char || Ascii.eqb c "["%char
        || Ascii.eqb c "."%char || Ascii.eqb c "!"%char || Ascii.eqb c ":"%char).

(** A keyword name: not empty, not a number, made of such characters. *)
Definition keyword (name : string) : bool :=
  negb (String.eqb name EmptyString)
  && PyStr.all_chars name_char name
  && match PyStr.get_integer name with
     | PyStr.NotInteger => true
     | _ => false
     end.

(** The text [s] as a template has to write it: every brace doubled. *)
Fixpoint double_braces (s : string) : string :=
  match s with
  | EmptyString => EmptyString
  | String c r =>
      if Ascii.eqb c "{"%char || Ascii.eqb c "}"%char
      then String c (String c (double_braces r))
      else String c (double_braces r)
  end.

(** The generation endpoint fails at its next [k] requests and answers the
    one after them with [c]. *)
Definition chat_fails_then (w : World) (k : nat) (c : completion) : Prop :=
  (forall i rq, (i < k)%nat ->
     raises (chat_endpoint w (length (chat_log w) + i)%nat rq))
  /\ forall rq, chat_endpoint w (length (chat_log w) + k)%nat rq = Ok c.

(** The search endpoint fails at its next [k] requests, with failures of
    [requests], and answers the one after them with [v]. *)
Definition http_fails_then (w : World) (k : nat) (v : value) : Prop :=
  (forall i rq, (i < k)%nat -> exists e,
     http_endpoint w (length (http_log w) + i)%nat rq = Raise e
     /\ exn_cls e = RequestException)
  /\ forall rq, http_endpoint w (length (http_log w) + k)%nat rq = Ok v.

(** The generation endpoint answers every request with the same usage
    report and no choice at all. *)
Definition chat_never_chooses (w : World) (p c n : Z) : Prop :=
  forall i rq,
    chat_endpoint w i rq = Ok {| usage := Usage p c n; choices := [] |}.

(** The client after the usage block has run on [c]. *)
Definition tracked (self : OpenRouterLLM.t) (c : completion) : OpenRouterLLM.t :=
  snd (OpenRouterLLM.track_usage self c).

(** The request [get_completion] makes [generate_text] send. *)
Definition completion_request (prompt : string) (kw : kwargs) : chat_request :=
  chat_request_of (OpenRouterLLM.PromptStr prompt)
    (default "openai/gpt-4o-mini" (kw_model kw))
    (default (7 # 10)%Q (kw_temperature kw))
    (default 1000 (kw_max_tokens kw)).

(** The words the three validators allow. *)
Definition skill_levels : list string :=
  ["beginner"; "intermediate"; "advanced"; "expert"].
Definition skill_categories : list string := ["technical"; "soft"; "domain"].
Definition experience_levels : list string :=
  ["entry"; "junior"; "mid"; "senior"; "lead"; "executive"].

(** A skill as [Skill] lets it through: level and category among the
    allowed words. *)
Definition valid_skill `{PyRuntime} (s : Skill.t) : Prop :=
  member (Skill.level s) skill_levels = true
  /\ member (Skill.category s) skill_categories = true.

(** The record [execute] builds from the skills found and the default
    analysis. *)
Definition default_profile `{PyRuntime} (skills : list Skill.t)
  : ProfileAnalysis.t :=
  {| ProfileAnalysis.skills := skills;
     ProfileAnalysis.experience_level := "mid";
     ProfileAnalysis.career_progression := "Unable to analyze career progression";
     ProfileAnalysis.strengths := ["Unable to identify strengths"];
     ProfileAnalysis.weaknesses := ["Unable to identify areas for improvement"];
     ProfileAnalysis.career_trajectory := "Unable to analyze career trajectory";
     ProfileAnalysis.education_relevance := "Unable to analyze education relevance" |}.

(** What [json.loads] reads from the text [json.dumps] writes for a skill. *)
Definition skill_as_read `{PyRuntime} (s : Skill.t) : value :=
  VDict [("name", VStr (Skill.name s));
         ("category", VStr (Skill.category s));
         ("level", VStr (Skill.level s));
         ("years_experience", VNum (float_repr (Skill.years_experience s)))].

(** The floats of the runtime are written as JSON numbers that read back to
    them. *)
Definition floats_round_trip `{PyRuntime} : Prop :=
  forall y : pyfloat,
    Json.loads (float_repr y) = Some (VNum (float_repr y))
    /\ float_of_number (float_repr y) = Some y.

Definition opt_ascii_eqb (o : option ascii) (c : ascii) : bool :=
  match o with Some a => Ascii.eqb a c | None => false end.

(** The three shapes of an escaped character, each as [scan_string] wants
    it: the character itself, a backslash and a letter, or a backslash, [u]
    and four hexadecimal digits. *)
Definition escape_ok (c : ascii) : bool :=
  match Dumps.escape_char c with
  | String a EmptyString =>
      Ascii.eqb a c && negb (Ascii.eqb a PyStr.dquote)
      && negb (Ascii.eqb a PyStr.backslash) && negb (N_of_ascii a <? 32)%N
  | String a (String e EmptyString) =>
      Ascii.eqb a PyStr.backslash && negb (Ascii.eqb e "u"%char)
      && opt_ascii_eqb (Json.unescape e) c
  | String a (String u (String h1 (String h2 (String h3 (String h4 EmptyString))))) =>
      Ascii.eqb a PyStr.backslash && Ascii.eqb u "u"%char
      && opt_ascii_eqb (Json.hex4 h1 h2 h3 h4) c
  | _ => false
  end.

(** Worlds for the examples: a search endpoint that fails once and then
    answers, a generation endpoint that reports usage and no choice, and one
    whose only choice has no content. *)
Definition flaky_search_world : World :=
  {| chat_endpoint := fun _ _ => Raise (Exn APIError "Connection error.");
     chat_log := [];
     http_endpoint := fun i _ =>
       match i with
       | O => Raise (Exn RequestException "timed out")
       | _ => Ok (VDict [("results", VList [])])
       end;
     http_log := [];
     slept := [] |}.

Definition choiceless_world : World :=
  {| chat_endpoint := fun _ _ => Ok {| usage := Usage 12 30 42; choices := [] |};
     chat_log := [];
     http_endpoint := fun _ _ => Raise (Exn RequestException "timed out");
     http_log := [];
     slept := [] |}.

Definition null_world : World :=
  {| chat_endpoint := fun _ _ => Ok {| usage := NoUsageAttr; choices := [None] |};
     chat_log := [];
     http_endpoint := fun _ _ => Raise (Exn RequestException "timed out");
     http_log := [];
     slept := [] |}.

(** A complete analysis, the six field names as an array, and an analysis
    that carries a [skills] entry of its own. *)
Definition good_analysis : string :=
  PyStr.q "{'experience_level': 'Senior', 'career_progression': 'steady', 'strengths': ['focus'], 'weaknesses': ['haste'], 'career_trajectory': 'upward', 'education_relevance': 'direct'}".

Definition names_array : string :=
  PyStr.q "['experience_level', 'career_progression', 'strengths', 'weaknesses', 'career_trajectory', 'education_relevance']".

Definition echoing_analysis : string :=
  PyStr.q "{'skills': [], 'experience_level': 'mid'}".

(** A scripted run: the answer to the skill prompt, then the answer to the
    analysis prompt. *)
Definition sample_script (analysis : res value) : list (res value) :=
  [Ok (OpenRouterLLM.envelope (VStr ("[" +:+ python_item +:+ "]"))); analysis].

Definition sample_input : gmap string string :=
  {[ "profile_text" := "5 years of Python" ]}.

Definition sample_profile : @ProfileAnalysis.t sample_runtime :=
  @ProfileAnalysis.Build_t sample_runtime
    [sample_skill "Python" "technical" "advanced" "5"]
    "senior" "steady" ["focus"] ["haste"] "upward" "direct".

(** A runtime with four floats, each written as [json.dumps] writes it. *)
Inductive sample_float : Set := Zero | One | TwoAndAHalf | TenToThe16.

Definition sample_float_repr (y : sample_float) : string :=
  match y with
  | Zero => "0.0"
  | One => "1.0"
  | TwoAndAHalf => "2.5"
  | TenToThe16 => "1e+16"
  end.

Definition sample_float_read (lit : string) : option sample_float :=
  if String.eqb lit "0.0" || String.eqb lit "0" then Some Zero
  else if String.eqb lit "1.0" || String.eqb lit "1" then Some One
  else if String.eqb lit "2.5" then Some TwoAndAHalf
  else if String.eqb lit "1e+16" || String.eqb lit "1e16" then Some TenToThe16
  else None.

Definition small_runtime : PyRuntime :=
  {| pyfloat := sample_float;
     float_of_number := sample_float_read;
     float_of_bool := fun b => if b then One else Zero;
     float_of_str := sample_float_read;
     float_repr := sample_float_repr;
     str_hash := fun s => Z.of_nat (String.length s) |}.

(** The scripted run that goes well, and the agent after it. *)
Definition good_script : list (res value) :=
  sample_script (Ok (OpenRouterLLM.envelope (VStr good_analysis))).

Definition analysed_agent
  : BaseAgent.t (list (res value)) (@ProfileAnalysis.t sample_runtime) :=
  BaseAgent._cache_result (BaseAgent.set_llm (sample_agent good_script) [])
    (ProfileAnalyzerAgent.cache_key (H := sample_runtime) "5 years of Python")
    sample_profile 1000.

(** [python_item] and [bad_item] as [json.loads] reads them. *)
Definition python_read : value :=
  VDict [("name", VStr "Python"); ("category", VStr "technical");
         ("level", VStr "advanced"); ("years_experience", VNum "5")].

Definition bad_read : value :=
  VDict [("name", VStr "Cobol"); ("category", VStr "technical");
         ("level", VStr "guru"); ("years_experience", VNum "1")].

(** Two skills whose names need escaping. *)
Definition quoted_skills : list (@Skill.t small_runtime) :=
  [@Skill.Build_t small_runtime (PyStr.q "the 'R' language [stats]")
     "technical" "advanced" TwoAndAHalf;
   @Skill.Build_t small_runtime "back\slash" "domain" "expert" TenToThe16].

(** * Properties *)

(** ** The retrying transports *)

Section Retry.

Lemma after_after w c1 h1 n1 c2 h2 n2 :
  after (after w c1 h1 n1) c2 h2 n2 = after w (c1 ++ c2) (h1 ++ h2) (n1 ++ n2).
Proof. unfold after. simpl. by rewrite !app_assoc. Qed.

Lemma chat_create_after rq w :
  chat_create rq w = (chat_endpoint w (length (chat_log w)) rq, after w [rq] [] []).
Proof. unfold chat_create, after. by rewrite !app_nil_r. Qed.

Lemma http_post_after rq w :
  http_post rq w = (http_endpoint w (length (http_log w)) rq, after w [] [rq] []).
Proof. unfold http_post, after. by rewrite !app_nil_r. Qed.

Lemma backoff_nonneg d k : (0 <= d)%Q -> 0 <= k -> (0 <= backoff d k)%Q.
Proof.
  intros Hd Hk. unfold backoff. apply Qmult_le_0_compat; [done|].
  change 0%Q with (inject_Z 0). rewrite <- Zle_Qle. by apply Z.pow_nonneg.
Qed.

Lemma sleep_after d k w :
  (0 <= d)%Q -> 0 <= k ->
  sleep (backoff d k) w = (Ok tt, after w [] [] [backoff d k]).
Proof.
  intros Hd Hk. unfold sleep.
  pose proof (backoff_nonneg d k Hd Hk) as Hb.
  apply Qle_bool_iff in Hb. rewrite Hb.
  unfold after. by rewrite !app_nil_r.
Qed.

Lemma length_backoff_delays d n : 0 <= n -> Z.of_nat (length (backoff_delays d n)) = n.
Proof. intros. unfold backoff_delays. rewrite length_fmap, length_seqZ. lia. Qed.

Lemma lookup_backoff_delays d n k :
  0 <= k < n -> backoff_delays d n !! Z.to_nat k = Some (d * inject_Z (2 ^ k))%Q.
Proof.
  intros Hk. unfold backoff_delays. rewrite list_lookup_fmap.
  rewrite (lookup_seqZ_lt 0 n (Z.to_nat k)) by lia. simpl.
  rewrite Z2Nat.id by lia. by rewrite Z.add_0_l.
Qed.

Lemma seqZ_backoff_cons d a n :
  0 <= n ->
  backoff d <$> seqZ a (n + 1) = backoff d a :: (backoff d <$> seqZ (a + 1) n).
Proof.
  intros Hn. rewrite seqZ_cons by lia. simpl.
  by replace (Z.succ a) with (a + 1) by lia; replace (Z.pred (n + 1)) with n by lia.
Qed.

Lemma backoff_delays_backoff d n : backoff_delays d n = backoff d <$> seqZ 0 n.
Proof. done. Qed.

Lemma attempt_once_fail self rq w e :
  chat_endpoint w (length (chat_log w)) rq = Raise e ->
  OpenRouterLLM.attempt_once self rq w = (Raise e, self, after w [rq] [] []).
Proof.
  intros He. unfold OpenRouterLLM.attempt_once.
  by rewrite chat_create_after, He.
Qed.

Lemma llm_attempts_fail_step rq todo attempt self w e :
  chat_endpoint w (length (chat_log w)) rq = Raise e ->
  OpenRouterLLM.attempts rq (S todo) attempt self w =
    if attempt <? OpenRouterLLM.max_retries self - 1 then
      let '(s, w2) := sleep (backoff (OpenRouterLLM.retry_delay self) attempt)
                        (after w [rq] [] []) in
      match s with
      | Ok _ => OpenRouterLLM.attempts rq todo (attempt + 1) self w2
      | Raise e' => (Raise e', self, w2)
      end
    else (Raise (ExnFrom Exception (OpenRouterLLM.failed_message self) e), self,
          after w [rq] [] []).
Proof.
  intros He. cbn [OpenRouterLLM.attempts].
  by rewrite (attempt_once_fail _ _ _ _ He).
Qed.

Lemma http_attempts_fail_step self rq todo attempt w e :
  http_endpoint w (length (http_log w)) rq = Raise e ->
  exn_cls e = RequestException ->
  TavilySearchTool.attempts self rq (S todo) attempt w =
    if attempt <? TavilySearchTool.max_retries self - 1 then
      let '(s, w2) := sleep (backoff (TavilySearchTool.retry_delay self) attempt)
                        (after w [] [rq] []) in
      match s with
      | Ok _ => TavilySearchTool.attempts self rq todo (attempt + 1) w2
      | Raise e' => (Raise e', w2)
      end
    else (Raise (ExnFrom Exception (TavilySearchTool.failed_message self) e),
          after w [] [rq] []).
Proof.
  intros He Hc. cbn [TavilySearchTool.attempts].
  by rewrite http_post_after, He, Hc.
Qed.

(** Every attempt of [generate_text] failing: [todo + 1] attempts are left,
    each is made, each but the last is followed by its sleep. *)
Lemma llm_attempts_all_fail rq todo : forall attempt self w,
  chat_always_fails w ->
  (0 <= OpenRouterLLM.retry_delay self)%Q ->
  0 <= attempt ->
  attempt + Z.of_nat (S todo) = OpenRouterLLM.max_retries self ->
  exists e,
    chat_endpoint w (length (chat_log w) + todo)%nat rq = Raise e /\
    OpenRouterLLM.attempts rq (S todo) attempt self w =
      (Raise (ExnFrom Exception (OpenRouterLLM.failed_message self) e), self,
       after w (replicate (S todo) rq) []
         (backoff (OpenRouterLLM.retry_delay self) <$> seqZ attempt (Z.of_nat todo))).
Proof.
  induction todo as [|todo IH]; intros attempt self w Hfail Hd Ha Hn.
  - pose proof (Hfail (length (chat_log w)) rq) as Hr.
    destruct (chat_endpoint w (length (chat_log w)) rq) as [c|e] eqn:He; [done|].
    exists e. split; [by rewrite Nat.add_0_r|].
    rewrite (llm_attempts_fail_step _ _ _ _ _ _ He).
    replace (attempt <? OpenRouterLLM.max_retries self - 1) with false
      by (symmetry; apply Z.ltb_ge; lia).
    done.
  - pose proof (Hfail (length (chat_log w)) rq) as Hr.
    destruct (chat_endpoint w (length (chat_log w)) rq) as [c|e0] eqn:He; [done|].
    rewrite (llm_attempts_fail_step _ _ _ _ _ _ He).
    replace (attempt <? OpenRouterLLM.max_retries self - 1) with true
      by (symmetry; apply Z.ltb_lt; lia).
    rewrite sleep_after by done.
    destruct (IH (attempt + 1) self
                 (after (after w [rq] [] []) [] [] [backoff (OpenRouterLLM.retry_delay self) attempt]))
      as (e & Hlast & Hrun); [done|done|lia|lia|].
    exists e. split.
    + rewrite <- Hlast. unfold after. cbn [chat_log chat_endpoint http_log http_endpoint].
      rewrite !length_app. simpl. f_equal. lia.
    + rewrite Hrun. rewrite !after_after. simpl.
      replace (Z.of_nat (S todo)) with (Z.of_nat todo + 1) by lia.
      by rewrite seqZ_backoff_cons by lia.
Qed.

(** The same for [search], for failures its handler catches. *)
Lemma http_attempts_all_fail self rq todo : forall attempt w,
  http_always_fails w ->
  (0 <= TavilySearchTool.retry_delay self)%Q ->
  0 <= attempt ->
  attempt + Z.of_nat (S todo) = TavilySearchTool.max_retries self ->
  exists e,
    http_endpoint w (length (http_log w) + todo)%nat rq = Raise e /\
    TavilySearchTool.attempts self rq (S todo) attempt w =
      (Raise (ExnFrom Exception (TavilySearchTool.failed_message self) e),
       after w [] (replicate (S todo) rq)
         (backoff (TavilySearchTool.retry_delay self) <$> seqZ attempt (Z.of_nat todo))).
Proof.
  induction todo as [|todo IH]; intros attempt w Hfail Hd Ha Hn.
  - destruct (Hfail (length (http_log w)) rq) as (e & He & Hc).
    exists e. split; [by rewrite Nat.add_0_r|].
    rewrite (http_attempts_fail_step _ _ _ _ _ _ He Hc).
    replace (attempt <? TavilySearchTool.max_retries self - 1) with false
      by (symmetry; apply Z.ltb_ge; lia).
    done.
  - destruct (Hfail (length (http_log w)) rq) as (e0 & He & Hc).
    rewrite (http_attempts_fail_step _ _ _ _ _ _ He Hc).
    replace (attempt <? TavilySearchTool.max_retries self - 1) with true
      by (symmetry; apply Z.ltb_lt; lia).
    rewrite sleep_after by done.
    destruct (IH (attempt + 1)
                 (after (after w [] [rq] []) [] [] [backoff (TavilySearchTool.retry_delay self) attempt]))
      as (e & Hlast & Hrun); [done|done|lia|lia|].
    exists e. split.
    + rewrite <- Hlast. unfold after. cbn [chat_log chat_endpoint http_log http_endpoint].
      rewrite !length_app. simpl. f_equal. lia.
    + rewrite Hrun. rewrite !after_after. simpl.
      replace (Z.of_nat (S todo)) with (Z.of_nat todo + 1) by lia.
      by rewrite seqZ_backoff_cons by lia.
Qed.

(** C1.  With [max_retries = N >= 1], a delay [d >= 0] and an endpoint that
    fails at every attempt, [generate_text] and [search] each send their
    request exactly [N] times, sleep exactly [N - 1] times, the k-th sleep
    lasting [d * 2^k] seconds, and then raise [Exception] from the last
    failure. *)
Theorem retry_exhausted (N : Z) (d : Q)
    (llm : OpenRouterLLM.t) (tool : TavilySearchTool.t) (w : World)
    (p : OpenRouterLLM.prompt) (model : string) (temperature : Q)
    (max_tokens : Z) (query : string) (search_params : option Dict.t) :
  1 <= N -> (0 <= d)%Q ->
  OpenRouterLLM.max_retries llm = N -> OpenRouterLLM.retry_delay llm = d ->
  TavilySearchTool.max_retries tool = N -> TavilySearchTool.retry_delay tool = d ->
  chat_always_fails w -> http_always_fails w ->
  (exists e,
     OpenRouterLLM.generate_text llm p model temperature max_tokens w =
       (Raise (ExnFrom Exception (OpenRouterLLM.failed_message llm) e), llm,
        after w (replicate (Z.to_nat N)
                   (chat_request_of p model temperature max_tokens))
              [] (backoff_delays d (N - 1))))
  /\ (exists e,
        TavilySearchTool.search tool query search_params w =
          (Raise (ExnFrom Exception (TavilySearchTool.failed_message tool) e),
           after w [] (replicate (Z.to_nat N)
                         (http_request_of tool query search_params))
                 (backoff_delays d (N - 1))))
  /\ Z.of_nat (length (backoff_delays d (N - 1))) = N - 1
  /\ (forall k, 0 <= k < N - 1 ->
        backoff_delays d (N - 1) !! Z.to_nat k = Some (d * inject_Z (2 ^ k))%Q).
Proof.
  intros HN Hd Hn1 Hd1 Hn2 Hd2 Hchat Hhttp.
  assert (Z.to_nat N = S (Z.to_nat (N - 1))) as HS by lia.
  split; [|split; [|split]].
  - unfold OpenRouterLLM.generate_text. rewrite Hn1, HS.
    destruct (llm_attempts_all_fail (chat_request_of p model temperature max_tokens)
                (Z.to_nat (N - 1)) 0 llm w) as (e & _ & Hrun);
      [done|by rewrite Hd1|lia|lia|].
    exists e. unfold chat_request_of in *. rewrite Hrun, Hd1, Z2Nat.id by lia.
    by rewrite backoff_delays_backoff.
  - unfold TavilySearchTool.search. rewrite Hn2, HS.
    destruct (http_attempts_all_fail tool (http_request_of tool query search_params)
                (Z.to_nat (N - 1)) 0 w) as (e & _ & Hrun);
      [done|by rewrite Hd2|lia|lia|].
    exists e. unfold http_request_of in *. rewrite Hrun, Hd2, Z2Nat.id by lia.
    by rewrite backoff_delays_backoff.
  - apply length_backoff_delays. lia.
  - apply lookup_backoff_delays.
Qed.

(** Three retries of one second against endpoints that are down. *)
Lemma retry_exhausted_witness :
  (exists e,
     OpenRouterLLM.generate_text (sample_llm 3 1) (OpenRouterLLM.PromptStr "hi")
       "openai/gpt-4o-mini" (7 # 10) 1000 dead_world =
       (Raise (ExnFrom Exception (OpenRouterLLM.failed_message (sample_llm 3 1)) e),
        sample_llm 3 1,
        after dead_world
          (replicate 3 (chat_request_of (OpenRouterLLM.PromptStr "hi")
                          "openai/gpt-4o-mini" (7 # 10) 1000))
          [] (backoff_delays 1 2)))
  /\ (exists e,
        TavilySearchTool.search (sample_tool 3 1) "jobs" None dead_world =
          (Raise (ExnFrom Exception
                    (TavilySearchTool.failed_message (sample_tool 3 1)) e),
           after dead_world [] (replicate 3 (http_request_of (sample_tool 3 1) "jobs" None))
                 (backoff_delays 1 2)))
  /\ Z.of_nat (length (backoff_delays 1 2)) = 2
  /\ (forall k, 0 <= k < 2 ->
        backoff_delays 1 2 !! Z.to_nat k = Some (1 * inject_Z (2 ^ k))%Q).
Proof.
  apply (retry_exhausted 3 1 (sample_llm 3 1) (sample_tool 3 1) dead_world).
  - lia.
  - discriminate.
  - reflexivity.
  - reflexivity.
  - reflexivity.
  - reflexivity.
  - intros i rq. exact I.
  - intros i rq. eexists. split; reflexivity.
Defined.

End Retry.

(** ** Usage statistics *)

Section Usage.

Lemma counters_le_refl self : counters_le self self.
Proof. unfold counters_le. lia. Qed.

Lemma counters_le_trans a b c : counters_le a b -> counters_le b c -> counters_le a c.
Proof. unfold counters_le. lia. Qed.

(** One attempt leaves [total_cost] and the endpoint alone, and can only add
    what the endpoint reports to the counters. *)
Lemma attempt_once_inv self rq w r self1 w1 :
  OpenRouterLLM.attempt_once self rq w = (r, self1, w1) ->
  chat_endpoint w1 = chat_endpoint w
  /\ OpenRouterLLM.total_cost self1 = OpenRouterLLM.total_cost self
  /\ (usage_nonneg w -> counters_le self self1).
Proof.
  unfold OpenRouterLLM.attempt_once, chat_create.
  destruct (chat_endpoint w (length (chat_log w)) rq) as [c|e] eqn:He.
  - unfold OpenRouterLLM.track_usage.
    destruct (usage c) as [| |p k n] eqn:Hu; intros [= <- <- <-];
      (split; [done|split; [done|]]); intros Hnn;
      try apply counters_le_refl.
    destruct (Hnn _ _ _ _ _ _ He Hu) as (? & ? & ?).
    unfold counters_le. simpl. lia.
  - intros [= <- <- <-]. split; [done|split; [done|]].
    intros _. apply counters_le_refl.
Qed.

Lemma sleep_endpoint d w s w2 :
  sleep d w = (s, w2) -> chat_endpoint w2 = chat_endpoint w.
Proof. unfold sleep. destruct (Qle_bool 0 d); by intros [= <- <-]. Qed.

Lemma usage_nonneg_ext w w' :
  chat_endpoint w' = chat_endpoint w -> usage_nonneg w -> usage_nonneg w'.
Proof. unfold usage_nonneg. intros ->. done. Qed.

Lemma attempts_inv rq todo : forall attempt self w r self' w',
  OpenRouterLLM.attempts rq todo attempt self w = (r, self', w') ->
  chat_endpoint w' = chat_endpoint w
  /\ OpenRouterLLM.total_cost self' = OpenRouterLLM.total_cost self
  /\ (usage_nonneg w -> counters_le self self').
Proof.
  induction todo as [|todo IH]; intros attempt self w r self' w'.
  - simpl. intros [= <- <- <-]. split; [done|split; [done|]].
    intros _. apply counters_le_refl.
  - cbn [OpenRouterLLM.attempts].
    destruct (OpenRouterLLM.attempt_once self rq w) as [[r1 self1] w1] eqn:H1.
    apply attempt_once_inv in H1 as (Hw1 & Hc1 & Hm1).
    destruct r1 as [response|e].
    + intros [= <- <- <-]. done.
    + destruct (attempt <? OpenRouterLLM.max_retries self1 - 1).
      * destruct (sleep (backoff (OpenRouterLLM.retry_delay self1) attempt) w1)
          as [s w2] eqn:Hs.
        apply sleep_endpoint in Hs.
        destruct s as [[]|e'].
        -- intros Hrun. apply IH in Hrun as (Hw & Hc & Hm).
           split; [congruence|split; [congruence|]].
           intros Hnn. eapply counters_le_trans; [by apply Hm1|].
           apply Hm. eapply usage_nonneg_ext; [|exact Hnn]. congruence.
        -- intros [= <- <- <-]. split; [congruence|done].
      * intros [= <- <- <-]. done.
Qed.

Lemma run_calls_inv calls : forall self w,
  chat_endpoint (snd (run_calls calls self w)) = chat_endpoint w
  /\ OpenRouterLLM.total_cost (fst (run_calls calls self w))
     = OpenRouterLLM.total_cost self
  /\ (usage_nonneg w -> counters_le self (fst (run_calls calls self w))).
Proof.
  induction calls as [|c calls IH]; intros self w.
  - simpl. split; [done|split; [done|]]. intros _. apply counters_le_refl.
  - cbn [run_calls]. unfold OpenRouterLLM.generate_text.
    destruct (OpenRouterLLM.attempts _ _ _ _ _) as [[r self1] w1] eqn:H1.
    apply attempts_inv in H1 as (Hw1 & Hc1 & Hm1).
    destruct (IH self1 w1) as (Hw & Hc & Hm).
    split; [congruence|split; [congruence|]].
    intros Hnn. eapply counters_le_trans; [by apply Hm1|].
    apply Hm. eapply usage_nonneg_ext; [|exact Hnn]. congruence.
Qed.

(** C9.  On a client built by [__init__], after any sequence of calls of
    [generate_text], whatever the endpoint answers, [get_usage_stats] reports
    an estimated cost of exactly 0; and when the endpoint reports no negative
    token count the three counters are at least what they were. *)
Theorem estimated_cost_always_zero (cfg : Config) (api_key : option string)
    (max_retries : Z) (retry_delay : Q) (timeout : option Z)
    (self : OpenRouterLLM.t) (calls : list gen_call) (w : World) :
  OpenRouterLLM.__init__ cfg api_key max_retries retry_delay timeout = Ok self ->
  OpenRouterLLM.estimated_cost
    (OpenRouterLLM.get_usage_stats (fst (run_calls calls self w))) = 0%Q
  /\ (usage_nonneg w -> counters_le self (fst (run_calls calls self w))).
Proof.
  intros Hinit.
  destruct (run_calls_inv calls self w) as (_ & Hc & Hm).
  split; [|done].
  unfold OpenRouterLLM.get_usage_stats. cbn [OpenRouterLLM.estimated_cost].
  rewrite Hc. unfold OpenRouterLLM.__init__ in Hinit.
  destruct (or_str api_key (OPENROUTER_API_KEY cfg)) as [k|]; [|done].
  destruct (String.eqb k EmptyString); [done|].
  by injection Hinit as <-.
Qed.

(** A failed attempt, a retry that succeeds, then a second call. *)
Lemma estimated_cost_always_zero_witness :
  OpenRouterLLM.estimated_cost
    (OpenRouterLLM.get_usage_stats
       (fst (run_calls [sample_call "a"; sample_call "b"] (sample_llm 3 1)
               flaky_world))) = 0%Q
  /\ (usage_nonneg flaky_world ->
      counters_le (sample_llm 3 1)
        (fst (run_calls [sample_call "a"; sample_call "b"] (sample_llm 3 1)
                flaky_world))).
Proof.
  apply (estimated_cost_always_zero sample_config (Some "k") 3 1 (Some 30)).
  reflexivity.
Defined.

End Usage.

(** ** The result cache *)

Section Cache.
Context {L D : Type}.
Implicit Types (self : BaseAgent.t L D) (key : string) (data : D).

Lemma too_old_false now timestamp max_age :
  (now - timestamp <= max_age)%Q -> BaseAgent.too_old now timestamp max_age = false.
Proof.
  intros Hle. unfold BaseAgent.too_old.
  apply Qle_bool_iff in Hle. by rewrite Hle.
Qed.

Lemma too_old_true now timestamp max_age :
  ~ (now - timestamp <= max_age)%Q -> BaseAgent.too_old now timestamp max_age = true.
Proof.
  intros Hnle. unfold BaseAgent.too_old.
  destruct (Qle_bool (now - timestamp) max_age) eqn:Hb; [|done].
  by apply Qle_bool_iff in Hb.
Qed.

(** C6.  [_cache_result] stores under [key] whatever was there before and
    touches no other key; [_get_cached_result] returns the stored value
    exactly when [now - stored_time <= max_age], reports [None] otherwise and
    for an unknown key, and in every case leaves the agent, stale entries
    included, as it was. *)
Theorem cache_contract self key data (stored_time max_age now : Q) :
  let stored := BaseAgent._cache_result self key data stored_time in
  BaseAgent.result_cache stored !! key = Some (data, stored_time)
  /\ (forall k, k <> key ->
        BaseAgent.result_cache stored !! k = BaseAgent.result_cache self !! k)
  /\ (forall (a : BaseAgent.t L D) k v t,
        BaseAgent.result_cache a !! k = Some (v, t) ->
        ((now - t <= max_age)%Q ->
           BaseAgent._get_cached_result a k max_age now = (Some v, a))
        /\ (~ (now - t <= max_age)%Q ->
              BaseAgent._get_cached_result a k max_age now = (None, a)))
  /\ (forall (a : BaseAgent.t L D) k,
        BaseAgent.result_cache a !! k = None ->
        BaseAgent._get_cached_result a k max_age now = (None, a)).
Proof.
  cbn zeta. split; [|split; [|split]].
  - unfold BaseAgent._cache_result. simpl. apply lookup_insert_eq.
  - intros k Hk. unfold BaseAgent._cache_result. simpl.
    by apply lookup_insert_ne.
  - intros a k v t Hl. unfold BaseAgent._get_cached_result. rewrite Hl.
    split; intros Hage.
    + by rewrite too_old_false.
    + by rewrite too_old_true.
  - intros a k Hl. unfold BaseAgent._get_cached_result. by rewrite Hl.
Qed.

End Cache.

(** An entry stored at time 100 is served at time 160 for a maximal age of
    60 seconds, refused at time 161, and still in the cache afterwards. *)
Lemma cache_contract_witness :
  let a := BaseAgent._cache_result
             (BaseAgent.__init__ tt (sample_tool 3 1) : BaseAgent.t unit nat)
             "k" 7%nat 100 in
  BaseAgent._get_cached_result a "k" 60 160 = (Some 7%nat, a)
  /\ BaseAgent._get_cached_result a "k" 60 161 = (None, a)
  /\ BaseAgent.result_cache a !! "k" = Some (7%nat, 100%Q).
Proof.
  cbn zeta.
  pose proof (cache_contract (BaseAgent.__init__ tt (sample_tool 3 1))
                "k" 7%nat 100 60 160) as (Hs & _ & Hr & _).
  pose proof (cache_contract (BaseAgent.__init__ tt (sample_tool 3 1))
                "k" 7%nat 100 60 161) as (_ & _ & Hr' & _).
  split; [|split].
  - apply (Hr _ _ _ _ Hs). discriminate.
  - apply (Hr' _ _ _ _ Hs). intros Hle. by apply Hle.
  - exact Hs.
Defined.

(** ** The response envelope *)

Section Envelope.


(** An absent key is a missing field. *)
Lemma key_absent_lacks response :
  key_absent response = true -> has_fields response = false.
Proof.
  unfold key_absent, has_fields, Dict.mem.
  destruct response as [| | | |l|d]; try done.
  destruct (Dict.get d "choices") as [[| | | |[|[| | | |?|c] ?]|?]|]; try done.
  destruct (Dict.get c "message") as [[| | | |?|m]|]; try done.
  by destruct (Dict.get m "content").
Qed.






(** C7, as stated, fails.  The client of the program with no attempt
    allowed returns [None] for an envelope, and [get_completion] raises
    [AttributeError]; an envelope with an empty list of choices, or with
    [null] for its first choice or for the message, lacks the expected fields
    as well, and [get_completion] raises [IndexError] or [AttributeError]. *)
Lemma get_completion_not_lenient :
  generate_text (sample_llm 0 1, dead_world) "hello" "openai/gpt-4o-mini"
    (3 # 10)%Q 1000
  = (Ok VNone, (sample_llm 0 1, dead_world))
  /\ has_fields VNone = false
  /\ get_completion (sample_llm 0 1, dead_world) "hello" (kw_temp (3 # 10))
     = (Raise (Exn AttributeError "object has no attribute 'get'"),
        (sample_llm 0 1, dead_world))
  /\ has_fields (VDict [("choices", VList [])]) = false
  /\ get_completion [Ok (VDict [("choices", VList [])])] "hello"
       (kw_temp (3 # 10))
     = (Raise (Exn IndexError "list index out of range"), [])
  /\ has_fields (VDict [("choices", VList [VNone])]) = false
  /\ get_completion [Ok (VDict [("choices", VList [VNone])])] "hello"
       (kw_temp (3 # 10))
     = (Raise (Exn AttributeError "object has no attribute 'get'"), [])
  /\ has_fields (VDict [("choices", VList [VDict [("message", VNone)]])]) = false
  /\ get_completion [Ok (VDict [("choices", VList [VDict [("message", VNone)]])])]
       "hello" (kw_temp (3 # 10))
     = (Raise (Exn AttributeError "object has no attribute 'get'"), []).
Proof. repeat split. Qed.

End Envelope.

(** ** Dictionaries *)

Section DictFacts.

Lemma dict_get_set_eq d k v : Dict.get (Dict.set d k v) k = Some v.
Proof.
  induction d as [|[k' v'] d IH]; simpl.
  - by rewrite String.eqb_refl.
  - destruct (String.eqb k' k) eqn:E; simpl; by rewrite E.
Qed.

Lemma dict_get_set_ne d k k' v :
  k' <> k -> Dict.get (Dict.set d k v) k' = Dict.get d k'.
Proof.
  intros Hne. induction d as [|[k0 v0] d IH]; simpl.
  - destruct (String.eqb k k') eqn:E; [|done].
    apply String.eqb_eq in E. congruence.
  - destruct (String.eqb k0 k) eqn:E; simpl.
    + apply String.eqb_eq in E. subst k0.
      destruct (String.eqb k k') eqn:E'; [|done].
      apply String.eqb_eq in E'. congruence.
    + by rewrite IH.
Qed.

Lemma dict_mem_get d k : Dict.mem d k = true <-> is_Some (Dict.get d k).
Proof.
  unfold Dict.mem. destruct (Dict.get d k); split; done.
Qed.

End DictFacts.

(** ** The profile analyzer *)

Section Agent.
Context `{PyRuntime} {L : Type} `{TextGenerator L}.
Implicit Types (self : BaseAgent.t L ProfileAnalysis.t).

Import ProfileAnalyzerAgent.

Lemma member_cons x y l : member x (y :: l) = String.eqb x y || member x l.
Proof. done. Qed.

(** The repair loop on a dictionary: it ends without an exception, keeps
    every entry and gives each absent field of the list its default. *)
Lemma fill_defaults_dict fields : forall d,
  exists d',
    fill_defaults fields (VDict d) = Ok (VDict d')
    /\ (forall k v, Dict.get d k = Some v -> Dict.get d' k = Some v)
    /\ (forall k, Dict.get d k = None ->
          Dict.get d' k = if member k fields then Some (default_value k) else None).
Proof.
  induction fields as [|f fields IH]; intros d.
  - exists d. by split; [|split].
  - cbn [fill_defaults py_in res_bind]. unfold Dict.mem.
    destruct (Dict.get d f) as [v0|] eqn:Hf; cbn [negb].
    + destruct (IH d) as (d' & Hrun & Hkeep & Hnew).
      exists d'. split; [done|split; [done|]].
      intros k Hk. rewrite member_cons.
      destruct (String.eqb k f) eqn:E.
      * apply String.eqb_eq in E. congruence.
      * by apply Hnew.
    + cbn [py_setitem res_bind].
      destruct (IH (Dict.set d f (default_value f))) as (d' & Hrun & Hkeep & Hnew).
      exists d'. split; [done|split].
      * intros k v Hk. apply Hkeep.
        rewrite dict_get_set_ne; [done|congruence].
      * intros k Hk. rewrite member_cons.
        destruct (String.eqb k f) eqn:E.
        -- apply String.eqb_eq in E. subst k. simpl.
           apply Hkeep. apply dict_get_set_eq.
        -- simpl. apply Hnew. rewrite dict_get_set_ne; [done|].
           intros ->. by rewrite String.eqb_refl in E.
Qed.

(** C4.  When the answer parses to an object, [_analyze_profile] returns
    that object repaired, and the repair raises nothing: every entry of the
    parsed object is kept, an absent [strengths] or [weaknesses] is the empty
    list, an absent text field is the sentinel string, and so every required
    field is present. *)
Theorem missing_fields_defaulted self (profile_text skills_json response : string)
    (l : L) (d : Dict.t) :
  get_completion (BaseAgent.llm self)
    (PROFILE_ANALYSIS_PROMPT profile_text skills_json) (kw_temp (5 # 10))
    = (Ok (VStr response), l) ->
  parse_response "{"%char "}"%char response = Some (VDict d) ->
  exists d',
    fill_defaults required_fields (VDict d) = Ok (VDict d')
    /\ _analyze_profile self profile_text skills_json
       = (VDict d', BaseAgent.set_llm self l)
    /\ (forall f v, Dict.get d f = Some v -> Dict.get d' f = Some v)
    /\ (forall f, In f ["strengths"; "weaknesses"] ->
          Dict.get d f = None -> Dict.get d' f = Some (VList []))
    /\ (forall f, In f ["experience_level"; "career_progression";
                        "career_trajectory"; "education_relevance"] ->
          Dict.get d f = None ->
          Dict.get d' f = Some (VStr "Not enough information to analyze"))
    /\ (forall f, In f required_fields -> Dict.mem d' f = true).
Proof.
  intros Hgen Hparse.
  destruct (fill_defaults_dict required_fields d) as (d' & Hrun & Hkeep & Hnew).
  exists d'. split; [done|split; [|split; [done|split; [|split]]]].
  - unfold _analyze_profile. rewrite Hgen.
    unfold analysis_of_completion. by rewrite Hparse, Hrun.
  - intros f Hin Hf. rewrite (Hnew f Hf).
    simpl in Hin. by destruct Hin as [<-|[<-|[]]].
  - intros f Hin Hf. rewrite (Hnew f Hf).
    simpl in Hin. by destruct Hin as [<-|[<-|[<-|[<-|[]]]]].
  - intros f Hin. apply dict_mem_get.
    destruct (Dict.get d f) as [v|] eqn:Hf.
    + rewrite (Hkeep f v Hf). by eexists.
    + rewrite (Hnew f Hf).
      simpl in Hin.
      by destruct Hin as [<-|[<-|[<-|[<-|[<-|[<-|[]]]]]]]; eexists.
Qed.

End Agent.

(** An answer with a single field, wrapped in prose. *)
Lemma missing_fields_defaulted_witness :
  exists d',
    ProfileAnalyzerAgent.fill_defaults ProfileAnalyzerAgent.required_fields
      (VDict [("career_progression", VStr "steady")]) = Ok (VDict d')
    /\ ProfileAnalyzerAgent._analyze_profile
         (sample_agent
            [Ok (OpenRouterLLM.envelope
                   (VStr (PyStr.q "Here you go: {'career_progression': 'steady'}")))])
         "profile" "[]"
       = (VDict d', BaseAgent.set_llm (sample_agent []) [])
    /\ (forall f v, Dict.get [("career_progression", VStr "steady")] f = Some v ->
          Dict.get d' f = Some v)
    /\ (forall f, In f ["strengths"; "weaknesses"] ->
          Dict.get [("career_progression", VStr "steady")] f = None ->
          Dict.get d' f = Some (VList []))
    /\ (forall f, In f ["experience_level"; "career_progression";
                        "career_trajectory"; "education_relevance"] ->
          Dict.get [("career_progression", VStr "steady")] f = None ->
          Dict.get d' f = Some (VStr "Not enough information to analyze"))
    /\ (forall f, In f ProfileAnalyzerAgent.required_fields -> Dict.mem d' f = true).
Proof.
  apply (missing_fields_defaulted (H := sample_runtime)
           (sample_agent
              [Ok (OpenRouterLLM.envelope
                     (VStr (PyStr.q "Here you go: {'career_progression': 'steady'}")))])
           "profile" "[]"
           (PyStr.q "Here you go: {'career_progression': 'steady'}") []).
  - reflexivity.
  - vm_compute. reflexivity.
Defined.

Section AgentRuns.
Context `{PyRuntime} {L : Type} `{TextGenerator L}.
Implicit Types (self : BaseAgent.t L ProfileAnalysis.t).

Import ProfileAnalyzerAgent.

(** The loop over the items keeps, in order, exactly the items whose
    [Skill] can be built. *)
Lemma collect_skills_omap items :
  collect_skills items = omap (fun x => res_opt (Skill.init x)) items.
Proof.
  induction items as [|x items IH]; [done|].
  cbn [collect_skills omap list_omap]. fold (omap (fun x => res_opt (Skill.init x)) items).
  rewrite <- IH. by destruct (Skill.init x).
Qed.


(** C5.  When the answer parses to a list of three items of which two make
    a [Skill] and one does not, wherever the bad one stands,
    [_extract_skills] returns the two skills, in the order of the list. *)
Theorem invalid_skill_dropped self (profile_text response : string) (l : L)
    (items : list value) (good1 good2 bad : value) (s1 s2 : Skill.t) :
  get_completion (BaseAgent.llm self) (SKILL_EXTRACTION_PROMPT profile_text)
    (kw_temp (3 # 10)) = (Ok (VStr response), l) ->
  parse_response "["%char "]"%char response = Some (VList items) ->
  items = [bad; good1; good2] \/ items = [good1; bad; good2]
  \/ items = [good1; good2; bad] ->
  Skill.init good1 = Ok s1 ->
  Skill.init good2 = Ok s2 ->
  raises (Skill.init bad) ->
  _extract_skills self profile_text = ([s1; s2], BaseAgent.set_llm self l).
Proof.
  intros Hgen Hparse Hitems H1 H2 Hbad.
  unfold _extract_skills. rewrite Hgen.
  unfold skills_of_completion. rewrite Hparse. cbn [py_iter].
  destruct (Skill.init bad) as [?|e] eqn:Hb; [done|].
  destruct Hitems as [->|[->| ->]]; cbn [collect_skills];
    by rewrite ?H1, ?H2, ?Hb.
Qed.

(** C2.  When the two calls of [get_completion] that [execute] makes both
    raise, [execute] raises nothing and returns the complete fallback record:
    no skills and the fixed default text in every other field. *)
Theorem execute_survives_failed_generation self
    (input_data : gmap string string) (profile_text : string) (now : Q)
    (e1 e2 : exn) (l1 l2 : L) :
  input_data !! "profile_text" = Some profile_text ->
  get_completion (BaseAgent.llm self) (SKILL_EXTRACTION_PROMPT profile_text)
    (kw_temp (3 # 10)) = (Raise e1, l1) ->
  get_completion l1 (PROFILE_ANALYSIS_PROMPT profile_text "[]")
    (kw_temp (5 # 10)) = (Raise e2, l2) ->
  execute self input_data now
  = (Ok fallback_profile,
     BaseAgent._cache_result (BaseAgent.set_llm self l2)
       (cache_key profile_text) fallback_profile now).
Proof.
  intros Hin Hg1 Hg2. unfold execute. rewrite Hin.
  unfold _extract_skills. rewrite Hg1. cbn [skills_of_completion].
  unfold _analyze_profile. cbn [BaseAgent.set_llm BaseAgent.llm].
  change (Dumps.skills []) with "[]". rewrite Hg2.
  done.
Qed.

(** C10.  There is an answer, a well-formed JSON object without
    [experience_level], on which [execute] raises the validation error of
    [ProfileAnalysis]: whatever the skills found before, the default written
    for the absent level is not an allowed level. *)
Theorem missing_level_breaks_execute :
  exists (response : string) (d : Dict.t),
    Json.loads response = Some (VDict d)
    /\ Dict.mem d "experience_level" = false
    /\ ProfileAnalysis.validate_experience_level not_enough
       = Raise (Exn ValueError
                  "Experience level must be one of: entry, junior, mid, senior, lead, executive")
    /\ forall self (input_data : gmap string string) (profile_text : string)
         (now : Q) (r1 : res value) (l1 l2 : L),
         input_data !! "profile_text" = Some profile_text ->
         get_completion (BaseAgent.llm self)
           (SKILL_EXTRACTION_PROMPT profile_text) (kw_temp (3 # 10)) = (r1, l1) ->
         get_completion l1
           (PROFILE_ANALYSIS_PROMPT profile_text
              (Dumps.skills (skills_of_completion r1)))
           (kw_temp (5 # 10)) = (Ok (VStr response), l2) ->
         execute self input_data now
         = (Raise (Exn ValidationError "validation errors for ProfileAnalysis"),
            BaseAgent.set_llm self l2).
Proof.
  exists no_level_response. eexists. split; [|split; [|split]].
  - vm_compute. reflexivity.
  - reflexivity.
  - reflexivity.
  - intros self input_data profile_text now r1 l1 l2 Hin Hg1 Hg2.
    unfold execute. rewrite Hin.
    unfold _extract_skills. rewrite Hg1.
    unfold _analyze_profile. cbn [BaseAgent.set_llm BaseAgent.llm].
    rewrite Hg2. done.
Qed.

End AgentRuns.

(** Two good items around a bad one, as the stand-in client answers them. *)
Lemma invalid_skill_dropped_witness :
  ProfileAnalyzerAgent._extract_skills
    (sample_agent
       [Ok (OpenRouterLLM.envelope
              (VStr ("[" +:+ python_item +:+ ", " +:+ bad_item +:+ ", "
                     +:+ lead_item +:+ "]")))])
    "5 years of Python and team leadership"
  = ([sample_skill "Python" "technical" "advanced" "5";
      sample_skill "Leadership" "soft" "expert" "3"],
     BaseAgent.set_llm (sample_agent []) []).
Proof.
  eapply (invalid_skill_dropped (H := sample_runtime)
           (sample_agent
              [Ok (OpenRouterLLM.envelope
                     (VStr ("[" +:+ python_item +:+ ", " +:+ bad_item +:+ ", "
                            +:+ lead_item +:+ "]")))])
           "5 years of Python and team leadership"
           ("[" +:+ python_item +:+ ", " +:+ bad_item +:+ ", " +:+ lead_item +:+ "]")
           []).
  - reflexivity.
  - vm_compute. reflexivity.
  - right. left. reflexivity.
  - reflexivity.
  - reflexivity.
  - exact I.
Defined.

(** The client of the source, three attempts, against endpoints that are
    down: both generation calls end in "Failed to get LLM response". *)
Lemma execute_survives_failed_generation_witness :
  ProfileAnalyzerAgent.execute
    (sample_agent (sample_llm 3 1, dead_world))
    {[ "profile_text" := "5 years of Python and team leadership" ]} 1000
  = (Ok (@fallback_profile sample_runtime),
     BaseAgent._cache_result
       (BaseAgent.set_llm (sample_agent (sample_llm 3 1, dead_world))
          (sample_llm 3 1,
           after dead_world
             (replicate 3
                (chat_request_of
                   (OpenRouterLLM.PromptStr
                      (ProfileAnalyzerAgent.SKILL_EXTRACTION_PROMPT
                         "5 years of Python and team leadership"))
                   "openai/gpt-4o-mini" (3 # 10) 1000)
              ++ replicate 3
                   (chat_request_of
                      (OpenRouterLLM.PromptStr
                         (ProfileAnalyzerAgent.PROFILE_ANALYSIS_PROMPT
                            "5 years of Python and team leadership" "[]"))
                      "openai/gpt-4o-mini" (5 # 10) 1000))
             [] [1; 2; 1; 2]%Q))
       (ProfileAnalyzerAgent.cache_key (H := sample_runtime)
          "5 years of Python and team leadership")
       (@fallback_profile sample_runtime) 1000).
Proof.
  eapply (execute_survives_failed_generation (H := sample_runtime)).
  - reflexivity.
  - vm_compute. reflexivity.
  - vm_compute. reflexivity.
Defined.

(** ** Strings *)

Section Strings.
Import PyStr.
Implicit Types (s t p : string) (c a : ascii) (i j : Z).

Lemma app_cons a s t : String a s +:+ t = String a (s +:+ t).
Proof. done. Qed.

Lemma app_nil_r_s s : s +:+ EmptyString = s.
Proof. induction s as [|a s IH]; [done|]. by rewrite app_cons, IH. Qed.

Lemma app_assoc_s s t p : (s +:+ t) +:+ p = s +:+ t +:+ p.
Proof. induction s as [|a s IH]; [done|]. by rewrite !app_cons, IH. Qed.

Lemma length_app_s s t :
  String.length (s +:+ t) = (String.length s + String.length t)%nat.
Proof. induction s as [|a s IH]; [done|]. rewrite app_cons. simpl. by rewrite IH. Qed.

Lemma len_app s t : len (s +:+ t) = len s + len t.
Proof. unfold len. rewrite length_app_s. lia. Qed.

Lemma len_nonneg s : 0 <= len s.
Proof. unfold len. lia. Qed.

Lemma len_cons a s : len (String a s) = 1 + len s.
Proof. unfold len. simpl. lia. Qed.

Lemma occurs_app c s t : occurs c (s +:+ t) = occurs c s || occurs c t.
Proof.
  induction s as [|a s IH]; [done|].
  rewrite app_cons. simpl. rewrite IH. by rewrite orb_assoc.
Qed.

(** [find]: the first occurrence, counted from [i]. *)
Lemma find_from_spec c s : forall i,
  find_from c s i = if occurs c s then i + find_from c s 0 else -1.
Proof.
  induction s as [|a s IH]; intros i; [done|].
  simpl. destruct (Ascii.eqb a c); simpl; [lia|].
  rewrite (IH (i + 1)), (IH (0 + 1)). destruct (occurs c s); lia.
Qed.

Lemma find_from_range c s :
  occurs c s = true -> 0 <= find_from c s 0 < len s.
Proof.
  induction s as [|a s IH]; [done|].
  simpl. rewrite len_cons. destruct (Ascii.eqb a c); simpl.
  - pose proof (len_nonneg s). lia.
  - intros Ho. rewrite find_from_spec, Ho. specialize (IH Ho). lia.
Qed.

Lemma find_absent s c : find s c = -1 <-> occurs c s = false.
Proof.
  unfold find. rewrite find_from_spec.
  destruct (occurs c s) eqn:Ho; [|done].
  pose proof (find_from_range c s Ho). split; [lia|done].
Qed.

Lemma find_app s t c :
  find (s +:+ t) c =
    if occurs c s then find s c
    else if occurs c t then len s + find t c else -1.
Proof.
  unfold find. induction s as [|a s IH].
  - change (EmptyString +:+ t) with t. simpl. change (len EmptyString) with 0.
    destruct (occurs c t) eqn:Ho; [lia|]. by apply find_absent.
  - rewrite app_cons. simpl. destruct (Ascii.eqb a c); simpl; [done|].
    rewrite (find_from_spec c (s +:+ t)), (find_from_spec c s (0 + 1)).
    rewrite occurs_app, len_cons, IH.
    destruct (occurs c s); simpl; [done|].
    destruct (occurs c t); lia.
Qed.

(** [rfind]: the last occurrence, counted from [i], or [last]. *)
Lemma rfind_from_spec c s : forall i last,
  rfind_from c s i last = if occurs c s then i + rfind_from c s 0 (-1) else last.
Proof.
  induction s as [|a s IH]; intros i last; [done|].
  simpl. rewrite (IH (i + 1)), (IH (0 + 1)).
  destruct (Ascii.eqb a c); simpl; destruct (occurs c s); lia.
Qed.

Lemma rfind_from_range c s :
  occurs c s = true -> 0 <= rfind_from c s 0 (-1) < len s.
Proof.
  induction s as [|a s IH]; [done|].
  simpl. rewrite len_cons, rfind_from_spec.
  pose proof (len_nonneg s).
  destruct (occurs c s) eqn:Ho.
  - intros _. specialize (IH eq_refl). lia.
  - rewrite orb_false_r. intros ->. lia.
Qed.

Lemma rfind_absent s c : rfind s c = -1 <-> occurs c s = false.
Proof.
  unfold rfind. destruct (occurs c s) eqn:Ho.
  - pose proof (rfind_from_range c s Ho). split; [lia|done].
  - by rewrite rfind_from_spec, Ho.
Qed.

Lemma rfind_app s t c :
  rfind (s +:+ t) c =
    if occurs c t then len s + rfind t c
    else rfind s c.
Proof.
  unfold rfind. induction s as [|a s IH].
  - change (EmptyString +:+ t) with t. simpl. change (len EmptyString) with 0.
    destruct (occurs c t) eqn:Ho; [lia|]. by apply rfind_absent.
  - rewrite app_cons. simpl.
    rewrite (rfind_from_spec c (s +:+ t)), (rfind_from_spec c s (0 + 1)).
    rewrite occurs_app, len_cons, IH.
    destruct (occurs c t); simpl.
    + rewrite orb_true_r. lia.
    + rewrite orb_false_r. destruct (occurs c s); [|done].
      by rewrite rfind_from_spec.
Qed.

(** Substrings of a concatenation. *)
Lemma substring_skip p s (n m : nat) :
  String.substring (String.length p + n) m (p +:+ s) = String.substring n m s.
Proof. induction p as [|a p IH]; [done|]. rewrite app_cons. simpl. apply IH. Qed.

Lemma substring_within s t (n m : nat) :
  (n + m <= String.length s)%nat ->
  String.substring n m (s +:+ t) = String.substring n m s.
Proof.
  revert n m. induction s as [|a s IH]; intros n m Hle.
  - simpl in Hle. assert (n = 0%nat) as -> by lia. assert (m = 0%nat) as -> by lia.
    simpl. by destruct t.
  - rewrite app_cons. destruct n as [|n]; simpl.
    + destruct m as [|m]; [done|]. f_equal. apply IH. simpl in Hle. lia.
    + apply IH. simpl in Hle. lia.
Qed.

Lemma substring_all s : String.substring 0 (String.length s) s = s.
Proof. induction s as [|a s IH]; [done|]. simpl. by rewrite IH. Qed.


(** A slice that falls inside the middle of three pieces. *)
Lemma slice_middle p s t i j :
  0 <= i -> i <= j -> j <= len s ->
  slice (p +:+ s +:+ t) (Some (len p + i)) (Some (len p + j))
  = slice s (Some i) (Some j).
Proof.
  intros Hi Hij Hj. unfold slice, clamp. rewrite !len_app.
  pose proof (len_nonneg p). pose proof (len_nonneg t).
  repeat match goal with
         | |- context [?x <? 0] => replace (x <? 0) with false
                                     by (symmetry; apply Z.ltb_ge; lia)
         end.
  rewrite !Z.min_l by lia.
  replace (Z.to_nat (len p + i)) with (String.length p + Z.to_nat i)%nat
    by (unfold len; lia).
  rewrite substring_skip.
  replace (len p + j - (len p + i)) with (j - i) by lia.
  apply substring_within. unfold len in *. lia.
Qed.

Lemma slice_whole s : slice s (Some 0) (Some (len s)) = s.
Proof.
  unfold slice, clamp. simpl. pose proof (len_nonneg s).
  replace (len s <? 0) with false by (symmetry; apply Z.ltb_ge; lia).
  rewrite Z.min_l, Z.min_id by lia. rewrite Z.sub_0_r. unfold len.
  rewrite Nat2Z.id. apply substring_all.
Qed.


Lemma blank_occurs c s : blank s = true -> isspace c = false -> occurs c s = false.
Proof.
  unfold blank. intros Hb Hc. induction s as [|a s IH]; [done|].
  simpl in *. apply andb_true_iff in Hb as [Ha Hs]. rewrite (IH Hs), orb_false_r.
  destruct (Ascii.eqb_spec a c) as [->|]; [congruence|done].
Qed.











End Strings.

(** Tactics for texts built with [+:+]: [norm] brings both sides to one
    shape, [lens] computes lengths, [headed] names a first character. *)
Lemma app_nil_l_s (s : string) : EmptyString +:+ s = s.
Proof. done. Qed.

Ltac lens H :=
  repeat first [rewrite length_app_s in H | progress (simpl String.length in H)].

Ltac headed := do 2 eexists; split; [reflexivity|done].
Ltac norm :=
  repeat (rewrite app_assoc_s || rewrite app_cons || rewrite app_nil_l_s).
Ltac norm_in H :=
  repeat (rewrite app_assoc_s in H || rewrite app_cons in H
          || rewrite app_nil_l_s in H).

(** ** The JSON reader: what a successful scan used *)

Section Parser.
Import PyStr Json.
Implicit Types (s t r u : string) (c a : ascii).

(** Blanks in front of a text. *)
Lemma skip_ws_split s : exists ws, s = ws +:+ skip_ws s /\ jblank ws = true.
Proof.
  induction s as [|c s (ws & Hs & Hb)].
  - by exists EmptyString.
  - simpl. destruct (is_ws c) eqn:Hc.
    + exists (String c ws). rewrite app_cons, <- Hs. split; [done|].
      unfold jblank in *. simpl. by rewrite Hc.
    + by exists EmptyString.
Qed.

Lemma skip_ws_blank ws s : jblank ws = true -> skip_ws (ws +:+ s) = skip_ws s.
Proof.
  unfold jblank. induction ws as [|c ws IH]; [done|].
  rewrite app_cons. simpl. intros [-> Hb]%andb_true_iff. by apply IH.
Qed.

Lemma skip_ws_head s c r : skip_ws s = String c r -> is_ws c = false.
Proof.
  induction s as [|a s IH]; [done|]. simpl.
  destruct (is_ws a) eqn:Ha; [done|]. by intros [= <- <-].
Qed.

Lemma skip_ws_keep c r : is_ws c = false -> skip_ws (String c r) = String c r.
Proof. intros Hc. simpl. by rewrite Hc. Qed.

Lemma skip_ws_empty s : skip_ws s = EmptyString -> jblank s = true.
Proof.
  unfold jblank. induction s as [|a s IH]; [done|]. simpl.
  destruct (is_ws a); [done|discriminate].
Qed.

Lemma jblank_app s t : jblank (s +:+ t) = jblank s && jblank t.
Proof.
  unfold jblank. induction s as [|a s IH]; [done|].
  rewrite app_cons. simpl. by rewrite IH, andb_assoc.
Qed.

Lemma is_ws_isspace c : is_ws c = true -> isspace c = true.
Proof. destruct c as [[] [] [] [] [] [] [] []]; try done. Qed.

Lemma jblank_blank s : jblank s = true -> blank s = true.
Proof.
  unfold jblank, blank. induction s as [|a s IH]; [done|]. simpl.
  intros [Ha Hs]%andb_true_iff. by rewrite (is_ws_isspace a Ha), IH.
Qed.

(** A separator, blanks before it or not, cannot continue a number. *)
Lemma stops_sep ws c r :
  jblank ws = true ->
  c = ","%char \/ c = "]"%char \/ c = "}"%char ->
  stops (ws +:+ String c r) = true.
Proof.
  intros Hb Hc. destruct ws as [|a ws].
  - by destruct Hc as [->|[->| ->]].
  - rewrite app_cons. unfold jblank in Hb. simpl in Hb.
    apply andb_true_iff in Hb as [Ha _].
    clear -Ha. by destruct a as [[] [] [] [] [] [] [] []].
Qed.

(** String literals. *)
Lemma cons_char_some a o t rest :
  cons_char a o = Some (t, rest) ->
  exists t', t = String a t' /\ o = Some (t', rest).
Proof. destruct o as [[t' r']|]; [|done]. intros [= <- <-]. by eexists. Qed.

Lemma scan_string_local n : forall s t rest,
  (String.length s <= n)%nat ->
  scan_string s = Some (t, rest) ->
  exists used,
    s = used +:+ String dquote rest
    /\ forall rest', scan_string (used +:+ String dquote rest') = Some (t, rest').
Proof.
  induction n as [|n IH]; intros s t rest Hn Hs.
  - destruct s; [done|simpl in Hn; lia].
  - destruct s as [|c r]; [done|]. simpl in Hn.
    cbn [scan_string] in Hs.
    destruct (Ascii.eqb c dquote) eqn:Hq.
    { injection Hs as <- <-. apply Ascii.eqb_eq in Hq as ->.
      exists EmptyString. split; [done|]. intros rest'. reflexivity. }
    destruct (Ascii.eqb c backslash) eqn:Hb.
    + destruct r as [|e r1]; [done|].
      destruct (Ascii.eqb e "u"%char) eqn:Hu.
      * destruct r1 as [|h1 [|h2 [|h3 [|h4 r2]]]]; try done.
        destruct (hex4 h1 h2 h3 h4) as [ch|] eqn:Hh; [|done].
        apply cons_char_some in Hs as (t' & -> & Hs).
        apply IH in Hs as (used & -> & Hloc); [|simpl in Hn; lia].
        exists (String c (String e (String h1 (String h2 (String h3 (String h4 used)))))).
        split; [done|]. intros rest'. rewrite !app_cons.
        cbn [scan_string]. by rewrite Hq, Hb, Hu, Hh, Hloc.
      * destruct (unescape e) as [ch|] eqn:He; [|done].
        apply cons_char_some in Hs as (t' & -> & Hs).
        apply IH in Hs as (used & -> & Hloc); [|simpl in Hn; lia].
        exists (String c (String e used)).
        split; [done|]. intros rest'. rewrite !app_cons.
        cbn [scan_string]. by rewrite Hq, Hb, Hu, He, Hloc.
    + destruct (N_of_ascii c <? 32)%N eqn:Hctl; [done|].
      apply cons_char_some in Hs as (t' & -> & Hs).
      apply IH in Hs as (used & -> & Hloc); [|lia].
      exists (String c used).
      split; [done|]. intros rest'. rewrite !app_cons.
      cbn [scan_string]. by rewrite Hq, Hb, Hctl, Hloc.
Qed.

(** Number literals. *)
Lemma span_digits_split s d r :
  span_digits s = (d, r) ->
  s = d +:+ r /\ all_chars is_digit d = true /\ nodigit r = true.
Proof.
  revert d r. induction s as [|c s IH]; intros d r.
  - by intros [= <- <-].
  - simpl. destruct (is_digit c) eqn:Hc.
    + destruct (span_digits s) as [d' r'] eqn:Hs. intros [= <- <-].
      destruct (IH d' r' eq_refl) as (-> & Hd & Hr).
      split; [done|]. simpl. by rewrite Hc, Hd.
    + intros [= <- <-]. simpl. by rewrite Hc.
Qed.

Lemma span_digits_app d r :
  all_chars is_digit d = true -> nodigit r = true ->
  span_digits (d +:+ r) = (d, r).
Proof.
  intros Hd Hr. induction d as [|c d IH].
  - change (EmptyString +:+ r) with r. destruct r as [|c r]; [done|].
    simpl in *. by destruct (is_digit c).
  - rewrite app_cons. simpl in *. apply andb_true_iff in Hd as [-> Hd].
    by rewrite IH.
Qed.



Lemma last_char_app s t :
  last_char (s +:+ t) = match t with EmptyString => last_char s | _ => last_char t end.
Proof.
  induction s as [|a s IH].
  - change (EmptyString +:+ t) with t. by destruct t.
  - rewrite app_cons. cbn [last_char]. rewrite IH.
    destruct t as [|b t].
    + by rewrite app_nil_r_s.
    + destruct s; by rewrite ?app_cons.
Qed.

Lemma last_char_digits c d :
  is_digit c = true -> all_chars is_digit d = true ->
  exists x, last_char (String c d) = Some x /\ is_digit x = true.
Proof.
  revert c. induction d as [|b d IH]; intros c Hc Hd.
  - by exists c.
  - simpl in Hd. apply andb_true_iff in Hd as [Hb Hd].
    destruct (IH b Hb Hd) as (x & Hx & Hxd). exists x. split; [|done].
    by rewrite <- Hx.
Qed.



Lemma stops_nodigit s : stops s = true -> nodigit s = true.
Proof. destruct s as [|c s]; [done|]. simpl. by destruct (is_digit c). Qed.

Lemma stops_nodot s : stops s = true -> nodot s = true.
Proof.
  destruct s as [|c s]; [done|]. simpl.
  destruct (is_digit c), (Ascii.eqb c "."); done.
Qed.

Lemma stops_noexp s : stops s = true -> noexp s = true.
Proof.
  destruct s as [|c s]; [done|]. simpl.
  destruct (is_digit c), (Ascii.eqb c "."), (Ascii.eqb c "e"), (Ascii.eqb c "E"); done.
Qed.


Lemma scan_int_local s i r :
  scan_int s = Some (i, r) ->
  s = i +:+ r
  /\ piece (fun c => is_digit c || Ascii.eqb c "-"%char) i
  /\ forall x, nodigit x = true -> scan_int (i +:+ x) = Some (i, x).
Proof.
  unfold scan_int.
  assert (forall sg t, (sg = EmptyString \/ sg = "-") ->
            match t with
            | String c r' =>
                if Ascii.eqb c "0"%char then Some (sg +:+ String c EmptyString, r')
                else if is_digit c
                     then let '(d, rest) := span_digits r' in Some (sg +:+ String c d, rest)
                     else None
            | EmptyString => None
            end = Some (i, r) ->
            exists c d, i = sg +:+ String c d /\ t = String c d +:+ r
              /\ is_digit c = true /\ all_chars is_digit d = true
              /\ forall x, nodigit x = true ->
                   match String c d +:+ x with
                   | String c r' =>
                       if Ascii.eqb c "0"%char then Some (sg +:+ String c EmptyString, r')
                       else if is_digit c
                            then let '(d, rest) := span_digits r' in Some (sg +:+ String c d, rest)
                            else None
                   | EmptyString => None
                   end = Some (i, x)) as Hbody.
  { intros sg t Hsg Ht. destruct t as [|c r']; [done|].
    destruct (Ascii.eqb c "0") eqn:H0.
    - injection Ht as <- <-. apply Ascii.eqb_eq in H0 as ->.
      exists "0"%char, EmptyString. repeat split; try done.
    - destruct (is_digit c) eqn:Hc; [|done].
      destruct (span_digits r') as [d rest] eqn:Hd. injection Ht as <- <-.
      apply span_digits_split in Hd as (-> & Hd & Hr).
      exists c, d. repeat split; try done.
      intros x Hx. rewrite app_cons. rewrite H0, Hc.
      by rewrite span_digits_app. }
  destruct s as [|g r'].
  - intros Hs. by apply (Hbody EmptyString EmptyString) in Hs as (? & ? & ? & ? & _); [|left].
  - destruct (Ascii.eqb g "-") eqn:Hg.
    + apply Ascii.eqb_eq in Hg as ->. intros Hs.
      apply (Hbody "-" r') in Hs as (c & d & -> & -> & Hc & Hd & Hloc); [|by right].
      split; [done|split].
      * destruct (last_char_digits c d Hc Hd) as (x & Hx & Hxd).
        exists "-"%char, (String c d), x. repeat split; try done.
      * intros x Hx. change (("-" +:+ String c d) +:+ x) with (String "-" (String c d +:+ x)).
        cbn [Ascii.eqb Bool.eqb]. by apply Hloc.
    + intros Hs.
      apply (Hbody EmptyString (String g r')) in Hs as (c & d & -> & Ht & Hc & Hd & Hloc);
        [|by left].
      change (EmptyString +:+ String c d) with (String c d) in *.
      rewrite app_cons in Ht. injection Ht as -> ->.
      split; [done|split].
      * destruct (last_char_digits c d Hc Hd) as (x & Hx & Hxd).
        exists c, d, x. repeat split; try done. by rewrite Hc.
      * intros x Hx. specialize (Hloc x Hx). rewrite app_cons in *.
        by rewrite Hg.
Qed.

Lemma scan_frac_nodot x : nodot x = true -> scan_frac x = (EmptyString, x).
Proof.
  destruct x as [|c x]; [done|]. simpl. by destruct (Ascii.eqb c ".").
Qed.

Lemma scan_frac_local s f r :
  scan_frac s = (f, r) ->
  s = f +:+ r
  /\ (f = EmptyString
      \/ piece (fun c => Ascii.eqb c "."%char) f
         /\ forall x, nodigit x = true -> scan_frac (f +:+ x) = (f, x)).
Proof.
  unfold scan_frac. destruct s as [|c s].
  - intros [= <- <-]. split; [done|by left].
  - destruct (Ascii.eqb c ".") eqn:Hc.
    + destruct (span_digits s) as [d rest] eqn:Hd.
      apply span_digits_split in Hd as (-> & Hd & Hr).
      destruct d as [|b d].
      * intros [= <- <-]. split; [done|by left].
      * intros [= <- <-]. split; [done|right].
        simpl in Hd. apply andb_true_iff in Hd as [Hb Hd].
        destruct (last_char_digits b d Hb Hd) as (x & Hx & Hxd).
        split.
        -- exists c, (String b d), x. repeat split; try done.
        -- intros y Hy. rewrite !app_cons, Hc.
           rewrite <- app_cons. rewrite span_digits_app; [done| |done].
           simpl. by rewrite Hb, Hd.
    + intros [= <- <-]. split; [done|by left].
Qed.

Lemma scan_exp_noexp x : noexp x = true -> scan_exp x = (EmptyString, x).
Proof.
  destruct x as [|c x]; [done|]. simpl.
  by destruct (Ascii.eqb c "e"), (Ascii.eqb c "E").
Qed.

Lemma scan_exp_local s e r :
  scan_exp s = (e, r) ->
  s = e +:+ r
  /\ (e = EmptyString
      \/ piece (fun c => Ascii.eqb c "e"%char || Ascii.eqb c "E"%char) e
         /\ forall x, nodigit x = true -> scan_exp (e +:+ x) = (e, x)).
Proof.
  unfold scan_exp. destruct s as [|c s].
  - intros [= <- <-]. split; [done|by left].
  - destruct (Ascii.eqb c "e" || Ascii.eqb c "E") eqn:Hc.
    + set (sgr := match s with
                  | String g r' =>
                      if Ascii.eqb g "+"%char || Ascii.eqb g "-"%char
                      then (String g EmptyString, r') else (EmptyString, s)
                  | EmptyString => (EmptyString, s)
                  end).
      assert (exists sg r1, sgr = (sg, r1) /\ s = sg +:+ r1
                /\ (sg = EmptyString /\ (forall g r', r1 = String g r' ->
                        (Ascii.eqb g "+"%char || Ascii.eqb g "-"%char) = false)
                    \/ exists g, sg = String g EmptyString
                       /\ (Ascii.eqb g "+"%char || Ascii.eqb g "-"%char) = true))
        as (sg & r1 & Hsgr & -> & Hsg).
      { unfold sgr. destruct s as [|g r'].
        - exists EmptyString, EmptyString. split; [done|split; [done|left]]. done.
        - destruct (Ascii.eqb g "+" || Ascii.eqb g "-") eqn:Hg.
          + exists (String g EmptyString), r'. split; [done|split; [done|right]].
            by exists g.
          + exists EmptyString, (String g r'). split; [done|split; [done|left]].
            split; [done|]. by intros ? ? [= -> ->]. }
      rewrite Hsgr.
      destruct (span_digits r1) as [d rest] eqn:Hd.
      apply span_digits_split in Hd as (-> & Hd & Hr).
      destruct d as [|b d].
      * intros [= <- <-]. split; [done|by left].
      * intros [= <- <-]. split; [by rewrite !app_cons, app_assoc_s|right].
        simpl in Hd. apply andb_true_iff in Hd as [Hb Hd].
        destruct (last_char_digits b d Hb Hd) as (x & Hx & Hxd).
        split.
        -- exists c, (sg +:+ String b d), x. repeat split; try done.
           change (String c (sg +:+ String b d)) with (String c sg +:+ String b d).
           by rewrite last_char_app.
        -- intros y Hy. rewrite !app_cons, Hc.
           destruct Hsg as [[-> Hnos]|(g & -> & Hg)].
           ++ change (EmptyString +:+ ?z) with z. rewrite app_cons.
              rewrite (Hnos b (d +:+ rest) eq_refl).
              rewrite <- app_cons. rewrite span_digits_app; [done| |done].
              simpl. by rewrite Hb, Hd.
           ++ rewrite !app_cons. change (EmptyString +:+ ?z) with z.
              rewrite app_cons, Hg.
              rewrite <- app_cons. rewrite span_digits_app; [done| |done].
              simpl. by rewrite Hb, Hd.
    + intros [= <- <-]. split; [done|by left].
Qed.


Lemma piece_app first g u t :
  piece first u -> t = EmptyString \/ piece g t -> piece first (u +:+ t).
Proof.
  intros (c & r & x & -> & Hc & Hx & Hxd) [->|(c' & r' & x' & -> & _ & Hx' & Hxd')].
  - rewrite app_nil_r_s. by exists c, r, x.
  - exists c, (r +:+ String c' r'), x'. rewrite app_cons. repeat split; try done.
    rewrite <- app_cons. by rewrite last_char_app.
Qed.

Lemma piece_head first u x :
  piece first u -> exists c r, u +:+ x = String c r /\ first c = true.
Proof. intros (c & r & _ & -> & Hc & _). exists c, (r +:+ x). by rewrite app_cons. Qed.

Lemma scan_number_local s lit rest :
  scan_number s = Some (lit, rest) ->
  s = lit +:+ rest
  /\ piece (fun c => is_digit c || Ascii.eqb c "-"%char) lit
  /\ forall x, stops x = true -> scan_number (lit +:+ x) = Some (lit, x).
Proof.
  unfold scan_number.
  destruct (scan_int s) as [[i r]|] eqn:Hi; [|done].
  destruct (scan_frac r) as [f r1] eqn:Hf.
  destruct (scan_exp r1) as [e r2] eqn:He.
  intros [= <- <-].
  apply scan_int_local in Hi as (-> & Hpi & Hli).
  apply scan_frac_local in Hf as (-> & Hf).
  apply scan_exp_local in He as (-> & He).
  split; [by rewrite !app_assoc_s|split].
  - destruct Hf as [->|[Hpf _]], He as [->|[Hpe _]].
    + eapply (piece_app _ (fun _ => true)); [done|by left].
    + eapply piece_app; [done|]. right. exact Hpe.
    + eapply piece_app; [done|]. right. rewrite app_nil_r_s. exact Hpf.
    + eapply piece_app; [done|]. right.
      eapply piece_app; [exact Hpf|]. right. exact Hpe.
  - intros x Hx. rewrite !app_assoc_s.
    pose proof (stops_nodigit x Hx) as Hx1.
    pose proof (stops_nodot x Hx) as Hx2.
    pose proof (stops_noexp x Hx) as Hx3.
    destruct Hf as [->|[Hpf Hlf]], He as [->|[Hpe Hle]];
      change (EmptyString +:+ ?z) with z.
    + rewrite Hli by done. rewrite scan_frac_nodot by done.
      by rewrite scan_exp_noexp by done.
    + destruct (piece_head _ e x Hpe) as (c & r & Hex & Hc).
      rewrite Hli; [|rewrite Hex; simpl;
                     by destruct (Ascii.eqb_spec c "e") as [->|];
                        [|destruct (Ascii.eqb_spec c "E") as [->|]]].
      rewrite scan_frac_nodot;
        [|rewrite Hex; simpl;
          by destruct (Ascii.eqb_spec c "e") as [->|];
             [|destruct (Ascii.eqb_spec c "E") as [->|]]].
      by rewrite Hle.
    + destruct (piece_head _ f x Hpf) as (c & r & Hfx & Hc).
      apply Ascii.eqb_eq in Hc as ->.
      rewrite Hli; [|by rewrite Hfx].
      rewrite Hlf by done. by rewrite scan_exp_noexp.
    + destruct (piece_head _ f (e +:+ x) Hpf) as (c & r & Hfx & Hc).
      apply Ascii.eqb_eq in Hc as ->.
      destruct (piece_head _ e x Hpe) as (c & r' & Hex & Hc).
      rewrite Hli; [|by rewrite Hfx].
      rewrite Hlf;
        [|rewrite Hex; simpl;
          by destruct (Ascii.eqb_spec c "e") as [->|];
             [|destruct (Ascii.eqb_spec c "E") as [->|]]].
      by rewrite Hle.
Qed.

(** The words [null], [true], [false], [NaN], [Infinity], [-Infinity]. *)
Lemma after_word_local w : forall s r,
  after_word w s = Some r -> s = w +:+ r /\ forall x, after_word w (w +:+ x) = Some x.
Proof.
  induction w as [|a w IH]; intros s r.
  - intros [= ->]. done.
  - simpl. destruct s as [|b s]; [done|].
    destruct (Ascii.eqb_spec a b) as [->|]; [|done].
    intros Hs. apply IH in Hs as (-> & Hloc). split; [done|].
    intros x. rewrite ?app_cons. simpl. by rewrite Ascii.eqb_refl.
Qed.

Lemma scan_word_local w v0 s v rest :
  scan_word w v0 s = Some (v, rest) ->
  v = v0 /\ s = w +:+ rest /\ forall x, scan_word w v0 (w +:+ x) = Some (v0, x).
Proof.
  unfold scan_word. destruct (after_word w s) as [r|] eqn:Hw; [|done].
  intros [= <- <-]. apply after_word_local in Hw as (-> & Hloc).
  split; [done|split; [done|]]. intros x. by rewrite Hloc.
Qed.




Lemma last_char_end u c t : t = u +:+ String c EmptyString -> last_char t = Some c.
Proof. intros ->. by rewrite last_char_app. Qed.


Lemma scan_once_S n c r :
  scan_once (S n) (String c r) =
    if Ascii.eqb c dquote then
      match scan_string r with
      | Some (t, rest) => Some (VStr t, rest)
      | None => None
      end
    else if Ascii.eqb c "{"%char then
      match skip_ws r with
      | String c1 r1 =>
          if Ascii.eqb c1 "}"%char then Some (VDict [], r1)
          else if Ascii.eqb c1 dquote then
            match scan_members n r1 with
            | Some (kvs, rest) => Some (VDict (Dict.of_pairs kvs), rest)
            | None => None
            end
          else None
      | EmptyString => None
      end
    else if Ascii.eqb c "["%char then
      match skip_ws r with
      | String c1 r1 =>
          if Ascii.eqb c1 "]"%char then Some (VList [], r1)
          else
            match scan_elems n (String c1 r1) with
            | Some (vs, rest) => Some (VList vs, rest)
            | None => None
            end
      | EmptyString => None
      end
    else if Ascii.eqb c "n"%char then scan_word "null" VNone (String c r)
    else if Ascii.eqb c "t"%char then scan_word "true" (VBool true) (String c r)
    else if Ascii.eqb c "f"%char then scan_word "false" (VBool false) (String c r)
    else
      match scan_number (String c r) with
      | Some (lit, rest) => Some (VNum lit, rest)
      | None =>
          if Ascii.eqb c "N"%char then scan_word "NaN" (VNum "NaN") (String c r)
          else if Ascii.eqb c "I"%char
          then scan_word "Infinity" (VNum "Infinity") (String c r)
          else if Ascii.eqb c "-"%char
          then scan_word "-Infinity" (VNum "-Infinity") (String c r)
          else None
      end.
Proof. reflexivity. Qed.

Lemma scan_elems_S n s :
  scan_elems (S n) s =
    match scan_once n s with
    | Some (v, r) =>
        match skip_ws r with
        | String c r1 =>
            if Ascii.eqb c "]"%char then Some ([v], r1)
            else if Ascii.eqb c ","%char then
              match scan_elems n (skip_ws r1) with
              | Some (vs, rest) => Some (v :: vs, rest)
              | None => None
              end
            else None
        | EmptyString => None
        end
    | None => None
    end.
Proof. reflexivity. Qed.

Lemma scan_members_S n s :
  scan_members (S n) s =
    match scan_string s with
    | Some (k, r) =>
        match skip_ws r with
        | String c r1 =>
            if Ascii.eqb c ":"%char then
              match scan_once n (skip_ws r1) with
              | Some (v, r2) =>
                  match skip_ws r2 with
                  | String c2 r3 =>
                      if Ascii.eqb c2 "}"%char then Some ([(k, v)], r3)
                      else if Ascii.eqb c2 ","%char then
                        match skip_ws r3 with
                        | String c3 r4 =>
                            if Ascii.eqb c3 dquote then
                              match scan_members n r4 with
                              | Some (kvs, rest) => Some ((k, v) :: kvs, rest)
                              | None => None
                              end
                            else None
                        | EmptyString => None
                        end
                      else None
                  | EmptyString => None
                  end
              | None => None
              end
            else None
        | EmptyString => None
        end
    | None => None
    end.
Proof. reflexivity. Qed.

(** What [skip_ws] found: the blanks [ws] it skipped in front of [c]. *)
Lemma skip_ws_found s c r :
  skip_ws s = String c r ->
  exists ws, s = ws +:+ String c r /\ jblank ws = true /\ is_ws c = false
             /\ forall x, skip_ws (ws +:+ String c x) = String c x.
Proof.
  intros Hs. destruct (skip_ws_split s) as (ws & Heq & Hb).
  pose proof (skip_ws_head _ _ _ Hs) as Hc.
  exists ws. rewrite Hs in Heq. split; [done|split; [done|split; [done|]]].
  intros x. rewrite skip_ws_blank by done. by apply skip_ws_keep.
Qed.


Lemma local_once_step n : local_elems n -> local_members n -> local_once (S n).
Proof.
  intros IHe IHm s v rest H.
  destruct s as [|c r]; [done|]. rewrite scan_once_S in H.
  destruct (Ascii.eqb c dquote) eqn:Hq.
  { destruct (scan_string r) as [[t r']|] eqn:Hs; [|done]. injection H as <- <-.
    apply (scan_string_local (String.length r)) in Hs as (u & -> & Hloc); [|lia].
    apply Ascii.eqb_eq in Hq as ->.
    exists (String dquote (u +:+ String dquote EmptyString)).
    split; [by norm|split; [headed|split]].
    - exists dquote. split; [|done].
        apply (last_char_end (String dquote u)). by norm.
    - intros m x Hm Hx. destruct m as [|m]; [simpl in Hm; lia|].
      norm. rewrite scan_once_S. cbn [Ascii.eqb Bool.eqb dquote].
      by rewrite Hloc. }
  destruct (Ascii.eqb c "{") eqn:Hbrace.
  { apply Ascii.eqb_eq in Hbrace as ->.
    destruct (skip_ws r) as [|c1 r1] eqn:Hsk; [done|].
    apply skip_ws_found in Hsk as (ws & -> & Hb & Hc1 & Hskip).
    destruct (Ascii.eqb c1 "}") eqn:H1.
    - injection H as <- <-. apply Ascii.eqb_eq in H1 as ->.
      exists (String "{" (ws +:+ "}")).
      split; [by norm|split; [headed|split]].
      + exists "}"%char. split; [|done].
        apply (last_char_end (String "{" ws)). by norm.
      + intros m x Hm Hx. destruct m as [|m]; [simpl in Hm; lia|].
        norm. rewrite scan_once_S. cbn [Ascii.eqb Bool.eqb dquote].
        by rewrite Hskip.
    - destruct (Ascii.eqb c1 dquote) eqn:H2; [|done].
      destruct (scan_members n r1) as [[kvs rest']|] eqn:Hmem; [|done].
      injection H as <- <-.
      apply IHm in Hmem as (um & -> & Hloc).
      exists (String "{" (ws +:+ String c1 (um +:+ "}"))).
      split; [by norm|split; [headed|split]].
      + exists "}"%char. split; [|done].
        apply (last_char_end ((String "{" ws +:+ String c1 um))). by norm.
      + intros m x Hm Hx. destruct m as [|m]; [simpl in Hm; lia|].
        norm. rewrite scan_once_S. cbn [Ascii.eqb Bool.eqb dquote].
        rewrite Hskip, H1, H2. rewrite Hloc; [done|].
        lens Hm. simpl String.length. lia. }
  destruct (Ascii.eqb c "[") eqn:Hbrack.
  { apply Ascii.eqb_eq in Hbrack as ->.
    destruct (skip_ws r) as [|c1 r1] eqn:Hsk; [done|].
    apply skip_ws_found in Hsk as (ws & -> & Hb & Hc1 & Hskip).
    destruct (Ascii.eqb c1 "]") eqn:H1.
    - injection H as <- <-. apply Ascii.eqb_eq in H1 as ->.
      exists (String "[" (ws +:+ "]")).
      split; [by norm|split; [headed|split]].
      + exists "]"%char. split; [|done].
        apply (last_char_end (String "[" ws)). by norm.
      + intros m x Hm Hx. destruct m as [|m]; [simpl in Hm; lia|].
        norm. rewrite scan_once_S. cbn [Ascii.eqb Bool.eqb dquote].
        by rewrite Hskip.
    - destruct (scan_elems n (String c1 r1)) as [[vs rest']|] eqn:Hel; [|done].
      injection H as <- <-.
      apply IHe in Hel as (ue & Hue & Hloc).
      destruct ue as [|a ue].
      { norm_in Hue. injection Hue as -> _. done. }
      norm_in Hue. injection Hue as <- ->.
      exists (String "[" (ws +:+ String c1 (ue +:+ "]"))).
      split; [by norm|split; [headed|split]].
      + exists "]"%char. split; [|done].
        apply (last_char_end ((String "[" ws +:+ String c1 ue))). by norm.
      + intros m x Hm Hx. destruct m as [|m]; [simpl in Hm; lia|].
        norm. rewrite scan_once_S. cbn [Ascii.eqb Bool.eqb dquote].
        rewrite Hskip, H1.
        specialize (Hloc m x). norm_in Hloc. rewrite Hloc; [done|].
        lens Hm. simpl String.length. lia. }
  assert (forall w v0,
            scan_word w v0 (String c r) = Some (v, rest) ->
            (exists c0 u, w = String c0 u /\ opens v0 c0 = true) ->
            (exists y, last_char w = Some y /\ closes v0 y = true) ->
            (forall m x, scan_once (S m) (w +:+ x) = scan_word w v0 (w +:+ x)) ->
            exists used : string,
              String c r = used +:+ rest
              /\ (exists c0 u, used = String c0 u /\ opens v c0 = true)
              /\ (exists y, last_char used = Some y /\ closes v y = true)
              /\ (forall m x, (2 * String.length used <= m)%nat -> stops x = true ->
                     scan_once m (used +:+ x) = Some (v, x))) as Hword.
  { intros w v0 Hw Hop Hcl Hrun.
    apply scan_word_local in Hw as (-> & Hs & Hloc).
    exists w. split; [done|split; [done|split; [done|]]].
    intros m x Hm Hx. destruct Hop as (c0 & u & -> & _).
    destruct m as [|m]; [simpl in Hm; lia|].
    by rewrite Hrun, Hloc. }
  destruct (Ascii.eqb c "n") eqn:Hn.
  { apply (Hword "null" VNone H); [headed|by exists "l"%char|done]. }
  destruct (Ascii.eqb c "t") eqn:Ht.
  { apply (Hword "true" (VBool true) H); [headed|by exists "e"%char|done]. }
  destruct (Ascii.eqb c "f") eqn:Hf.
  { apply (Hword "false" (VBool false) H); [headed|by exists "e"%char|done]. }
  destruct (scan_number (String c r)) as [[lit r']|] eqn:Hnum.
  { injection H as <- <-.
    apply scan_number_local in Hnum as (Hs & (c0 & r0 & y & -> & Hc0 & Hy & Hyd) & Hloc).
    norm_in Hs. injection Hs as <- ->.
    exists (String c r0). split; [by norm|split; [|split]].
    - exists c, r0. split; [done|]. simpl.
      by destruct (is_digit c), (Ascii.eqb c "-").
    - exists y. split; [done|]. simpl. by rewrite Hyd.
    - intros m x Hm Hx. destruct m as [|m]; [simpl in Hm; lia|].
      specialize (Hloc x Hx). norm. norm_in Hloc.
      rewrite scan_once_S, Hq, Hbrace, Hbrack, Hn, Ht, Hf. by rewrite Hloc. }
  destruct (Ascii.eqb c "N") eqn:HN.
  { apply (Hword "NaN" (VNum "NaN") H); [headed|by exists "N"%char|done]. }
  destruct (Ascii.eqb c "I") eqn:HI.
  { apply (Hword "Infinity" (VNum "Infinity") H);
      [headed|by exists "y"%char|done]. }
  destruct (Ascii.eqb c "-") eqn:Hminus; [|done].
  apply (Hword "-Infinity" (VNum "-Infinity") H);
    [headed|by exists "y"%char|done].
Qed.


Lemma local_elems_step n : local_once n -> local_elems n -> local_elems (S n).
Proof.
  intros IHo IHe s vs rest H. rewrite scan_elems_S in H.
  destruct (scan_once n s) as [[v r]|] eqn:Hv; [|done].
  apply IHo in Hv as (uv & -> & _ & _ & Hlv).
  destruct (skip_ws r) as [|c r1] eqn:Hsk; [done|].
  apply skip_ws_found in Hsk as (ws & -> & Hb & Hc & Hskip).
  destruct (Ascii.eqb c "]") eqn:H1.
  - injection H as <- <-. apply Ascii.eqb_eq in H1 as ->.
    exists (uv +:+ ws). split; [by norm|].
    intros m x Hm. destruct m as [|m]; [lia|].
    norm. rewrite scan_elems_S.
    rewrite Hlv; [|lens Hm; lia|by apply stops_sep; auto].
    by rewrite Hskip.
  - destruct (Ascii.eqb c ",") eqn:H2; [|done].
    apply Ascii.eqb_eq in H2 as ->.
    destruct (scan_elems n (skip_ws r1)) as [[vs' rest']|] eqn:Hel; [|done].
    injection H as <- <-.
    apply IHe in Hel as (ue & Hue & Hle).
    destruct (skip_ws_split r1) as (ws2 & Hr1 & Hb2).
    rewrite Hue in Hr1. subst r1.
    exists (uv +:+ ws +:+ String "," (ws2 +:+ ue)). split; [by norm|].
    intros m x Hm. destruct m as [|m]; [lia|].
    norm. rewrite scan_elems_S.
    rewrite Hlv; [|lens Hm; lia|by apply stops_sep; auto].
    rewrite Hskip. cbn [Ascii.eqb Bool.eqb].
    rewrite skip_ws_blank by done.
    assert (skip_ws (ue +:+ String "]" x) = ue +:+ String "]" x) as ->.
    { destruct ue as [|a ue]; [done|]. norm. norm_in Hue.
      apply skip_ws_keep. by apply (skip_ws_head _ _ _ Hue). }
    rewrite Hle; [done|]. lens Hm. lia.
Qed.

Lemma local_members_step n : local_once n -> local_members n -> local_members (S n).
Proof.
  intros IHo IHm s kvs rest H. rewrite scan_members_S in H.
  destruct (scan_string s) as [[k r]|] eqn:Hk; [|done].
  apply (scan_string_local (String.length s)) in Hk as (uk & -> & Hlk); [|lia].
  destruct (skip_ws r) as [|c r1] eqn:Hsk; [done|].
  apply skip_ws_found in Hsk as (ws & -> & Hb & Hc & Hskip).
  destruct (Ascii.eqb c ":") eqn:H1; [|done]. apply Ascii.eqb_eq in H1 as ->.
  destruct (scan_once n (skip_ws r1)) as [[v r2]|] eqn:Hv; [|done].
  apply IHo in Hv as (uv & Huv & (c0 & uv' & -> & Hopen) & _ & Hlv).
  destruct (skip_ws_split r1) as (ws1 & Hr1 & Hb1).
  rewrite Huv in Hr1. subst r1.
  assert (forall y, skip_ws (ws1 +:+ String c0 uv' +:+ y) = String c0 uv' +:+ y)
    as Hskip1.
  { intros y. rewrite skip_ws_blank by done. norm. norm_in Huv.
    apply skip_ws_keep. by apply (skip_ws_head _ _ _ Huv). }
  clear Huv.
  destruct (skip_ws r2) as [|c2 r3] eqn:Hsk2; [done|].
  apply skip_ws_found in Hsk2 as (ws2 & -> & Hb2 & Hc2 & Hskip2).
  destruct (Ascii.eqb c2 "}") eqn:H2.
  - injection H as <- <-. apply Ascii.eqb_eq in H2 as ->.
    exists (uk +:+ String dquote (ws +:+ String ":" (ws1 +:+ String c0 uv' +:+ ws2))).
    split; [by norm|].
    intros m x Hm. destruct m as [|m]; [lia|].
    rewrite scan_members_S. norm. rewrite Hlk, Hskip.
    cbn [Ascii.eqb Bool.eqb].
    specialize (Hskip1 (ws2 +:+ String "}" x)). norm_in Hskip1. rewrite Hskip1.
    specialize (Hlv m (ws2 +:+ String "}" x)). norm_in Hlv.
    rewrite Hlv; [|lens Hm; simpl String.length; lia|by apply stops_sep; auto].
    by rewrite Hskip2.
  - destruct (Ascii.eqb c2 ",") eqn:H3; [|done]. apply Ascii.eqb_eq in H3 as ->.
    destruct (skip_ws r3) as [|c3 r4] eqn:Hsk3; [done|].
    apply skip_ws_found in Hsk3 as (ws3 & -> & Hb3 & Hc3 & Hskip3).
    destruct (Ascii.eqb c3 dquote) eqn:H4; [|done].
    destruct (scan_members n r4) as [[kvs' rest']|] eqn:Hmem; [|done].
    injection H as <- <-.
    apply IHm in Hmem as (um & -> & Hlm).
    exists (uk +:+ String dquote (ws +:+ String ":" (ws1 +:+ String c0 uv' +:+ ws2
              +:+ String "," (ws3 +:+ String c3 um)))).
    split; [by norm|].
    intros m x Hm. destruct m as [|m]; [lia|].
    rewrite scan_members_S. norm. rewrite Hlk, Hskip.
    cbn [Ascii.eqb Bool.eqb].
    specialize (Hskip1 (ws2 +:+ String "," (ws3 +:+ String c3 (um +:+ String "}" x)))).
    norm_in Hskip1. rewrite Hskip1.
    specialize (Hlv m (ws2 +:+ String "," (ws3 +:+ String c3 (um +:+ String "}" x)))).
    norm_in Hlv.
    rewrite Hlv; [|lens Hm; simpl String.length; lia|by apply stops_sep; auto].
    rewrite Hskip2. cbn [Ascii.eqb Bool.eqb]. rewrite Hskip3, H4.
    rewrite Hlm; [done|]. lens Hm. lia.
Qed.

Lemma scan_local n : local_once n /\ local_elems n /\ local_members n.
Proof.
  induction n as [|n (IHo & IHe & IHm)].
  - split; [|split]; by intros ? ? ?.
  - split; [|split].
    + by apply local_once_step.
    + by apply local_elems_step.
    + by apply local_members_step.
Qed.


(** No value starts or ends with a blank or a backtick. *)
Lemma opens_tight v c :
  opens v c = true -> is_ws c = false /\ isspace c = false /\ c <> backtick.
Proof.
  destruct v as [|[]| | | |]; simpl;
    destruct c as [[] [] [] [] [] [] [] []]; done.
Qed.


(** A text that [json.loads] reads is blanks, the text of the value, blanks;
    and the text of the value alone reads to the same value. *)
Theorem loads_core s v :
  Json.loads s = Some v ->
  exists ws0 core ws1,
    s = ws0 +:+ core +:+ ws1
    /\ jblank ws0 = true /\ jblank ws1 = true
    /\ Json.loads core = Some v
    /\ (exists c u, core = String c u /\ opens v c = true)
    /\ (exists x, last_char core = Some x /\ closes v x = true).
Proof.
  unfold Json.loads.
  destruct (scan_once _ (skip_ws s)) as [[v' rest]|] eqn:Hscan; [|done].
  destruct (skip_ws rest) eqn:Hrest; [|done]. intros [= ->].
  destruct (skip_ws_split s) as (ws0 & Hs & Hb0).
  destruct (scan_local (2 * String.length s + 2)) as (Hlocal & _ & _).
  apply Hlocal in Hscan as (core & Hcore & Hopen & Hclose & Hloc).
  exists ws0, core, rest.
  split; [by rewrite <- Hcore|split; [done|split; [by apply skip_ws_empty|]]].
  split; [|done].
  destruct Hopen as (c & u & -> & Hc).
  destruct (opens_tight v c Hc) as (Hws & _ & _).
  rewrite skip_ws_keep by done.
  rewrite <- (app_nil_r_s (String c u)) at 2.
  by rewrite Hloc; [|lia|].
Qed.

End Parser.

(** ** Locating the payload in the answer *)

Section Extraction.
Import PyStr ProfileAnalyzerAgent.
Implicit Types (s t : string) (o c : ascii).





Lemma last_char_split s x :
  last_char s = Some x -> exists front, s = front +:+ String x EmptyString.
Proof.
  induction s as [|a s IH]; [done|]. destruct s as [|b s].
  - intros [= ->]. by exists EmptyString.
  - intros Hl. destruct (IH Hl) as (front & ->).
    by exists (String a front).
Qed.






(** The first try on a payload [s] that holds both delimiters in order,
    standing between a text without the opening one and a text without the
    closing one: the slice is cut out of [s] alone. *)
Lemma first_slice_window o c p s t :
  occurs o p = false -> occurs c t = false ->
  occurs o s = true -> occurs c s = true ->
  find (p +:+ s +:+ t) o = len p + find s o
  /\ rfind (p +:+ s +:+ t) c = len p + rfind s c
  /\ ((rfind s c >? find s o) = true ->
      slice (p +:+ s +:+ t) (Some (len p + find s o)) (Some (len p + rfind s c + 1))
      = slice s (Some (find s o)) (Some (rfind s c + 1))).
Proof.
  intros Hop Hct Hos Hcs.
  pose proof (find_from_range o s Hos) as Hf.
  pose proof (rfind_from_range c s Hcs) as Hr.
  fold (find s o) in Hf. fold (rfind s c) in Hr.
  split; [|split].
  - rewrite find_app, Hop, occurs_app, Hos. simpl.
    by rewrite find_app, Hos.
  - rewrite rfind_app, occurs_app, Hcs. simpl.
    by rewrite rfind_app, Hct.
  - intros Hgt. apply Z.gtb_lt in Hgt.
    replace (len p + rfind s c + 1) with (len p + (rfind s c + 1)) by lia.
    apply slice_middle; lia.
Qed.



End Extraction.

Section Recovery.
Import PyStr ProfileAnalyzerAgent.
Context `{PyRuntime}.

(** An array text, from '[' to ']', between a text without '[' and a text
    without ']', is what the first try slices and reads. *)
Lemma embedded_brackets_recovered (prefix body suffix : string) (l : list value) :
  Json.loads ("[" +:+ body +:+ "]") = Some (VList l) ->
  occurs "["%char prefix = false ->
  occurs "]"%char suffix = false ->
  parse_response "["%char "]"%char (prefix +:+ ("[" +:+ body +:+ "]") +:+ suffix)
  = Some (VList l).
Proof.
  intros Hloads Hp Hs.
  set (arr := "[" +:+ body +:+ "]") in *.
  assert (find arr "["%char = 0) as Hf by done.
  assert (occurs "["%char arr = true) as Ho by done.
  assert (occurs "]"%char arr = true) as Hc.
  { unfold arr. by rewrite !occurs_app, orb_true_r. }
  assert (rfind arr "]"%char = len arr - 1) as Hr.
  { unfold arr. rewrite <- app_assoc_s, rfind_app, !len_app. simpl.
    change (len "]") with 1. change (rfind "]" "]"%char) with 0. lia. }
  assert (2 <= len arr) as Hlen.
  { unfold arr. rewrite !len_app. change (len "[") with 1. change (len "]") with 1.
    pose proof (len_nonneg body). lia. }
  destruct (first_slice_window "["%char "]"%char prefix arr suffix Hp Hs Ho Hc)
    as (Hfind & Hrfind & Hslice).
  unfold parse_response. rewrite Hfind, Hrfind, Hf, Hr.
  pose proof (len_nonneg prefix).
  replace (len prefix + 0 =? -1) with false by (symmetry; apply Z.eqb_neq; lia).
  replace (len prefix + (len arr - 1) =? -1) with false
    by (symmetry; apply Z.eqb_neq; lia).
  replace (len prefix + (len arr - 1) >? len prefix + 0) with true
    by (symmetry; apply Z.gtb_lt; lia).
  cbn [negb andb].
  rewrite Hf, Hr in Hslice. rewrite Hslice by (apply Z.gtb_lt; lia).
  replace (len arr - 1 + 1) with (len arr) by lia.
  by rewrite slice_whole, Hloads.
Qed.

(** C3, as amended.  A well-formed JSON array embedded in a text whose part
    before it holds no '[' and whose part after it holds no ']' is recovered
    exactly, and [_extract_skills] builds its skills from the items of that
    array. *)
Theorem embedded_array_recovered (prefix arr suffix : string) (l : list value) :
  Json.loads arr = Some (VList l) ->
  find prefix "["%char = -1 ->
  rfind suffix "]"%char = -1 ->
  parse_response "["%char "]"%char (prefix +:+ arr +:+ suffix) = Some (VList l)
  /\ skills_of_completion (Ok (VStr (prefix +:+ arr +:+ suffix)))
     = collect_skills l.
Proof.
  intros Hloads Hp Hs. apply find_absent in Hp. apply rfind_absent in Hs.
  assert (parse_response "["%char "]"%char (prefix +:+ arr +:+ suffix)
          = Some (VList l)) as Hparse.
  { destruct (loads_core arr (VList l) Hloads)
      as (ws0 & core & ws1 & -> & H0 & H1 & Hcore & (a & u & -> & Ha) & (x & Hl & Hx)).
    simpl in Ha, Hx. apply Ascii.eqb_eq in Ha as ->. apply Ascii.eqb_eq in Hx as ->.
    apply last_char_split in Hl as (front & Hfront).
    destruct front as [|a body]; [done|].
    rewrite app_cons in Hfront. injection Hfront as <- ->.
    replace (prefix +:+ (ws0 +:+ String "[" (body +:+ "]") +:+ ws1) +:+ suffix)
      with ((prefix +:+ ws0) +:+ ("[" +:+ body +:+ "]") +:+ (ws1 +:+ suffix))
      by by norm.
    apply embedded_brackets_recovered; [done| |].
    - by rewrite occurs_app, Hp, (blank_occurs _ ws0); [| apply jblank_blank|].
    - by rewrite occurs_app, Hs, (blank_occurs _ ws1); [| apply jblank_blank|]. }
  split; [done|]. unfold skills_of_completion. by rewrite Hparse.
Qed.


End Recovery.

(** The array of one skill after "Here are the skills:" and a line break,
    and before a closing remark. *)
Lemma embedded_array_recovered_witness :
  ProfileAnalyzerAgent.parse_response "["%char "]"%char
    ("Here are the skills:" +:+ (" [" +:+ python_item +:+ "] ")
     +:+ "(that is all)")
  = Some (VList [VDict [("name", VStr "Python"); ("category", VStr "technical");
                        ("level", VStr "advanced");
                        ("years_experience", VNum "5")]])
  /\ ProfileAnalyzerAgent.skills_of_completion (H := sample_runtime)
       (Ok (VStr ("Here are the skills:" +:+ (" [" +:+ python_item +:+ "] ")
                  +:+ "(that is all)")))
     = ProfileAnalyzerAgent.collect_skills
         [VDict [("name", VStr "Python"); ("category", VStr "technical");
                 ("level", VStr "advanced"); ("years_experience", VNum "5")]].
Proof.
  apply (embedded_array_recovered (H := sample_runtime) "Here are the skills:"
           (" [" +:+ python_item +:+ "] ") "(that is all)").
  - vm_compute. reflexivity.
  - reflexivity.
  - reflexivity.
Defined.

(** C3, as stated, fails.  The same well-formed array is lost when the text
    before it holds a '[' or the text after it a ']': the slice from the
    first '[' to the last ']' is not the array, nothing else parses, and
    [_extract_skills] ends with the empty list. *)
Lemma embedded_array_not_recovered :
  Json.loads ("[" +:+ python_item +:+ "]")
  = Some (VList [VDict [("name", VStr "Python"); ("category", VStr "technical");
                        ("level", VStr "advanced");
                        ("years_experience", VNum "5")]])
  /\ ProfileAnalyzerAgent.parse_response "["%char "]"%char
       ("Skills [extracted]: " +:+ ("[" +:+ python_item +:+ "]")) = None
  /\ ProfileAnalyzerAgent.parse_response "["%char "]"%char
       (("[" +:+ python_item +:+ "]") +:+ " (see note 1]") = None
  /\ fst (ProfileAnalyzerAgent._extract_skills
            (sample_agent
               [Ok (OpenRouterLLM.envelope
                      (VStr ("[" +:+ python_item +:+ "]")))])
            "profile")
     = [sample_skill "Python" "technical" "advanced" "5"]
  /\ fst (ProfileAnalyzerAgent._extract_skills
            (sample_agent
               [Ok (OpenRouterLLM.envelope
                      (VStr ("Skills [extracted]: "
                             +:+ ("[" +:+ python_item +:+ "]"))))])
            "profile")
     = [].
Proof. vm_compute. repeat split; reflexivity. Qed.


(** * Further properties of the code *)

(** ** [_format_prompt] and [str.format] *)

Section FormatPrompt.
Import PyStr.
Implicit Types (kw : list (string * string)).

Lemma emit_emit_str c v r : emit c (emit_str v r) = emit_str (String c v) r.
Proof. by destruct r as [[]|]. Qed.

Lemma emit_str_nil r : emit_str EmptyString r = r.
Proof. by destruct r as [[]|]. Qed.

Lemma emit_str_app u v r : emit_str u (emit_str v r) = emit_str (u +:+ v) r.
Proof. destruct r as [[]|]; simpl; try done. by rewrite app_assoc_s. Qed.

(** Literal text goes to the output as it is. *)
Lemma format_from_plain pre s kw :
  plain pre = true ->
  format_from None (pre +:+ s) kw = emit_str pre (format_from None s kw).
Proof.
  unfold plain. induction pre as [|c pre IH]; intros Hp.
  - by rewrite app_nil_l_s, emit_str_nil.
  - simpl in Hp. apply andb_true_iff in Hp as [Hc Hp].
    apply negb_true_iff, orb_false_iff in Hc as [Ho Hcl].
    rewrite app_cons. cbn [format_from]. rewrite Ho, Hcl.
    rewrite (IH Hp). apply emit_emit_str.
Qed.

(** Inside a field the name is read up to the closing brace. *)
Lemma format_from_name name : forall acc rest kw,
  all_chars name_char name = true ->
  format_from (Some acc) (name +:+ String "}" rest) kw
  = match get_field (acc +:+ name) kw with
    | Ok v => emit_str v (format_from None rest kw)
    | Raise e => Some (Raise e)
    end.
Proof.
  induction name as [|c name IH]; intros acc rest kw Hn.
  - rewrite app_nil_l_s, app_nil_r_s. done.
  - simpl in Hn. apply andb_true_iff in Hn as [Hc Hn].
    unfold name_char in Hc.
    apply negb_true_iff in Hc.
    repeat (apply orb_false_iff in Hc as [Hc ?]).
    rewrite app_cons. cbn [format_from].
    replace (Ascii.eqb c "}") with false by done.
    replace (Ascii.eqb c "{") with false by done.
    replace (Ascii.eqb c "[" || Ascii.eqb c "." || Ascii.eqb c "!" || Ascii.eqb c ":")
      with false by (symmetry; by repeat (apply orb_false_iff; split)).
    rewrite (IH _ _ _ Hn). by rewrite app_assoc_s, app_cons, app_nil_l_s.
Qed.

(** One replacement field after literal text. *)
Lemma format_field pre name rest kw :
  plain pre = true -> all_chars name_char name = true ->
  format (pre +:+ String "{" (name +:+ String "}" rest)) kw
  = match get_field name kw with
    | Ok v => emit_str (pre +:+ v) (format rest kw)
    | Raise e => Some (Raise e)
    end.
Proof.
  intros Hp Hn. unfold format. rewrite format_from_plain by done.
  assert (format_from None (String "{" (name +:+ String "}" rest)) kw
          = format_from (Some EmptyString) (name +:+ String "}" rest) kw) as ->.
  { destruct name as [|c name]; [done|].
    rewrite app_cons. cbn [format_from].
    simpl in Hn. apply andb_true_iff in Hn as [Hc _]. unfold name_char in Hc.
    apply negb_true_iff in Hc. repeat (apply orb_false_iff in Hc as [Hc ?]).
    replace (Ascii.eqb c "{") with false by done. done. }
  rewrite format_from_name by done. rewrite app_nil_l_s.
  destruct (get_field name kw); [|done]. apply emit_str_app.
Qed.

Lemma keyword_chars name : keyword name = true -> all_chars name_char name = true.
Proof.
  unfold keyword. intros Hk. apply andb_true_iff in Hk as [Hk _].
  by apply andb_true_iff in Hk as [_ Hk].
Qed.

Lemma get_field_keyword name kw :
  keyword name = true ->
  get_field name kw = match kw_lookup kw name with
                      | Some v => Ok v
                      | None => Raise (Exn KeyError (repr name))
                      end.
Proof.
  unfold keyword, get_field. intros Hk.
  apply andb_true_iff in Hk as [Hk Hi]. apply andb_true_iff in Hk as [He _].
  destruct (get_integer name); try done.
  apply negb_true_iff in He. by rewrite He.
Qed.

(** X1.  For every profile text and every skills text, [_format_prompt]
    applied to the two prompt templates of [ProfileAnalyzerAgent] raises
    nothing and returns the template with its doubled braces single and the
    texts inserted as they are, braces in them included: the prompts that
    [_extract_skills] and [_analyze_profile] send. *)
Theorem format_prompt_templates (profile_text skills_json : string) :
  BaseAgent._format_prompt ProfileAnalyzerAgent.SKILL_EXTRACTION_PROMPT_template
    [("profile_text", profile_text)]
  = Some (Ok (ProfileAnalyzerAgent.SKILL_EXTRACTION_PROMPT profile_text))
  /\ BaseAgent._format_prompt ProfileAnalyzerAgent.PROFILE_ANALYSIS_PROMPT_template
       [("profile_text", profile_text); ("skills_json", skills_json)]
     = Some (Ok (ProfileAnalyzerAgent.PROFILE_ANALYSIS_PROMPT profile_text
                   skills_json)).
Proof. split; vm_compute; reflexivity. Qed.

(** X2.  A replacement field that names a variable passed to
    [_format_prompt], after literal text: the output starts with that text
    and the value of the variable, which is not scanned for braces, and goes
    on with what [_format_prompt] makes of the rest of the template. *)
Theorem format_prompt_substitutes (pre name v rest : string) kw :
  plain pre = true -> keyword name = true -> kw_lookup kw name = Some v ->
  BaseAgent._format_prompt (pre +:+ "{" +:+ name +:+ "}" +:+ rest) kw
  = emit_str (pre +:+ v) (BaseAgent._format_prompt rest kw).
Proof.
  intros Hp Hk Hv. unfold BaseAgent._format_prompt.
  rewrite !app_cons, !app_nil_l_s.
  rewrite format_field by (done || by apply keyword_chars).
  rewrite get_field_keyword, Hv by done.
  destruct (format rest kw) as [[|e]|]; try done.
  simpl. by destruct (exn_cls e).
Qed.

(** X3.  A replacement field that names a variable not passed to
    [_format_prompt], after literal text: the call raises [ValueError] with
    the message "Missing required variable in prompt template: " followed by
    the [repr] of the name, whatever follows the field. *)
Theorem format_prompt_missing_variable (pre name rest : string) kw :
  plain pre = true -> keyword name = true -> kw_lookup kw name = None ->
  BaseAgent._format_prompt (pre +:+ "{" +:+ name +:+ "}" +:+ rest) kw
  = Some (Raise (Exn ValueError
                   ("Missing required variable in prompt template: "
                    +:+ repr name))).
Proof.
  intros Hp Hk Hv. unfold BaseAgent._format_prompt.
  rewrite !app_cons, !app_nil_l_s.
  rewrite format_field by (done || by apply keyword_chars).
  by rewrite get_field_keyword, Hv.
Qed.

Lemma format_double_braces s kw : format (double_braces s) kw = Some (Ok s).
Proof.
  unfold format. induction s as [|c s IH]; [done|].
  cbn [double_braces].
  destruct (Ascii.eqb c "{") eqn:Ho.
  - cbn [orb format_from]. rewrite Ho, IH. done.
  - destruct (Ascii.eqb c "}") eqn:Hc.
    + cbn [orb format_from]. rewrite Ho, Hc, IH. done.
    + cbn [orb format_from]. rewrite Ho, Hc, IH. done.
Qed.

(** X4.  Any text written with each of its braces doubled is a template
    that [_format_prompt] turns back into that text, whatever variables are
    passed. *)
Theorem format_prompt_doubled_braces (s : string) kw :
  BaseAgent._format_prompt (double_braces s) kw = Some (Ok s).
Proof. unfold BaseAgent._format_prompt. by rewrite format_double_braces. Qed.






End FormatPrompt.

(** A greeting whose variable holds braces of its own. *)
Lemma format_prompt_substitutes_witness :
  BaseAgent._format_prompt ("Hello " +:+ "{" +:+ "who" +:+ "}" +:+ "!")
    [("who", "{x}")]
  = PyStr.emit_str ("Hello " +:+ "{x}")
      (BaseAgent._format_prompt "!" [("who", "{x}")]).
Proof.
  apply (format_prompt_substitutes "Hello " "who" "{x}" "!" [("who", "{x}")]);
    reflexivity.
Defined.

(** A template that asks for [name] when only [who] is passed. *)
Lemma format_prompt_missing_variable_witness :
  BaseAgent._format_prompt ("Dear " +:+ "{" +:+ "name" +:+ "}" +:+ ", hello")
    [("who", "x")]
  = Some (Raise (Exn ValueError
                   ("Missing required variable in prompt template: "
                    +:+ PyStr.repr "name"))).
Proof.
  apply (format_prompt_missing_variable "Dear " "name" ", hello" [("who", "x")]);
    reflexivity.
Defined.


(** ** The transports when the endpoint answers *)

Section RetryAnswers.

Lemma llm_attempts_S rq todo attempt self w :
  OpenRouterLLM.attempts rq (S todo) attempt self w
  = let '(r, self1, w1) := OpenRouterLLM.attempt_once self rq w in
    match r with
    | Ok response => (Ok response, self1, w1)
    | Raise e =>
        if attempt <? OpenRouterLLM.max_retries self1 - 1 then
          let '(s, w2) :=
            sleep (backoff (OpenRouterLLM.retry_delay self1) attempt) w1 in
          match s with
          | Ok _ => OpenRouterLLM.attempts rq todo (attempt + 1) self1 w2
          | Raise e' => (Raise e', self1, w2)
          end
        else (Raise (ExnFrom Exception (OpenRouterLLM.failed_message self1) e),
              self1, w1)
    end.
Proof. done. Qed.

(** An attempt that the endpoint answers with usable data. *)
Lemma attempt_once_answer self rq w c m rest :
  chat_endpoint w (length (chat_log w)) rq = Ok c ->
  usage c <> UsageNone -> choices c = m :: rest ->
  OpenRouterLLM.attempt_once self rq w
  = (Ok (OpenRouterLLM.envelope (OpenRouterLLM.opt_str m)), tracked self c,
     after w [rq] [] []).
Proof.
  intros He Hu Hc. unfold OpenRouterLLM.attempt_once, tracked.
  rewrite chat_create_after, He.
  unfold OpenRouterLLM.track_usage, OpenRouterLLM.build_response.
  rewrite Hc. by destruct (usage c).
Qed.

Lemma chat_fails_then_step w k c rq d :
  chat_fails_then w (S k) c ->
  chat_fails_then (after (after w [rq] [] []) [] [] [d]) k c.
Proof.
  intros [Hf Ha]. unfold chat_fails_then, after. simpl.
  rewrite !app_nil_r, length_app. simpl. split.
  - intros i rq' Hi. replace (length (chat_log w) + 1 + i)%nat
      with (length (chat_log w) + S i)%nat by lia. apply Hf. lia.
  - intros rq'. replace (length (chat_log w) + 1 + k)%nat
      with (length (chat_log w) + S k)%nat by lia. apply Ha.
Qed.

Lemma llm_attempts_answer rq k : forall todo attempt self w c m rest,
  (0 <= OpenRouterLLM.retry_delay self)%Q ->
  0 <= attempt ->
  (k < todo)%nat ->
  attempt + Z.of_nat todo = OpenRouterLLM.max_retries self ->
  chat_fails_then w k c ->
  usage c <> UsageNone -> choices c = m :: rest ->
  OpenRouterLLM.attempts rq todo attempt self w
  = (Ok (OpenRouterLLM.envelope (OpenRouterLLM.opt_str m)), tracked self c,
     after w (replicate (S k) rq) []
       (backoff (OpenRouterLLM.retry_delay self) <$> seqZ attempt (Z.of_nat k))).
Proof.
  induction k as [|k IH]; intros todo attempt self w c m rest Hd Ha Hk Hn [Hf Hans] Hu Hc.
  - destruct todo as [|todo]; [lia|].
    rewrite llm_attempts_S.
    rewrite (attempt_once_answer self rq w c m rest); [done| |done|done].
    rewrite <- (Hans rq). f_equal. lia.
  - destruct todo as [|todo]; [lia|].
    pose proof (Hf 0%nat rq ltac:(lia)) as Hr.
    rewrite Nat.add_0_r in Hr.
    destruct (chat_endpoint w (length (chat_log w)) rq) as [?|e] eqn:He; [done|].
    rewrite (llm_attempts_fail_step _ _ _ _ _ _ He).
    replace (attempt <? OpenRouterLLM.max_retries self - 1) with true
      by (symmetry; apply Z.ltb_lt; lia).
    rewrite sleep_after by done.
    rewrite (IH todo (attempt + 1) self _ c m rest); try done; try lia.
    + rewrite !after_after. simpl.
      replace (Z.of_nat (S k)) with (Z.of_nat k + 1) by lia.
      by rewrite seqZ_backoff_cons by lia.
    + by apply chat_fails_then_step.
Qed.

(** X6.  When the generation endpoint fails [k] times, [k] below
    [max_retries], and then answers with a completion that has usage data (or
    no [usage] attribute) and a choice, [generate_text] returns the envelope
    around the content of the first choice after exactly [k + 1] requests and
    [k] sleeps of [retry_delay * 2^i] seconds, and adds to the counters the
    usage of that completion only. *)
Theorem generate_text_retries_until_answer (k : nat) (self : OpenRouterLLM.t)
    (w : World) (p : OpenRouterLLM.prompt) (model : string) (temperature : Q)
    (max_tokens : Z) (c : completion) (m : option string)
    (rest : list (option string)) :
  (0 <= OpenRouterLLM.retry_delay self)%Q ->
  Z.of_nat k < OpenRouterLLM.max_retries self ->
  chat_fails_then w k c ->
  usage c <> UsageNone -> choices c = m :: rest ->
  OpenRouterLLM.generate_text self p model temperature max_tokens w
  = (Ok (OpenRouterLLM.envelope (OpenRouterLLM.opt_str m)), tracked self c,
     after w (replicate (S k) (chat_request_of p model temperature max_tokens)) []
       (backoff_delays (OpenRouterLLM.retry_delay self) (Z.of_nat k))).
Proof.
  intros Hd Hk Hw Hu Hc. unfold OpenRouterLLM.generate_text.
  rewrite (llm_attempts_answer _ k _ 0 self w c m rest); try done; try lia.
Qed.

Lemma http_fails_then_step w k v rq d :
  http_fails_then w (S k) v ->
  http_fails_then (after (after w [] [rq] []) [] [] [d]) k v.
Proof.
  intros [Hf Ha]. unfold http_fails_then, after. simpl.
  rewrite !app_nil_r, length_app. simpl. split.
  - intros i rq' Hi. replace (length (http_log w) + 1 + i)%nat
      with (length (http_log w) + S i)%nat by lia. apply Hf. lia.
  - intros rq'. replace (length (http_log w) + 1 + k)%nat
      with (length (http_log w) + S k)%nat by lia. apply Ha.
Qed.

Lemma http_attempts_answer self rq k : forall todo attempt w v,
  (0 <= TavilySearchTool.retry_delay self)%Q ->
  0 <= attempt ->
  (k < todo)%nat ->
  attempt + Z.of_nat todo = TavilySearchTool.max_retries self ->
  http_fails_then w k v ->
  TavilySearchTool.attempts self rq todo attempt w
  = (Ok v,
     after w [] (replicate (S k) rq)
       (backoff (TavilySearchTool.retry_delay self) <$> seqZ attempt (Z.of_nat k))).
Proof.
  induction k as [|k IH]; intros todo attempt w v Hd Ha Hk Hn [Hf Hans].
  - destruct todo as [|todo]; [lia|].
    cbn [TavilySearchTool.attempts]. rewrite http_post_after.
    specialize (Hans rq). rewrite Nat.add_0_r in Hans. by rewrite Hans.
  - destruct todo as [|todo]; [lia|].
    destruct (Hf 0%nat rq ltac:(lia)) as (e & He & Hcl).
    rewrite Nat.add_0_r in He.
    rewrite (http_attempts_fail_step _ _ _ _ _ _ He Hcl).
    replace (attempt <? TavilySearchTool.max_retries self - 1) with true
      by (symmetry; apply Z.ltb_lt; lia).
    rewrite sleep_after by done.
    rewrite (IH todo (attempt + 1) _ v); try done; try lia.
    + rewrite !after_after. simpl.
      replace (Z.of_nat (S k)) with (Z.of_nat k + 1) by lia.
      by rewrite seqZ_backoff_cons by lia.
    + by apply http_fails_then_step.
Qed.

(** X7.  When the search endpoint fails [k] times with failures of
    [requests], [k] below [max_retries], and then answers, [search] returns
    that answer after exactly [k + 1] requests, all with the same payload,
    and [k] sleeps of [retry_delay * 2^i] seconds. *)
Theorem search_retries_until_answer (k : nat) (self : TavilySearchTool.t)
    (w : World) (query : string) (search_params : option Dict.t) (v : value) :
  (0 <= TavilySearchTool.retry_delay self)%Q ->
  Z.of_nat k < TavilySearchTool.max_retries self ->
  http_fails_then w k v ->
  TavilySearchTool.search self query search_params w
  = (Ok v,
     after w [] (replicate (S k) (http_request_of self query search_params))
       (backoff_delays (TavilySearchTool.retry_delay self) (Z.of_nat k))).
Proof.
  intros Hd Hk Hw. unfold TavilySearchTool.search.
  rewrite (http_attempts_answer self _ k _ 0 w v); try done; lia.
Qed.

(** X8.  With [max_retries] zero or negative neither transport sends
    anything: [generate_text] and [search] fall off the end of their loop and
    return [None], and [get_completion] then raises [AttributeError] on that
    [None]. *)
Theorem no_attempt_without_retries (llm : OpenRouterLLM.t)
    (tool : TavilySearchTool.t) (w : World) (p : OpenRouterLLM.prompt)
    (model : string) (temperature : Q) (max_tokens : Z) (query prompt : string)
    (search_params : option Dict.t) (kw : kwargs) :
  OpenRouterLLM.max_retries llm <= 0 -> TavilySearchTool.max_retries tool <= 0 ->
  OpenRouterLLM.generate_text llm p model temperature max_tokens w
  = (Ok VNone, llm, w)
  /\ TavilySearchTool.search tool query search_params w = (Ok VNone, w)
  /\ exists e,
       get_completion (llm, w) prompt kw = (Raise e, (llm, w))
       /\ exn_cls e = AttributeError.
Proof.
  intros Hl Ht.
  assert (forall p model temperature max_tokens,
            OpenRouterLLM.generate_text llm p model temperature max_tokens w
            = (Ok VNone, llm, w)) as Hg.
  { intros. unfold OpenRouterLLM.generate_text.
    by replace (Z.to_nat (OpenRouterLLM.max_retries llm)) with 0%nat by lia. }
  split; [done|split].
  - unfold TavilySearchTool.search.
    by replace (Z.to_nat (TavilySearchTool.max_retries tool)) with 0%nat by lia.
  - unfold get_completion. cbn [generate_text OpenRouterLLM_generator].
    rewrite Hg. by eexists.
Qed.

(** X9.  A failure of the search request that is not a failure of
    [requests] is not caught by [search]: it leaves the function as it is,
    unwrapped, after one request and no sleep, whatever [max_retries] allows. *)
Theorem search_other_failure_not_caught (self : TavilySearchTool.t) (w : World)
    (query : string) (search_params : option Dict.t) (e : exn) :
  1 <= TavilySearchTool.max_retries self ->
  http_endpoint w (length (http_log w)) (http_request_of self query search_params)
    = Raise e ->
  exn_cls e <> RequestException ->
  TavilySearchTool.search self query search_params w
  = (Raise e, after w [] [http_request_of self query search_params] []).
Proof.
  intros Hn He Hc. unfold TavilySearchTool.search.
  destruct (Z.to_nat (TavilySearchTool.max_retries self)) as [|todo] eqn:Ht; [lia|].
  cbn [TavilySearchTool.attempts]. rewrite http_post_after.
  unfold http_request_of in He. rewrite He.
  by destruct (exn_cls e).
Qed.

Lemma attempt_once_choiceless self rq w p c n :
  chat_never_chooses w p c n ->
  OpenRouterLLM.attempt_once self rq w
  = (Raise (Exn IndexError "list index out of range"),
     OpenRouterLLM.add_usage self p c n, after w [rq] [] []).
Proof.
  intros Hw. unfold OpenRouterLLM.attempt_once.
  by rewrite chat_create_after, Hw.
Qed.

Lemma chat_never_chooses_after w p c n chat http naps :
  chat_never_chooses w p c n -> chat_never_chooses (after w chat http naps) p c n.
Proof. intros Hw i rq. apply Hw. Qed.

Lemma llm_attempts_choiceless rq p c n todo : forall attempt self w,
  chat_never_chooses w p c n ->
  (0 <= OpenRouterLLM.retry_delay self)%Q ->
  0 <= attempt ->
  attempt + Z.of_nat (S todo) = OpenRouterLLM.max_retries self ->
  exists self',
    OpenRouterLLM.attempts rq (S todo) attempt self w
    = (Raise (ExnFrom Exception (OpenRouterLLM.failed_message self)
                (Exn IndexError "list index out of range")),
       self',
       after w (replicate (S todo) rq) []
         (backoff (OpenRouterLLM.retry_delay self) <$> seqZ attempt (Z.of_nat todo)))
    /\ OpenRouterLLM.total_tokens self'
       = OpenRouterLLM.total_tokens self + Z.of_nat (S todo) * n
    /\ OpenRouterLLM.total_prompt_tokens self'
       = OpenRouterLLM.total_prompt_tokens self + Z.of_nat (S todo) * p
    /\ OpenRouterLLM.total_completion_tokens self'
       = OpenRouterLLM.total_completion_tokens self + Z.of_nat (S todo) * c.
Proof.
  induction todo as [|todo IH]; intros attempt self w Hw Hd Ha Hn.
  - rewrite llm_attempts_S, (attempt_once_choiceless _ _ _ _ _ _ Hw).
    cbn [OpenRouterLLM.add_usage OpenRouterLLM.max_retries].
    replace (attempt <? OpenRouterLLM.max_retries self - 1) with false
      by (symmetry; apply Z.ltb_ge; lia).
    eexists. split; [reflexivity|]. simpl. lia.
  - rewrite llm_attempts_S, (attempt_once_choiceless _ _ _ _ _ _ Hw).
    cbn [OpenRouterLLM.add_usage OpenRouterLLM.max_retries OpenRouterLLM.retry_delay].
    replace (attempt <? OpenRouterLLM.max_retries self - 1) with true
      by (symmetry; apply Z.ltb_lt; lia).
    rewrite sleep_after by done.
    destruct (IH (attempt + 1) (OpenRouterLLM.add_usage self p c n)
                (after (after w [rq] [] []) [] []
                   [backoff (OpenRouterLLM.retry_delay self) attempt]))
      as (self' & Hrun & Ht & Hp & Hc); [by do 2 apply chat_never_chooses_after|done|lia| |].
    { cbn [OpenRouterLLM.add_usage OpenRouterLLM.max_retries]. lia. }
    exists self'. split.
    + rewrite Hrun. rewrite !after_after. simpl.
      replace (Z.of_nat (S todo)) with (Z.of_nat todo + 1) by lia.
      by rewrite seqZ_backoff_cons by lia.
    + rewrite Ht, Hp, Hc. cbn [OpenRouterLLM.add_usage OpenRouterLLM.total_tokens
        OpenRouterLLM.total_prompt_tokens OpenRouterLLM.total_completion_tokens].
      lia.
Qed.

(** X10.  Usage is counted before the choices are read: against an endpoint
    that answers every request with a usage report and an empty list of
    choices, [generate_text] with [max_retries = N >= 1] makes its [N]
    attempts, raises at the end, and has by then added the reported tokens
    [N] times to each counter. *)
Theorem failed_attempts_are_counted (N p c n : Z) (self : OpenRouterLLM.t)
    (w : World) (pr : OpenRouterLLM.prompt) (model : string) (temperature : Q)
    (max_tokens : Z) :
  1 <= N -> OpenRouterLLM.max_retries self = N ->
  (0 <= OpenRouterLLM.retry_delay self)%Q ->
  chat_never_chooses w p c n ->
  exists self',
    OpenRouterLLM.generate_text self pr model temperature max_tokens w
    = (Raise (ExnFrom Exception (OpenRouterLLM.failed_message self)
                (Exn IndexError "list index out of range")),
       self',
       after w (replicate (Z.to_nat N)
                  (chat_request_of pr model temperature max_tokens)) []
         (backoff_delays (OpenRouterLLM.retry_delay self) (N - 1)))
    /\ OpenRouterLLM.total_tokens self' = OpenRouterLLM.total_tokens self + N * n
    /\ OpenRouterLLM.total_prompt_tokens self'
       = OpenRouterLLM.total_prompt_tokens self + N * p
    /\ OpenRouterLLM.total_completion_tokens self'
       = OpenRouterLLM.total_completion_tokens self + N * c.
Proof.
  intros HN Hn Hd Hw. unfold OpenRouterLLM.generate_text. rewrite Hn.
  assert (Z.to_nat N = S (Z.to_nat (N - 1))) as HS by lia. rewrite HS.
  destruct (llm_attempts_choiceless (chat_request_of pr model temperature max_tokens)
              p c n (Z.to_nat (N - 1)) 0 self w) as (self' & Hrun & Ht & Hp & Hc);
    [done|done|lia|lia|].
  exists self'. split.
  - unfold chat_request_of in Hrun. rewrite Hrun. rewrite Z2Nat.id by lia.
    by rewrite backoff_delays_backoff.
  - rewrite Ht, Hp, Hc. replace (Z.of_nat (S (Z.to_nat (N - 1)))) with N by lia. done.
Qed.

End RetryAnswers.

Section NullContent.
Context `{PyRuntime}.
Import ProfileAnalyzerAgent.

(** X11.  A first choice whose message content is [None] is passed on as
    it is: [get_completion] then returns [None], not a string, after one
    request; on that answer [_extract_skills] finds no skill and
    [_analyze_profile] falls back on the default analysis. *)
Theorem null_content_is_passed_on (self : OpenRouterLLM.t) (w : World)
    (prompt : string) (kw : kwargs) (c : completion) (rest : list (option string)) :
  1 <= OpenRouterLLM.max_retries self ->
  chat_endpoint w (length (chat_log w)) (completion_request prompt kw) = Ok c ->
  usage c <> UsageNone -> choices c = None :: rest ->
  get_completion (self, w) prompt kw
  = (Ok VNone, (tracked self c, after w [completion_request prompt kw] [] []))
  /\ skills_of_completion (Ok VNone) = []
  /\ analysis_of_completion (Ok VNone) = default_analysis.
Proof.
  intros Hn He Hu Hc. split; [|done].
  unfold get_completion. cbn [generate_text OpenRouterLLM_generator].
  unfold OpenRouterLLM.generate_text.
  destruct (Z.to_nat (OpenRouterLLM.max_retries self)) as [|todo] eqn:Ht; [lia|].
  rewrite llm_attempts_S.
  unfold completion_request, chat_request_of in He.
  by rewrite (attempt_once_answer self _ w c None rest He Hu Hc).
Qed.

End NullContent.

(** One failure, then the answer, with three attempts allowed. *)
Lemma generate_text_retries_until_answer_witness :
  OpenRouterLLM.generate_text (sample_llm 3 1) (OpenRouterLLM.PromptStr "hi")
    "openai/gpt-4o-mini" (7 # 10) 1000 flaky_world
  = (Ok (OpenRouterLLM.envelope (OpenRouterLLM.opt_str (Some "[]"))),
     tracked (sample_llm 3 1) {| usage := Usage 12 30 42; choices := [Some "[]"] |},
     after flaky_world
       (replicate 2 (chat_request_of (OpenRouterLLM.PromptStr "hi")
                       "openai/gpt-4o-mini" (7 # 10) 1000)) []
       (backoff_delays (OpenRouterLLM.retry_delay (sample_llm 3 1)) (Z.of_nat 1))).
Proof.
  apply (generate_text_retries_until_answer 1 (sample_llm 3 1) flaky_world
           (OpenRouterLLM.PromptStr "hi") "openai/gpt-4o-mini" (7 # 10) 1000
           {| usage := Usage 12 30 42; choices := [Some "[]"] |} (Some "[]") []).
  - discriminate.
  - reflexivity.
  - split.
    + intros i rq Hi. destruct i as [|i]; [exact I|lia].
    + intros rq. reflexivity.
  - discriminate.
  - reflexivity.
Defined.

Lemma search_retries_until_answer_witness :
  TavilySearchTool.search (sample_tool 3 1) "jobs" None flaky_search_world
  = (Ok (VDict [("results", VList [])]),
     after flaky_search_world []
       (replicate 2 (http_request_of (sample_tool 3 1) "jobs" None))
       (backoff_delays (TavilySearchTool.retry_delay (sample_tool 3 1)) (Z.of_nat 1))).
Proof.
  apply (search_retries_until_answer 1 (sample_tool 3 1) flaky_search_world
           "jobs" None (VDict [("results", VList [])])).
  - discriminate.
  - reflexivity.
  - split.
    + intros i rq Hi. destruct i as [|i]; [|lia].
      eexists. split; reflexivity.
    + intros rq. reflexivity.
Defined.

(** No attempt allowed, against endpoints that would fail. *)
Lemma no_attempt_without_retries_witness :
  OpenRouterLLM.generate_text (sample_llm 0 1) (OpenRouterLLM.PromptStr "hi")
    "openai/gpt-4o-mini" (7 # 10) 1000 dead_world
  = (Ok VNone, sample_llm 0 1, dead_world)
  /\ TavilySearchTool.search (sample_tool (-1) 1) "jobs" None dead_world
     = (Ok VNone, dead_world)
  /\ exists e,
       get_completion (sample_llm 0 1, dead_world) "hi" (kw_temp (3 # 10))
       = (Raise e, (sample_llm 0 1, dead_world))
       /\ exn_cls e = AttributeError.
Proof.
  apply (no_attempt_without_retries (sample_llm 0 1) (sample_tool (-1) 1) dead_world);
    simpl; lia.
Defined.

Lemma search_other_failure_not_caught_witness :
  TavilySearchTool.search (sample_tool 3 1) "jobs" None broken_world
  = (Raise (Exn TypeError "not JSON serializable"),
     after broken_world [] [http_request_of (sample_tool 3 1) "jobs" None] []).
Proof.
  apply (search_other_failure_not_caught (sample_tool 3 1) broken_world "jobs" None
           (Exn TypeError "not JSON serializable")).
  - simpl. lia.
  - reflexivity.
  - discriminate.
Defined.

(** Three attempts, each reporting 42 tokens and no choice. *)
Lemma failed_attempts_are_counted_witness :
  exists self',
    OpenRouterLLM.generate_text (sample_llm 3 1) (OpenRouterLLM.PromptStr "hi")
      "openai/gpt-4o-mini" (7 # 10) 1000 choiceless_world
    = (Raise (ExnFrom Exception (OpenRouterLLM.failed_message (sample_llm 3 1))
                (Exn IndexError "list index out of range")),
       self',
       after choiceless_world
         (replicate (Z.to_nat 3)
            (chat_request_of (OpenRouterLLM.PromptStr "hi") "openai/gpt-4o-mini"
               (7 # 10) 1000)) []
         (backoff_delays (OpenRouterLLM.retry_delay (sample_llm 3 1)) (3 - 1)))
    /\ OpenRouterLLM.total_tokens self'
       = OpenRouterLLM.total_tokens (sample_llm 3 1) + 3 * 42
    /\ OpenRouterLLM.total_prompt_tokens self'
       = OpenRouterLLM.total_prompt_tokens (sample_llm 3 1) + 3 * 12
    /\ OpenRouterLLM.total_completion_tokens self'
       = OpenRouterLLM.total_completion_tokens (sample_llm 3 1) + 3 * 30.
Proof.
  apply (failed_attempts_are_counted 3 12 30 42 (sample_llm 3 1) choiceless_world).
  - lia.
  - reflexivity.
  - discriminate.
  - intros i rq. reflexivity.
Defined.

Lemma null_content_is_passed_on_witness :
  get_completion (sample_llm 3 1, null_world) "hi" (kw_temp (3 # 10))
  = (Ok VNone,
     (tracked (sample_llm 3 1) {| usage := NoUsageAttr; choices := [None] |},
      after null_world [completion_request "hi" (kw_temp (3 # 10))] [] []))
  /\ ProfileAnalyzerAgent.skills_of_completion (H := sample_runtime) (Ok VNone) = []
  /\ ProfileAnalyzerAgent.analysis_of_completion (Ok VNone)
     = ProfileAnalyzerAgent.default_analysis.
Proof.
  apply (null_content_is_passed_on (H := sample_runtime) (sample_llm 3 1) null_world
           "hi" (kw_temp (3 # 10)) {| usage := NoUsageAttr; choices := [None] |} []).
  - simpl. lia.
  - reflexivity.
  - discriminate.
  - reflexivity.
Defined.

(** ** The payload of a search *)

Section SearchPayload.
Import TavilySearchTool.

Lemma update_cons d k v extra :
  update d ((k, v) :: extra) = update (Dict.set d k v) extra.
Proof. done. Qed.

(** [dict.update]: the entries of [extra] win. *)
Lemma update_get extra : forall d k,
  NoDup (Dict.keys extra) ->
  Dict.get (update d extra) k
  = match Dict.get extra k with
    | Some v => Some v
    | None => Dict.get d k
    end.
Proof.
  induction extra as [|[k0 v0] extra IH]; intros d k Hnd; [done|].
  rewrite update_cons. simpl in Hnd. apply NoDup_cons in Hnd as [Hk0 Hnd].
  rewrite IH by done. cbn [Dict.get].
  destruct (String.eqb k0 k) eqn:E.
  - apply String.eqb_eq in E. subst k0.
    assert (Dict.get extra k = None) as ->.
    { clear -Hk0. induction extra as [|[k1 v1] extra IH]; [done|].
      simpl in *. destruct (String.eqb k1 k) eqn:E.
      - apply String.eqb_eq in E. subst. exfalso. apply Hk0. by left.
      - apply IH. intros Hin. apply Hk0. by right. }
    apply dict_get_set_eq.
  - destruct (Dict.get extra k); [done|].
    apply dict_get_set_ne. intros ->. by rewrite String.eqb_refl in E.
Qed.

(** X12.  In the payload [search] sends, an entry of [search_params] wins
    over the two entries [search] writes itself: a [query] or an [api_key]
    among the parameters replaces the query given and the key of the tool;
    every other key of the payload comes from the parameters alone. *)
Theorem search_params_override (self : t) (query : string)
    (search_params : Dict.t) (k : string) :
  NoDup (Dict.keys search_params) ->
  Dict.get (payload self query search_params) k
  = match Dict.get search_params k with
    | Some v => Some v
    | None =>
        if String.eqb k "api_key" then Some (VStr (api_key self))
        else if String.eqb k "query" then Some (VStr query)
        else None
    end.
Proof.
  intros Hnd. unfold payload. rewrite update_get by done.
  destruct (Dict.get search_params k); [done|].
  cbn [Dict.get]. rewrite (String.eqb_sym "api_key"), (String.eqb_sym "query").
  done.
Qed.

Lemma update_two d k1 v1 k2 v2 k :
  k1 <> k2 ->
  Dict.get (update d [(k1, v1); (k2, v2)]) k
  = if String.eqb k k2 then Some v2
    else if String.eqb k k1 then Some v1 else Dict.get d k.
Proof.
  intros Hne. unfold update. cbn [fold_left fst snd].
  destruct (String.eqb k k2) eqn:E2.
  - apply String.eqb_eq in E2. subst. apply dict_get_set_eq.
  - rewrite dict_get_set_ne by (intros ->; by rewrite String.eqb_refl in E2).
    destruct (String.eqb k k1) eqn:E1.
    + apply String.eqb_eq in E1. subst. apply dict_get_set_eq.
    + apply dict_get_set_ne. intros ->. by rewrite String.eqb_refl in E1.
Qed.

(** X13.  Whatever the configuration says, [search_job_market] and
    [search_courses] search with [search_depth] set to "advanced" and with
    their own list of domains; every other parameter of the configuration is
    passed on unchanged. *)
Theorem specialised_searches_force_depth (cfg : Config) (self : t)
    (query : string) (w : World) :
  exists job course : Dict.t,
    search_job_market cfg self query w = search self query (Some job) w
    /\ search_courses cfg self query w = search self query (Some course) w
    /\ Dict.get job "search_depth" = Some (VStr "advanced")
    /\ Dict.get course "search_depth" = Some (VStr "advanced")
    /\ Dict.get job "include_domains"
       = Some (strs ["linkedin.com"; "indeed.com"; "glassdoor.com";
                     "monster.com"; "dice.com"; "bls.gov"])
    /\ Dict.get course "include_domains"
       = Some (strs ["coursera.org"; "udemy.com"; "edx.org"; "pluralsight.com";
                     "udacity.com"; "linkedin.com/learning"; "skillshare.com"])
    /\ forall k, k <> "search_depth" -> k <> "include_domains" ->
         Dict.get job k = Dict.get (TAVILY_SEARCH_PARAMS_JOB cfg) k
         /\ Dict.get course k = Dict.get (TAVILY_SEARCH_PARAMS_COURSE cfg) k.
Proof.
  do 2 eexists. split; [reflexivity|]. split; [reflexivity|].
  rewrite !update_two by done. repeat split; try done.
  - rewrite update_two by done.
    destruct (String.eqb_spec k "search_depth") as [->|_]; [done|].
    by destruct (String.eqb_spec k "include_domains") as [->|_].
  - rewrite update_two by done.
    destruct (String.eqb_spec k "search_depth") as [->|_]; [done|].
    by destruct (String.eqb_spec k "include_domains") as [->|_].
Qed.

End SearchPayload.

(** Parameters that carry a query of their own. *)
Lemma search_params_override_witness :
  Dict.get (TavilySearchTool.payload (sample_tool 3 1) "jobs"
              [("query", VStr "other"); ("max_results", VNum "5")]) "query"
  = match Dict.get [("query", VStr "other"); ("max_results", VNum "5")] "query" with
    | Some v => Some v
    | None =>
        if String.eqb "query" "api_key"
        then Some (VStr (TavilySearchTool.api_key (sample_tool 3 1)))
        else if String.eqb "query" "query" then Some (VStr "jobs")
        else None
    end.
Proof.
  apply (search_params_override (sample_tool 3 1) "jobs"
           [("query", VStr "other"); ("max_results", VNum "5")] "query").
  simpl. apply NoDup_cons. split.
  - intros Hin. apply list_elem_of_singleton in Hin. discriminate.
  - apply NoDup_singleton.
Defined.

(** ** Configuration and construction *)

Section Construction.

Lemma or_str_none x :
  or_str x None = match x with
                  | Some s => if String.eqb s EmptyString then None else Some s
                  | None => None
                  end.
Proof. by destruct x. Qed.

(** X14.  [Config.validate] passes exactly when both clients can be built
    without an explicit key: it raises if and only if [OpenRouterLLM()] or
    [TavilySearchTool()] raises, whatever the other arguments. *)
Theorem validate_iff_default_clients (cfg : Config) (n1 n2 : Z) (d1 d2 : Q)
    (t1 t2 : option Z) :
  Config_validate cfg = Ok tt
  <-> (exists llm tool,
         OpenRouterLLM.__init__ cfg None n1 d1 t1 = Ok llm
         /\ TavilySearchTool.__init__ cfg None n2 d2 t2 = Ok tool).
Proof.
  unfold Config_validate, OpenRouterLLM.__init__, TavilySearchTool.__init__.
  rewrite !or_str_none. cbn [or_str].
  destruct (TAVILY_API_KEY cfg) as [a|], (OPENROUTER_API_KEY cfg) as [b|];
    try destruct (String.eqb a EmptyString); try destruct (String.eqb b EmptyString);
    split; try done; try (intros (? & ? & ? & ?); done); try (intros _; by do 2 eexists).
Qed.

End Construction.

(** ** The cache over time, and its size *)

Section CacheMore.
Context {L D : Type}.
Implicit Types (self : BaseAgent.t L D) (key : string) (data : D).

(** X15.  Expiry is monotone: an entry that [_get_cached_result] serves at
    some time for some maximal age is served as well at any earlier time and
    for any larger maximal age; so an entry refused once is refused at every
    later time for every smaller age. *)
Theorem cache_expiry_monotone self key data (max_age max_age' now now' : Q) :
  BaseAgent._get_cached_result self key max_age now = (Some data, self) ->
  (now' <= now)%Q -> (max_age <= max_age')%Q ->
  BaseAgent._get_cached_result self key max_age' now' = (Some data, self).
Proof.
  unfold BaseAgent._get_cached_result.
  destruct (BaseAgent.result_cache self !! key) as [[v t]|]; [|done].
  destruct (BaseAgent.too_old now t max_age) eqn:Ho; [done|].
  intros [= ->] Hn Hm. rewrite too_old_false; [done|].
  unfold BaseAgent.too_old in Ho. apply negb_false_iff, Qle_bool_iff in Ho.
  eapply Qle_trans; [|eapply Qle_trans; [exact Ho|exact Hm]].
  unfold Qminus. apply Qplus_le_l. exact Hn.
Qed.

End CacheMore.

Section CacheSize.
Context {D : Type}.
Implicit Types (self : BaseAgent.t (OpenRouterLLM.t * World) D).

(** X16.  The [cache_size] that [get_performance_stats] reports counts
    keys, not writes: [_cache_result] raises it by one for a key not yet in
    the cache and leaves it as it is for a key already there. *)
Theorem cache_size_counts_keys self key (data : D) (now : Q) :
  BaseAgent.cache_size
    (BaseAgent.get_performance_stats (BaseAgent._cache_result self key data now))
  = BaseAgent.cache_size (BaseAgent.get_performance_stats self)
    + (if decide (is_Some (BaseAgent.result_cache self !! key)) then 0 else 1).
Proof.
  unfold BaseAgent.get_performance_stats, BaseAgent._cache_result. simpl.
  destruct (BaseAgent.result_cache self !! key) as [x|] eqn:Hl.
  - rewrite decide_True by by eexists.
    rewrite map_size_insert_Some by by eexists. lia.
  - rewrite decide_False by (intros [? ?]; done).
    rewrite map_size_insert_None by done. lia.
Qed.

End CacheSize.

(** Served at time 160 for 60 seconds, hence at time 120 for 100 seconds. *)
Lemma cache_expiry_monotone_witness :
  let a := BaseAgent._cache_result
             (BaseAgent.__init__ tt (sample_tool 3 1) : BaseAgent.t unit nat)
             "k" 7%nat 100 in
  BaseAgent._get_cached_result a "k" 100 120 = (Some 7%nat, a).
Proof.
  cbn zeta.
  apply (cache_expiry_monotone
           (BaseAgent._cache_result
              (BaseAgent.__init__ tt (sample_tool 3 1) : BaseAgent.t unit nat)
              "k" 7%nat 100) "k" 7%nat 60 100 160 120).
  - vm_compute. reflexivity.
  - discriminate.
  - discriminate.
Defined.

(** ** What the two models let through *)

Section Models.
Context `{PyRuntime}.

Lemma one_of_ok what allowed v x :
  one_of what allowed v = Ok x -> x = PyStr.lower v /\ member x allowed = true.
Proof.
  unfold one_of. destruct (member (PyStr.lower v) allowed) eqn:Hm; [|done].
  simpl. by intros [= <-].
Qed.

(** X17.  A [Skill] that has been built holds the name given, the level
    and the category given in lower case, each an allowed word whatever the
    case it came in, and the years as the float its field converts to; and it
    was built from a mapping that has the four fields. *)
Theorem skill_is_normalised (skill_data : value) (s : Skill.t) :
  Skill.init skill_data = Ok s ->
  exists d level category,
    skill_data = VDict d
    /\ str_field d "name" = Some (Skill.name s)
    /\ str_field d "level" = Some level
    /\ str_field d "category" = Some category
    /\ Skill.level s = PyStr.lower level
    /\ Skill.category s = PyStr.lower category
    /\ member (Skill.level s) skill_levels = true
    /\ member (Skill.category s) skill_categories = true
    /\ Skill.float_field d "years_experience" = Some (Skill.years_experience s).
Proof.
  unfold Skill.init. destruct skill_data as [| | | | |d]; try done.
  destruct (str_field d "name") as [n|] eqn:Hn; [|done].
  destruct (str_field d "category") as [c|] eqn:Hsc; [|done]. cbn [mbind option_bind].
  destruct (Skill.validate_category c) as [c'|] eqn:Hc; [|done]. cbn [res_opt].
  destruct (str_field d "level") as [l|] eqn:Hsl; [|done]. cbn [mbind option_bind].
  destruct (Skill.validate_level l) as [l'|] eqn:Hl; [|done]. cbn [res_opt].
  destruct (Skill.float_field d "years_experience") as [y|] eqn:Hy; [|done].
  intros [= <-]. simpl.
  apply one_of_ok in Hc as [-> Hc]. apply one_of_ok in Hl as [-> Hl].
  by exists d, l, c.
Qed.

End Models.

(** An item whose level and category come capitalised. *)
Lemma skill_is_normalised_witness :
  exists d level category,
    VDict [("name", VStr "Leadership"); ("category", VStr "Soft");
           ("level", VStr "Expert"); ("years_experience", VNum "3")] = VDict d
    /\ str_field d "name" = Some (Skill.name (sample_skill "Leadership" "soft" "expert" "3"))
    /\ str_field d "level" = Some level
    /\ str_field d "category" = Some category
    /\ Skill.level (sample_skill "Leadership" "soft" "expert" "3") = PyStr.lower level
    /\ Skill.category (sample_skill "Leadership" "soft" "expert" "3")
       = PyStr.lower category
    /\ member (Skill.level (sample_skill "Leadership" "soft" "expert" "3"))
         skill_levels = true
    /\ member (Skill.category (sample_skill "Leadership" "soft" "expert" "3"))
         skill_categories = true
    /\ Skill.float_field d "years_experience"
       = Some (Skill.years_experience (sample_skill "Leadership" "soft" "expert" "3")).
Proof.
  apply (skill_is_normalised (H := sample_runtime)
           (VDict [("name", VStr "Leadership"); ("category", VStr "Soft");
                   ("level", VStr "Expert"); ("years_experience", VNum "3")])
           (sample_skill "Leadership" "soft" "expert" "3")).
  reflexivity.
Defined.

(** ** The agent: what [execute] returns, stores and never does *)

Section AgentMore.
Context `{PyRuntime} {L : Type} `{TextGenerator L}.
Implicit Types (self : BaseAgent.t L ProfileAnalysis.t).
Import ProfileAnalyzerAgent.

Lemma collect_skills_valid items : Forall valid_skill (collect_skills items).
Proof.
  induction items as [|x items IH]; [constructor|].
  cbn [collect_skills]. destruct (Skill.init x) as [s|e] eqn:Hs; [|done].
  constructor; [|done].
  apply skill_is_normalised in Hs as (d & l & c & _ & _ & _ & _ & _ & _ & Hl & Hc & _).
  by split.
Qed.

Lemma skills_of_completion_valid r : Forall valid_skill (skills_of_completion r).
Proof.
  unfold skills_of_completion.
  destruct r as [[| | |response| |]|]; try constructor.
  destruct (parse_response _ _ response) as [v|]; [|constructor].
  destruct (py_iter v); [|constructor]. apply collect_skills_valid.
Qed.

(** X18.  What [execute] returns is what the cache then serves: after a
    call that returned a result, [_get_cached_result] under the key
    [profile_analysis_] followed by the hash of the profile text gives that
    very result, as long as the entry is not older than the maximal age. *)
Theorem execute_result_is_cached self (input_data : gmap string string)
    (profile_text : string) (now now' max_age : Q)
    (result : ProfileAnalysis.t) self' :
  input_data !! "profile_text" = Some profile_text ->
  execute self input_data now = (Ok result, self') ->
  (now' - now <= max_age)%Q ->
  BaseAgent._get_cached_result self' (cache_key profile_text) max_age now'
  = (Some result, self').
Proof.
  intros Hin. unfold execute. rewrite Hin.
  destruct (_extract_skills self profile_text) as [skills self1].
  destruct (_analyze_profile self1 profile_text _) as [analysis self2].
  destruct (ProfileAnalysis.init skills analysis) as [pa|e]; [|done].
  intros [= <- <-] Hage.
  unfold BaseAgent._get_cached_result, BaseAgent._cache_result. simpl.
  rewrite lookup_insert_eq. by rewrite too_old_false.
Qed.

(** X19.  [execute] writes its cache and never reads it: two agents with
    the same client return the same thing on the same input, and leave the
    client in the same state, whatever their caches hold and whatever the
    time; a profile analysed before is sent to the model again. *)
Theorem execute_never_reads_cache self1 self2 (input_data : gmap string string)
    (now1 now2 : Q) :
  BaseAgent.llm self1 = BaseAgent.llm self2 ->
  fst (execute self1 input_data now1) = fst (execute self2 input_data now2)
  /\ BaseAgent.llm (snd (execute self1 input_data now1))
     = BaseAgent.llm (snd (execute self2 input_data now2)).
Proof.
  intros Hl. unfold execute.
  destruct (input_data !! "profile_text") as [profile_text|]; [|done].
  unfold _extract_skills, _analyze_profile. rewrite Hl.
  destruct (get_completion (BaseAgent.llm self2) _ _) as [r1 l1].
  cbn [BaseAgent.set_llm BaseAgent.llm].
  destruct (get_completion l1 _ _) as [r2 l2].
  by destruct (ProfileAnalysis.init _ _).
Qed.

(** X20.  A result that [execute] returns is validated: its experience
    level is one of the six allowed words, and every skill in it has an
    allowed level and an allowed category. *)
Theorem execute_result_is_valid self (input_data : gmap string string)
    (now : Q) (result : ProfileAnalysis.t) self' :
  execute self input_data now = (Ok result, self') ->
  member (ProfileAnalysis.experience_level result) experience_levels = true
  /\ Forall valid_skill (ProfileAnalysis.skills result).
Proof.
  unfold execute.
  destruct (input_data !! "profile_text") as [profile_text|]; [|done].
  unfold _extract_skills.
  destruct (get_completion (BaseAgent.llm self) _ _) as [r1 l1].
  destruct (_analyze_profile _ profile_text _) as [analysis self2].
  destruct (ProfileAnalysis.init _ analysis) as [pa|e] eqn:Hi; [|done].
  intros [= <- <-].
  unfold ProfileAnalysis.init in Hi. destruct analysis as [| | | | |d]; try done.
  destruct (Dict.mem d "skills"); [done|].
  destruct (str_field d "experience_level") as [x|]; [|done].
  cbn [mbind option_bind] in Hi.
  destruct (ProfileAnalysis.validate_experience_level x) as [x'|] eqn:Hx; [|done].
  cbn [res_opt] in Hi.
  destruct (str_field d "career_progression"); [|done].
  destruct (str_list_field d "strengths"); [|done].
  destruct (str_list_field d "weaknesses"); [|done].
  destruct (str_field d "career_trajectory"); [|done].
  destruct (str_field d "education_relevance"); [|done].
  injection Hi as <-. simpl.
  apply one_of_ok in Hx as [_ Hx]. split; [done|].
  apply skills_of_completion_valid.
Qed.

(** X21.  When the analysis call raises, whatever the skill call did,
    [execute] raises nothing: it returns, and caches, the skills extracted
    together with the default analysis. *)
Theorem execute_survives_failed_analysis self (input_data : gmap string string)
    (profile_text : string) (now : Q) (r1 : res value) (e2 : exn) (l1 l2 : L) :
  input_data !! "profile_text" = Some profile_text ->
  get_completion (BaseAgent.llm self) (SKILL_EXTRACTION_PROMPT profile_text)
    (kw_temp (3 # 10)) = (r1, l1) ->
  get_completion l1
    (PROFILE_ANALYSIS_PROMPT profile_text (Dumps.skills (skills_of_completion r1)))
    (kw_temp (5 # 10)) = (Raise e2, l2) ->
  execute self input_data now
  = (Ok (default_profile (skills_of_completion r1)),
     BaseAgent._cache_result (BaseAgent.set_llm self l2)
       (cache_key profile_text) (default_profile (skills_of_completion r1)) now).
Proof.
  intros Hin Hg1 Hg2. unfold execute. rewrite Hin.
  unfold _extract_skills. rewrite Hg1.
  unfold _analyze_profile. cbn [BaseAgent.set_llm BaseAgent.llm].
  rewrite Hg2. done.
Qed.

Lemma fill_defaults_list fields l :
  forallb (fun f => existsb (fun v => match v with
                                       | VStr s => String.eqb s f
                                       | _ => false
                                       end) l) fields = true ->
  fill_defaults fields (VList l) = Ok (VList l).
Proof.
  induction fields as [|f fields IH]; [done|].
  simpl. intros Hall. apply andb_true_iff in Hall as [Hf Hall].
  rewrite Hf. simpl. by apply IH.
Qed.

(** X22.  An analysis answer that parses to a JSON array holding the six
    field names passes the repair loop untouched, since each membership test
    succeeds, and then makes [execute] raise a [TypeError]: a list cannot be
    unpacked as keyword arguments.  Nothing is cached. *)
Theorem execute_rejects_array_of_names self (input_data : gmap string string)
    (profile_text response : string) (now : Q) (r1 : res value) (l1 l2 : L)
    (items : list value) :
  input_data !! "profile_text" = Some profile_text ->
  get_completion (BaseAgent.llm self) (SKILL_EXTRACTION_PROMPT profile_text)
    (kw_temp (3 # 10)) = (r1, l1) ->
  get_completion l1
    (PROFILE_ANALYSIS_PROMPT profile_text (Dumps.skills (skills_of_completion r1)))
    (kw_temp (5 # 10)) = (Ok (VStr response), l2) ->
  parse_response "{"%char "}"%char response = Some (VList items) ->
  (forall f, In f required_fields -> In (VStr f) items) ->
  exists e,
    execute self input_data now = (Raise e, BaseAgent.set_llm self l2)
    /\ exn_cls e = TypeError.
Proof.
  intros Hin Hg1 Hg2 Hparse Hall. unfold execute. rewrite Hin.
  unfold _extract_skills. rewrite Hg1.
  unfold _analyze_profile. cbn [BaseAgent.set_llm BaseAgent.llm].
  rewrite Hg2. unfold analysis_of_completion. rewrite Hparse.
  rewrite fill_defaults_list; [by eexists|].
  apply forallb_forall. intros f Hf. apply existsb_exists.
  exists (VStr f). split; [by apply Hall|]. apply String.eqb_refl.
Qed.

(** X23.  An analysis answer that parses to an object with a [skills]
    entry of its own makes [execute] raise a [TypeError], whatever else the
    object holds: the keyword [skills] is then given twice to
    [ProfileAnalysis].  Nothing is cached. *)
Theorem execute_rejects_skills_key self (input_data : gmap string string)
    (profile_text response : string) (now : Q) (r1 : res value) (l1 l2 : L)
    (d : Dict.t) :
  input_data !! "profile_text" = Some profile_text ->
  get_completion (BaseAgent.llm self) (SKILL_EXTRACTION_PROMPT profile_text)
    (kw_temp (3 # 10)) = (r1, l1) ->
  get_completion l1
    (PROFILE_ANALYSIS_PROMPT profile_text (Dumps.skills (skills_of_completion r1)))
    (kw_temp (5 # 10)) = (Ok (VStr response), l2) ->
  parse_response "{"%char "}"%char response = Some (VDict d) ->
  Dict.mem d "skills" = true ->
  exists e,
    execute self input_data now = (Raise e, BaseAgent.set_llm self l2)
    /\ exn_cls e = TypeError.
Proof.
  intros Hin Hg1 Hg2 Hparse Hsk. unfold execute. rewrite Hin.
  unfold _extract_skills. rewrite Hg1.
  unfold _analyze_profile. cbn [BaseAgent.set_llm BaseAgent.llm].
  rewrite Hg2. unfold analysis_of_completion. rewrite Hparse.
  apply dict_mem_get in Hsk as [v Hv].
  destruct (fill_defaults_dict required_fields d) as (d' & -> & Hkeep & _).
  unfold ProfileAnalysis.init, Dict.mem. rewrite (Hkeep _ _ Hv). by eexists.
Qed.

(** X24.  For an answer that parses to an array, of any length,
    [_extract_skills] returns exactly the items from which a [Skill] can be
    built, each built, in the order of the array. *)
Theorem extract_skills_keeps_valid_items self (profile_text response : string)
    (l : L) (items : list value) :
  get_completion (BaseAgent.llm self) (SKILL_EXTRACTION_PROMPT profile_text)
    (kw_temp (3 # 10)) = (Ok (VStr response), l) ->
  parse_response "["%char "]"%char response = Some (VList items) ->
  _extract_skills self profile_text
  = (omap (fun item => res_opt (Skill.init item)) items, BaseAgent.set_llm self l).
Proof.
  intros Hg Hp. unfold _extract_skills. rewrite Hg.
  unfold skills_of_completion. rewrite Hp. cbn [py_iter].
  by rewrite collect_skills_omap.
Qed.

Lemma collect_skills_not_dicts {A} (g : A -> value) (l : list A) :
  (forall a d, g a <> VDict d) -> collect_skills (map g l) = [].
Proof.
  intros Hg. induction l as [|a l IH]; [done|].
  cbn [map collect_skills]. destruct (g a) eqn:Ha; try done. by destruct (Hg a d).
Qed.

(** X25.  An answer that parses to JSON other than an array gives no
    skill and no exception: the keys of an object and the characters of a
    string are iterated and each fails to make a [Skill]; a number, a boolean
    or [null] cannot be iterated at all. *)
Theorem extract_skills_wants_an_array self (profile_text response : string)
    (l : L) (v : value) :
  get_completion (BaseAgent.llm self) (SKILL_EXTRACTION_PROMPT profile_text)
    (kw_temp (3 # 10)) = (Ok (VStr response), l) ->
  parse_response "["%char "]"%char response = Some v ->
  (forall items, v <> VList items) ->
  _extract_skills self profile_text = ([], BaseAgent.set_llm self l).
Proof.
  intros Hg Hp Hv. unfold _extract_skills. rewrite Hg.
  unfold skills_of_completion. rewrite Hp.
  destruct v as [| | |s|items|d]; try done.
  - cbn [py_iter]. by rewrite collect_skills_not_dicts.
  - by destruct (Hv items).
  - cbn [py_iter]. by rewrite collect_skills_not_dicts.
Qed.

Lemma py_in_default f :
  In f required_fields -> py_in f default_analysis = Ok true.
Proof.
  simpl. intros [<-|[<-|[<-|[<-|[<-|[<-|[]]]]]]]; done.
Qed.

(** After the repair loop each field of the list is in the data, and what
    was in the data still is. *)
Lemma fill_defaults_present fields : forall v v',
  fill_defaults fields v = Ok v' ->
  (forall f, In f fields -> py_in f v' = Ok true)
  /\ (forall f, py_in f v = Ok true -> py_in f v' = Ok true).
Proof.
  induction fields as [|f fields IH]; intros v v'.
  - simpl. intros [= <-]. split; [by intros ? []|done].
  - cbn [fill_defaults res_bind].
    destruct (py_in f v) as [b|] eqn:Hb; [|done]. simpl.
    destruct b; simpl.
    + intros Hrun. destruct (IH _ _ Hrun) as [Hall Hkeep].
      split; [|done]. intros g [<-|Hg]; [by apply Hkeep|by apply Hall].
    + destruct (py_setitem v f (default_value f)) as [v1|] eqn:Hset; [|done]. simpl.
      intros Hrun. destruct (IH _ _ Hrun) as [Hall Hkeep].
      destruct v as [| | | | |d]; try done. injection Hset as <-.
      split.
      * intros g [<-|Hg]; [|by apply Hall].
        apply Hkeep. simpl. unfold Dict.mem. by rewrite dict_get_set_eq.
      * intros g Hg. apply Hkeep. simpl in *. injection Hg as Hg.
        apply dict_mem_get in Hg as [x Hx]. f_equal. apply dict_mem_get.
        destruct (String.eqb_spec g f) as [->|Hne].
        -- rewrite dict_get_set_eq. by eexists.
        -- rewrite dict_get_set_ne by done. by eexists.
Qed.

(** X26.  Whatever the model answers and whether or not the call raises,
    each of the six required field names is in what [_analyze_profile]
    returns, in the sense of Python's [in]. *)
Theorem analysis_always_has_fields self (profile_text skills_json f : string) :
  In f required_fields ->
  py_in f (fst (_analyze_profile self profile_text skills_json)) = Ok true.
Proof.
  intros Hf. unfold _analyze_profile.
  destruct (get_completion (BaseAgent.llm self) _ _) as [r l]. cbn [fst].
  unfold analysis_of_completion.
  destruct r as [[| | |response| |]|]; try by apply py_in_default.
  destruct (parse_response _ _ response) as [v|]; [|by apply py_in_default].
  destruct (fill_defaults required_fields v) as [v'|] eqn:Hrun;
    [|by apply py_in_default].
  destruct (fill_defaults_present _ _ _ Hrun) as [Hall _]. by apply Hall.
Qed.

Lemma str_field_kept d d' k x :
  (forall k v, Dict.get d k = Some v -> Dict.get d' k = Some v) ->
  str_field d k = Some x -> str_field d' k = Some x.
Proof.
  unfold str_field. intros Hkeep.
  destruct (Dict.get d k) as [[| | |s| |]|] eqn:Hk; try done.
  intros [= <-]. by rewrite (Hkeep _ _ Hk).
Qed.

Lemma str_list_field_kept d d' k x :
  (forall k v, Dict.get d k = Some v -> Dict.get d' k = Some v) ->
  str_list_field d k = Some x -> str_list_field d' k = Some x.
Proof.
  unfold str_list_field. intros Hkeep.
  destruct (Dict.get d k) as [[| | | |l|]|] eqn:Hk; try done.
  intros Hl. by rewrite (Hkeep _ _ Hk).
Qed.

(** X27.  The good case of [execute]: when the analysis answer parses to an
    object without a [skills] entry whose six fields have the right types and
    whose experience level is, in any case of letters, an allowed word,
    [execute] returns and caches the skills extracted before together with
    those six values, the level in lower case; other entries of the object
    are ignored. *)
Theorem execute_returns_the_analysis self (input_data : gmap string string)
    (profile_text response : string) (now : Q) (r1 : res value) (l1 l2 : L)
    (d : Dict.t) (level progression trajectory relevance : string)
    (strengths weaknesses : list string) :
  input_data !! "profile_text" = Some profile_text ->
  get_completion (BaseAgent.llm self) (SKILL_EXTRACTION_PROMPT profile_text)
    (kw_temp (3 # 10)) = (r1, l1) ->
  get_completion l1
    (PROFILE_ANALYSIS_PROMPT profile_text (Dumps.skills (skills_of_completion r1)))
    (kw_temp (5 # 10)) = (Ok (VStr response), l2) ->
  parse_response "{"%char "}"%char response = Some (VDict d) ->
  Dict.mem d "skills" = false ->
  str_field d "experience_level" = Some level ->
  member (PyStr.lower level) experience_levels = true ->
  str_field d "career_progression" = Some progression ->
  str_list_field d "strengths" = Some strengths ->
  str_list_field d "weaknesses" = Some weaknesses ->
  str_field d "career_trajectory" = Some trajectory ->
  str_field d "education_relevance" = Some relevance ->
  let result :=
    {| ProfileAnalysis.skills := skills_of_completion r1;
       ProfileAnalysis.experience_level := PyStr.lower level;
       ProfileAnalysis.career_progression := progression;
       ProfileAnalysis.strengths := strengths;
       ProfileAnalysis.weaknesses := weaknesses;
       ProfileAnalysis.career_trajectory := trajectory;
       ProfileAnalysis.education_relevance := relevance |} in
  execute self input_data now
  = (Ok result,
     BaseAgent._cache_result (BaseAgent.set_llm self l2)
       (cache_key profile_text) result now).
Proof.
  intros Hin Hg1 Hg2 Hparse Hsk Hl Hm Hp Hs Hw Ht Hr. cbn zeta.
  unfold execute. rewrite Hin.
  unfold _extract_skills. rewrite Hg1.
  unfold _analyze_profile. cbn [BaseAgent.set_llm BaseAgent.llm].
  rewrite Hg2. unfold analysis_of_completion. rewrite Hparse.
  destruct (fill_defaults_dict required_fields d) as (d' & -> & Hkeep & Hnew).
  unfold ProfileAnalysis.init.
  assert (Dict.mem d' "skills" = false) as ->.
  { unfold Dict.mem in *. destruct (Dict.get d "skills") eqn:Hd; [done|].
    by rewrite (Hnew _ Hd). }
  rewrite (str_field_kept d d' _ _ Hkeep Hl). cbn [mbind option_bind].
  unfold ProfileAnalysis.validate_experience_level, one_of.
  fold experience_levels. rewrite Hm. cbn [negb res_opt].
  rewrite (str_field_kept d d' _ _ Hkeep Hp), (str_list_field_kept d d' _ _ Hkeep Hs),
    (str_list_field_kept d d' _ _ Hkeep Hw), (str_field_kept d d' _ _ Hkeep Ht),
    (str_field_kept d d' _ _ Hkeep Hr).
  done.
Qed.

End AgentMore.

(** The scripted run that goes well. *)
Lemma execute_result_is_cached_witness :
  BaseAgent._get_cached_result analysed_agent
    (ProfileAnalyzerAgent.cache_key (H := sample_runtime) "5 years of Python")
    3600 1500
  = (Some sample_profile, analysed_agent).
Proof.
  apply (execute_result_is_cached (H := sample_runtime) (sample_agent good_script)
           sample_input "5 years of Python" 1000 1500 3600 sample_profile
           analysed_agent).
  - reflexivity.
  - reflexivity.
  - vm_compute. discriminate.
Defined.

(** An agent with an empty cache and one that holds an entry. *)
Lemma execute_never_reads_cache_witness :
  fst (ProfileAnalyzerAgent.execute (sample_agent good_script) sample_input 1000)
  = fst (ProfileAnalyzerAgent.execute
           (BaseAgent._cache_result (sample_agent good_script) "k" sample_profile 5)
           sample_input 2000)
  /\ BaseAgent.llm
       (snd (ProfileAnalyzerAgent.execute (sample_agent good_script)
               sample_input 1000))
     = BaseAgent.llm
         (snd (ProfileAnalyzerAgent.execute
                 (BaseAgent._cache_result (sample_agent good_script) "k"
                    sample_profile 5)
                 sample_input 2000)).
Proof.
  apply (execute_never_reads_cache (H := sample_runtime) (sample_agent good_script)
           (BaseAgent._cache_result (sample_agent good_script) "k" sample_profile 5)
           sample_input 1000 2000).
  reflexivity.
Defined.

Lemma execute_result_is_valid_witness :
  member (ProfileAnalysis.experience_level sample_profile) experience_levels = true
  /\ Forall valid_skill (ProfileAnalysis.skills sample_profile).
Proof.
  apply (execute_result_is_valid (H := sample_runtime) (sample_agent good_script)
           sample_input 1000 sample_profile analysed_agent).
  reflexivity.
Defined.

(** The skills are found, then the analysis call fails. *)
Lemma execute_survives_failed_analysis_witness :
  ProfileAnalyzerAgent.execute
    (sample_agent (sample_script (Raise (Exn Exception "no answer"))))
    sample_input 1000
  = (Ok (default_profile
           (ProfileAnalyzerAgent.skills_of_completion (H := sample_runtime)
              (Ok (VStr ("[" +:+ python_item +:+ "]"))))),
     BaseAgent._cache_result
       (BaseAgent.set_llm
          (sample_agent (sample_script (Raise (Exn Exception "no answer")))) [])
       (ProfileAnalyzerAgent.cache_key (H := sample_runtime) "5 years of Python")
       (default_profile
          (ProfileAnalyzerAgent.skills_of_completion (H := sample_runtime)
             (Ok (VStr ("[" +:+ python_item +:+ "]"))))) 1000).
Proof.
  apply (execute_survives_failed_analysis (H := sample_runtime)
           (sample_agent (sample_script (Raise (Exn Exception "no answer"))))
           sample_input "5 years of Python" 1000
           (Ok (VStr ("[" +:+ python_item +:+ "]")))
           (Exn Exception "no answer")
           [Raise (Exn Exception "no answer")] []).
  - reflexivity.
  - reflexivity.
  - reflexivity.
Defined.

(** The analysis answer is the array of the six names. *)
Lemma execute_rejects_array_of_names_witness :
  exists e,
    ProfileAnalyzerAgent.execute (H := sample_runtime)
      (sample_agent
         (sample_script (Ok (OpenRouterLLM.envelope (VStr names_array)))))
      sample_input 1000
    = (Raise e,
       BaseAgent.set_llm
         (sample_agent
            (sample_script (Ok (OpenRouterLLM.envelope (VStr names_array))))) [])
    /\ exn_cls e = TypeError.
Proof.
  apply (execute_rejects_array_of_names (H := sample_runtime)
           (sample_agent
              (sample_script (Ok (OpenRouterLLM.envelope (VStr names_array)))))
           sample_input "5 years of Python" names_array 1000
           (Ok (VStr ("[" +:+ python_item +:+ "]")))
           [Ok (OpenRouterLLM.envelope (VStr names_array))] []
           (map VStr ProfileAnalyzerAgent.required_fields)).
  - reflexivity.
  - reflexivity.
  - reflexivity.
  - vm_compute. reflexivity.
  - intros f Hf. apply in_map. exact Hf.
Defined.

(** The analysis answer repeats a [skills] entry. *)
Lemma execute_rejects_skills_key_witness :
  exists e,
    ProfileAnalyzerAgent.execute (H := sample_runtime)
      (sample_agent
         (sample_script (Ok (OpenRouterLLM.envelope (VStr echoing_analysis)))))
      sample_input 1000
    = (Raise e,
       BaseAgent.set_llm
         (sample_agent
            (sample_script (Ok (OpenRouterLLM.envelope (VStr echoing_analysis))))) [])
    /\ exn_cls e = TypeError.
Proof.
  apply (execute_rejects_skills_key (H := sample_runtime)
           (sample_agent
              (sample_script (Ok (OpenRouterLLM.envelope (VStr echoing_analysis)))))
           sample_input "5 years of Python" echoing_analysis 1000
           (Ok (VStr ("[" +:+ python_item +:+ "]")))
           [Ok (OpenRouterLLM.envelope (VStr echoing_analysis))] []
           [("skills", VList []); ("experience_level", VStr "mid")]).
  - reflexivity.
  - reflexivity.
  - reflexivity.
  - vm_compute. reflexivity.
  - reflexivity.
Defined.

(** A good item followed by a bad one. *)
Lemma extract_skills_keeps_valid_items_witness :
  ProfileAnalyzerAgent._extract_skills (H := sample_runtime)
    (sample_agent
       [Ok (OpenRouterLLM.envelope
              (VStr ("[" +:+ python_item +:+ ", " +:+ bad_item +:+ "]")))])
    "5 years of Python"
  = (omap (fun item => res_opt (Skill.init item)) [python_read; bad_read],
     BaseAgent.set_llm
       (sample_agent
          [Ok (OpenRouterLLM.envelope
                 (VStr ("[" +:+ python_item +:+ ", " +:+ bad_item +:+ "]")))]) []).
Proof.
  apply (extract_skills_keeps_valid_items (H := sample_runtime)
           (sample_agent
              [Ok (OpenRouterLLM.envelope
                     (VStr ("[" +:+ python_item +:+ ", " +:+ bad_item +:+ "]")))])
           "5 years of Python"
           ("[" +:+ python_item +:+ ", " +:+ bad_item +:+ "]") []
           [python_read; bad_read]).
  - reflexivity.
  - vm_compute. reflexivity.
Defined.

(** The answer is one skill object, not an array of them. *)
Lemma extract_skills_wants_an_array_witness :
  ProfileAnalyzerAgent._extract_skills (H := sample_runtime)
    (sample_agent [Ok (OpenRouterLLM.envelope (VStr python_item))])
    "5 years of Python"
  = ([], BaseAgent.set_llm
           (sample_agent [Ok (OpenRouterLLM.envelope (VStr python_item))]) []).
Proof.
  apply (extract_skills_wants_an_array (H := sample_runtime)
           (sample_agent [Ok (OpenRouterLLM.envelope (VStr python_item))])
           "5 years of Python" python_item [] python_read).
  - reflexivity.
  - vm_compute. reflexivity.
  - intros items. discriminate.
Defined.

(** The call fails: the default analysis has the field. *)
Lemma analysis_always_has_fields_witness :
  ProfileAnalyzerAgent.py_in "strengths"
    (fst (ProfileAnalyzerAgent._analyze_profile (H := sample_runtime)
            (sample_agent [Raise (Exn Exception "no answer")])
            "5 years of Python" "[]"))
  = Ok true.
Proof.
  apply (analysis_always_has_fields (H := sample_runtime)
           (sample_agent [Raise (Exn Exception "no answer")])
           "5 years of Python" "[]" "strengths").
  simpl. auto.
Defined.

Lemma execute_returns_the_analysis_witness :
  ProfileAnalyzerAgent.execute (sample_agent good_script) sample_input 1000
  = (Ok sample_profile, analysed_agent).
Proof.
  apply (execute_returns_the_analysis (H := sample_runtime)
           (sample_agent good_script) sample_input "5 years of Python"
           good_analysis 1000 (Ok (VStr ("[" +:+ python_item +:+ "]")))
           [Ok (OpenRouterLLM.envelope (VStr good_analysis))] []
           [("experience_level", VStr "Senior");
            ("career_progression", VStr "steady");
            ("strengths", VList [VStr "focus"]);
            ("weaknesses", VList [VStr "haste"]);
            ("career_trajectory", VStr "upward");
            ("education_relevance", VStr "direct")]
           "Senior" "steady" "upward" "direct" ["focus"] ["haste"]).
  - reflexivity.
  - reflexivity.
  - reflexivity.
  - vm_compute. reflexivity.
  - reflexivity.
  - reflexivity.
  - reflexivity.
  - reflexivity.
  - reflexivity.
  - reflexivity.
  - reflexivity.
  - reflexivity.
Defined.

(** ** The stock client under [execute] *)

Section StockClient.
Context `{PyRuntime}.
Import ProfileAnalyzerAgent.

Lemma attempt_once_frame self rq w r self1 w1 :
  OpenRouterLLM.attempt_once self rq w = (r, self1, w1) ->
  http_log w1 = http_log w
  /\ chat_log w1 = chat_log w ++ [rq]
  /\ OpenRouterLLM.max_retries self1 = OpenRouterLLM.max_retries self.
Proof.
  unfold OpenRouterLLM.attempt_once, chat_create.
  destruct (chat_endpoint w (length (chat_log w)) rq) as [c|e].
  - unfold OpenRouterLLM.track_usage.
    destruct (usage c); intros [= <- <- <-]; done.
  - by intros [= <- <- <-].
Qed.

Lemma sleep_frame d w s w2 :
  sleep d w = (s, w2) -> http_log w2 = http_log w /\ chat_log w2 = chat_log w.
Proof. unfold sleep. destruct (Qle_bool 0 d); by intros [= <- <-]. Qed.

(** [generate_text] sends nothing to the search endpoint, keeps
    [max_retries], and sends its one request at most once per attempt. *)
Lemma attempts_frame rq todo : forall attempt self w r self' w',
  OpenRouterLLM.attempts rq todo attempt self w = (r, self', w') ->
  http_log w' = http_log w
  /\ OpenRouterLLM.max_retries self' = OpenRouterLLM.max_retries self
  /\ exists k, (k <= todo)%nat /\ chat_log w' = chat_log w ++ replicate k rq.
Proof.
  induction todo as [|todo IH]; intros attempt self w r self' w'.
  - simpl. intros [= <- <- <-]. split; [done|split; [done|]].
    exists 0%nat. by rewrite app_nil_r.
  - rewrite llm_attempts_S.
    destruct (OpenRouterLLM.attempt_once self rq w) as [[r1 self1] w1] eqn:H1.
    apply attempt_once_frame in H1 as (Hh1 & Hc1 & Hm1).
    assert (exists k, (k <= S todo)%nat /\ chat_log w1 = chat_log w ++ replicate k rq)
      as Hone by (exists 1%nat; split; [lia|done]).
    destruct r1 as [response|e].
    + intros [= <- <- <-]. done.
    + destruct (attempt <? OpenRouterLLM.max_retries self1 - 1).
      * destruct (sleep (backoff (OpenRouterLLM.retry_delay self1) attempt) w1)
          as [s w2] eqn:Hs.
        apply sleep_frame in Hs as [Hh2 Hc2].
        destruct s as [[]|e'].
        -- intros Hrun. apply IH in Hrun as (Hh & Hm & k & Hk & Hc).
           split; [congruence|split; [congruence|]].
           exists (S k). split; [lia|].
           rewrite Hc, Hc2, Hc1, <- app_assoc. done.
        -- intros [= <- <- <-]. split; [congruence|split; [done|]].
           destruct Hone as (k & Hk & Hc). exists k. split; [done|congruence].
      * intros [= <- <- <-]. done.
Qed.

Lemma get_completion_frame (self : OpenRouterLLM.t) (w : World) prompt kw r self' w' :
  get_completion (self, w) prompt kw = (r, (self', w')) ->
  http_log w' = http_log w
  /\ OpenRouterLLM.max_retries self' = OpenRouterLLM.max_retries self
  /\ (length (chat_log w') <= length (chat_log w)
                              + Z.to_nat (OpenRouterLLM.max_retries self))%nat.
Proof.
  unfold get_completion. cbn [generate_text OpenRouterLLM_generator].
  unfold OpenRouterLLM.generate_text.
  destruct (OpenRouterLLM.attempts _ _ _ _ _) as [[r1 self1] w1] eqn:Hrun.
  apply attempts_frame in Hrun as (Hh & Hm & k & Hk & Hc).
  assert (length (chat_log w1) <= length (chat_log w)
                                  + Z.to_nat (OpenRouterLLM.max_retries self))%nat.
  { rewrite Hc, length_app, length_replicate. lia. }
  destruct r1; intros [= <- <- <-]; done.
Qed.

(** X28.  With the stock client, whatever the endpoints answer, [execute]
    sends no search request at all and at most twice [max_retries]
    generation requests; and it leaves alone the [execution_time] that
    [get_performance_stats] reports, which only [BaseAgent.execute] would
    set. *)
Theorem execute_sends_no_search
    (self : BaseAgent.t (OpenRouterLLM.t * World) ProfileAnalysis.t)
    (input_data : gmap string string) (now : Q) :
  http_log (snd (BaseAgent.llm (snd (execute self input_data now))))
  = http_log (snd (BaseAgent.llm self))
  /\ (length (chat_log (snd (BaseAgent.llm (snd (execute self input_data now)))))
      <= length (chat_log (snd (BaseAgent.llm self)))
         + 2 * Z.to_nat (OpenRouterLLM.max_retries (fst (BaseAgent.llm self))))%nat
  /\ BaseAgent.stats_execution_time
       (BaseAgent.get_performance_stats (snd (execute self input_data now)))
     = BaseAgent.stats_execution_time (BaseAgent.get_performance_stats self).
Proof.
  unfold execute.
  destruct (BaseAgent.llm self) as [llm w] eqn:Hl.
  destruct (input_data !! "profile_text") as [profile_text|].
  2:{ simpl. rewrite Hl. split; [done|split; [simpl; lia|done]]. }
  unfold _extract_skills, _analyze_profile. rewrite Hl.
  destruct (get_completion (llm, w) _ _) as [r1 [llm1 w1]] eqn:H1.
  cbn [BaseAgent.set_llm BaseAgent.llm].
  destruct (get_completion (llm1, w1) _ _) as [r2 [llm2 w2]] eqn:H2.
  apply get_completion_frame in H1 as (Hh1 & Hm1 & Hc1).
  apply get_completion_frame in H2 as (Hh2 & Hm2 & Hc2).
  assert (http_log w2 = http_log w) by congruence.
  assert (length (chat_log w2) <= length (chat_log w)
                                  + 2 * Z.to_nat (OpenRouterLLM.max_retries llm))%nat
    by (rewrite Hm1 in Hc2; lia).
  by destruct (ProfileAnalysis.init _ _).
Qed.

End StockClient.

(** ** An object embedded in prose *)

Section ObjectRecovery.
Import PyStr ProfileAnalyzerAgent.

(** An object text, from '{' to '}', between a text without '{' and a text
    without '}', is what the first try slices and reads. *)
Lemma embedded_braces_recovered (prefix body suffix : string) (v : value) :
  Json.loads ("{" +:+ body +:+ "}") = Some v ->
  occurs "{"%char prefix = false ->
  occurs "}"%char suffix = false ->
  parse_response "{"%char "}"%char (prefix +:+ ("{" +:+ body +:+ "}") +:+ suffix)
  = Some v.
Proof.
  intros Hloads Hp Hs.
  set (obj := "{" +:+ body +:+ "}") in *.
  assert (find obj "{"%char = 0) as Hf by done.
  assert (occurs "{"%char obj = true) as Ho by done.
  assert (occurs "}"%char obj = true) as Hc.
  { unfold obj. by rewrite !occurs_app, orb_true_r. }
  assert (rfind obj "}"%char = len obj - 1) as Hr.
  { unfold obj. rewrite <- app_assoc_s, rfind_app, !len_app. simpl.
    change (len "}") with 1. change (rfind "}" "}"%char) with 0. lia. }
  assert (2 <= len obj) as Hlen.
  { unfold obj. rewrite !len_app. change (len "{") with 1. change (len "}") with 1.
    pose proof (len_nonneg body). lia. }
  destruct (first_slice_window "{"%char "}"%char prefix obj suffix Hp Hs Ho Hc)
    as (Hfind & Hrfind & Hslice).
  unfold parse_response. rewrite Hfind, Hrfind, Hf, Hr.
  pose proof (len_nonneg prefix).
  replace (len prefix + 0 =? -1) with false by (symmetry; apply Z.eqb_neq; lia).
  replace (len prefix + (len obj - 1) =? -1) with false
    by (symmetry; apply Z.eqb_neq; lia).
  replace (len prefix + (len obj - 1) >? len prefix + 0) with true
    by (symmetry; apply Z.gtb_lt; lia).
  cbn [negb andb].
  rewrite Hf, Hr in Hslice. rewrite Hslice by (apply Z.gtb_lt; lia).
  replace (len obj - 1 + 1) with (len obj) by lia.
  by rewrite slice_whole, Hloads.
Qed.

(** X29.  A well-formed JSON object embedded in a text whose part before
    it holds no '{' and whose part after it holds no '}' is recovered exactly
    by the parse pipeline of [_analyze_profile], which then returns that
    object with its missing fields filled in. *)
Theorem embedded_object_recovered (prefix obj suffix : string) (d : Dict.t) :
  Json.loads obj = Some (VDict d) ->
  find prefix "{"%char = -1 ->
  rfind suffix "}"%char = -1 ->
  parse_response "{"%char "}"%char (prefix +:+ obj +:+ suffix) = Some (VDict d)
  /\ exists d',
       fill_defaults required_fields (VDict d) = Ok (VDict d')
       /\ analysis_of_completion (Ok (VStr (prefix +:+ obj +:+ suffix))) = VDict d'.
Proof.
  intros Hloads Hp Hs. apply find_absent in Hp. apply rfind_absent in Hs.
  assert (parse_response "{"%char "}"%char (prefix +:+ obj +:+ suffix)
          = Some (VDict d)) as Hparse.
  { destruct (loads_core obj (VDict d) Hloads)
      as (ws0 & core & ws1 & -> & H0 & H1 & Hcore & (a & u & -> & Ha) & (x & Hl & Hx)).
    simpl in Ha, Hx. apply Ascii.eqb_eq in Ha as ->. apply Ascii.eqb_eq in Hx as ->.
    apply last_char_split in Hl as (front & Hfront).
    destruct front as [|a body]; [done|].
    rewrite app_cons in Hfront. injection Hfront as <- ->.
    replace (prefix +:+ (ws0 +:+ String "{" (body +:+ "}") +:+ ws1) +:+ suffix)
      with ((prefix +:+ ws0) +:+ ("{" +:+ body +:+ "}") +:+ (ws1 +:+ suffix))
      by by norm.
    apply embedded_braces_recovered; [done| |].
    - by rewrite occurs_app, Hp, (blank_occurs _ ws0); [| apply jblank_blank|].
    - by rewrite occurs_app, Hs, (blank_occurs _ ws1); [| apply jblank_blank|]. }
  split; [done|].
  destruct (fill_defaults_dict required_fields d) as (d' & Hrun & _).
  exists d'. split; [done|].
  unfold analysis_of_completion. by rewrite Hparse, Hrun.
Qed.

End ObjectRecovery.

(** An object between two sentences. *)
Lemma embedded_object_recovered_witness :
  ProfileAnalyzerAgent.parse_response "{"%char "}"%char
    ("Here is the analysis: " +:+ PyStr.q "{'experience_level': 'mid'}"
     +:+ " Hope it helps.")
  = Some (VDict [("experience_level", VStr "mid")])
  /\ exists d',
       ProfileAnalyzerAgent.fill_defaults ProfileAnalyzerAgent.required_fields
         (VDict [("experience_level", VStr "mid")]) = Ok (VDict d')
       /\ ProfileAnalyzerAgent.analysis_of_completion
            (Ok (VStr ("Here is the analysis: "
                       +:+ PyStr.q "{'experience_level': 'mid'}"
                       +:+ " Hope it helps.")))
          = VDict d'.
Proof.
  apply (embedded_object_recovered "Here is the analysis: "
           (PyStr.q "{'experience_level': 'mid'}") " Hope it helps."
           [("experience_level", VStr "mid")]).
  - vm_compute. reflexivity.
  - reflexivity.
  - reflexivity.
Defined.

(** ** The skills written as JSON and read back *)

Section RoundTrip.
Import PyStr Json Dumps.
Context `{PyRuntime}.

Lemma all_ascii (P : ascii -> bool) :
  forallb P (map ascii_of_nat (seq 0 256)) = true -> forall c, P c = true.
Proof.
  intros Hall c. rewrite forallb_forall in Hall. apply Hall.
  rewrite <- (ascii_nat_embedding c). apply in_map, in_seq.
  pose proof (nat_ascii_bounded c). lia.
Qed.

Lemma escape_ok_all c : escape_ok c = true.
Proof. revert c. apply all_ascii. vm_compute. reflexivity. Qed.

Lemma opt_ascii_eqb_eq o c : opt_ascii_eqb o c = true -> o = Some c.
Proof. destruct o as [a|]; [|done]. simpl. by intros ->%Ascii.eqb_eq. Qed.

Lemma scan_string_escape_char c t :
  scan_string (escape_char c +:+ t) = cons_char c (scan_string t).
Proof.
  pose proof (escape_ok_all c) as Hok. unfold escape_ok in Hok.
  destruct (escape_char c) as [|a [|e [|h1 [|h2 [|h3 [|h4 [|? ?]]]]]]]; try done.
  - repeat (apply andb_true_iff in Hok as [Hok ?]).
    apply Ascii.eqb_eq in Hok as ->.
    rewrite app_cons, app_nil_l_s. cbn [scan_string].
    by repeat match goal with H : negb _ = true |- _ =>
                apply negb_true_iff in H; rewrite H end.
  - repeat (apply andb_true_iff in Hok as [Hok ?]).
    apply Ascii.eqb_eq in Hok as ->.
    match goal with H : opt_ascii_eqb _ _ = true |- _ =>
      apply opt_ascii_eqb_eq in H; rename H into Hu end.
    match goal with H : negb _ = true |- _ =>
      apply negb_true_iff in H; rename H into He end.
    rewrite !app_cons, app_nil_l_s. cbn [scan_string].
    change (Ascii.eqb backslash dquote) with false.
    rewrite Ascii.eqb_refl, He, Hu. done.
  - repeat (apply andb_true_iff in Hok as [Hok ?]).
    apply Ascii.eqb_eq in Hok as ->.
    match goal with H : opt_ascii_eqb _ _ = true |- _ =>
      apply opt_ascii_eqb_eq in H; rename H into Hu end.
    match goal with H : Ascii.eqb e _ = true |- _ =>
      apply Ascii.eqb_eq in H; subst e end.
    rewrite !app_cons, app_nil_l_s. cbn [scan_string].
    change (Ascii.eqb backslash dquote) with false.
    rewrite !Ascii.eqb_refl, Hu. done.
Qed.

Lemma scan_string_escape s : forall rest,
  scan_string (escape s +:+ String dquote rest) = Some (s, rest).
Proof.
  induction s as [|c s IH]; intros rest.
  - by rewrite app_nil_l_s.
  - cbn [escape]. rewrite app_assoc_s, scan_string_escape_char, IH. done.
Qed.

Lemma is_ws_cases c :
  is_ws c = true -> c = " "%char \/ c = "009"%char \/ c = "010"%char \/ c = "013"%char.
Proof.
  intros Hc.
  assert (Ascii.eqb c " " || Ascii.eqb c "009" || Ascii.eqb c "010" || Ascii.eqb c "013"
          = true) as Hcases.
  { pose proof (all_ascii (fun c => implb (is_ws c)
        (Ascii.eqb c " " || Ascii.eqb c "009" || Ascii.eqb c "010" || Ascii.eqb c "013"))
        ltac:(vm_compute; reflexivity) c) as Himp.
    cbv beta in Himp. by rewrite Hc in Himp. }
  repeat (apply orb_true_iff in Hcases as [Hcases|Hcases]);
    apply Ascii.eqb_eq in Hcases; auto.
Qed.

Lemma scan_once_ws n c r : is_ws c = true -> scan_once (S n) (String c r) = None.
Proof.
  intros Hc. apply is_ws_cases in Hc as [->|[->|[->| ->]]]; reflexivity.
Qed.

Lemma scan_once_no_ws n s r : scan_once n s = Some r -> skip_ws s = s.
Proof.
  destruct n as [|n]; [done|]. destruct s as [|c s]; [done|].
  intros Hs. apply skip_ws_keep.
  destruct (is_ws c) eqn:Hc; [|done].
  by rewrite scan_once_ws in Hs.
Qed.

Lemma scan_once_str n s x :
  scan_once (S n) (String dquote (escape s +:+ String dquote x)) = Some (VStr s, x).
Proof. rewrite scan_once_S, Ascii.eqb_refl. by rewrite scan_string_escape. Qed.

(** A number is scanned without nested calls. *)
Lemma scan_once_num n s lit rest :
  scan_once (S n) s = Some (VNum lit, rest) ->
  s = lit +:+ rest
  /\ forall m x, stops x = true -> scan_once (S m) (lit +:+ x) = Some (VNum lit, x).
Proof.
  destruct s as [|c r]; [done|]. rewrite scan_once_S.
  destruct (Ascii.eqb c dquote) eqn:E1.
  { by destruct (scan_string r) as [[? ?]|]. }
  destruct (Ascii.eqb c "{") eqn:E2.
  { destruct (skip_ws r) as [|c1 r1]; [done|].
    destruct (Ascii.eqb c1 "}"); [done|]. destruct (Ascii.eqb c1 dquote); [|done].
    by destruct (scan_members n r1) as [[? ?]|]. }
  destruct (Ascii.eqb c "[") eqn:E3.
  { destruct (skip_ws r) as [|c1 r1]; [done|].
    destruct (Ascii.eqb c1 "]"); [done|].
    by destruct (scan_elems n (String c1 r1)) as [[? ?]|]. }
  destruct (Ascii.eqb c "n") eqn:E4.
  { intros Hw. by apply scan_word_local in Hw as [? _]. }
  destruct (Ascii.eqb c "t") eqn:E5.
  { intros Hw. by apply scan_word_local in Hw as [? _]. }
  destruct (Ascii.eqb c "f") eqn:E6.
  { intros Hw. by apply scan_word_local in Hw as [? _]. }
  destruct (scan_number (String c r)) as [[lit' rest']|] eqn:Hn.
  - intros [= <- <-].
    apply scan_number_local in Hn as (Hs & Hp & Hloc). split; [done|].
    intros m x Hx.
    destruct lit' as [|c' l'].
    { by destruct Hp as (? & ? & ? & ? & _). }
    rewrite app_cons in Hs. injection Hs as <- _.
    rewrite app_cons, scan_once_S, E1, E2, E3, E4, E5, E6.
    rewrite <- app_cons. by rewrite Hloc.
  - destruct (Ascii.eqb c "N") eqn:EN.
    { apply Ascii.eqb_eq in EN. subst c. intros Hw.
      apply scan_word_local in Hw as (Hv & Hs & _). injection Hv as ->.
      split; [done|]. intros m x _. reflexivity. }
    destruct (Ascii.eqb c "I") eqn:EI.
    { apply Ascii.eqb_eq in EI. subst c. intros Hw.
      apply scan_word_local in Hw as (Hv & Hs & _). injection Hv as ->.
      split; [done|]. intros m x _. reflexivity. }
    destruct (Ascii.eqb c "-") eqn:EM; [|done].
    apply Ascii.eqb_eq in EM. subst c. intros Hw.
    apply scan_word_local in Hw as (Hv & Hs & _). injection Hv as ->.
    split; [done|]. intros m x _. reflexivity.
Qed.

(** What the hypothesis on the floats gives to the scanner. *)
Lemma scan_once_float (Hfloat : floats_round_trip) (y : pyfloat) m x :
  stops x = true ->
  scan_once (S m) (float_repr y +:+ x) = Some (VNum (float_repr y), x).
Proof.
  intros Hx. destruct (Hfloat y) as [Hloads _]. unfold loads in Hloads.
  destruct (scan_once _ (skip_ws (float_repr y))) as [[v rest]|] eqn:Hscan; [|done].
  destruct (skip_ws rest) eqn:Hrest; [|done]. injection Hloads as ->.
  replace (2 * String.length (float_repr y) + 2)%nat
    with (S (2 * String.length (float_repr y) + 1)) in Hscan by lia.
  apply scan_once_num in Hscan as [_ Hloc]. by apply Hloc.
Qed.

(** One member with a string for a value, followed by another member; and
    the last member, with a number for a value. *)
Lemma scan_members_str n k s more :
  scan_members (S (S n))
    (escape k +:+ String dquote
       (String ":" (String " " (String dquote (escape s +:+ String dquote
          (String "," (String " " (String dquote more))))))))
  = match scan_members (S n) more with
    | Some (kvs, rest) => Some ((k, VStr s) :: kvs, rest)
    | None => None
    end.
Proof.
  rewrite scan_members_S, scan_string_escape.
  cbn [skip_ws is_ws]. change (Ascii.eqb ":" ":") with true.
  cbn match. change (is_ws dquote) with false. cbn match.
  rewrite scan_once_str.
  cbn [skip_ws is_ws]. change (is_ws dquote) with false. cbn match.
  change (Ascii.eqb "," "}") with false. change (Ascii.eqb "," ",") with true.
  cbn match. by rewrite Ascii.eqb_refl.
Qed.

Lemma scan_members_num (Hfloat : floats_round_trip) n k (y : pyfloat) x :
  scan_members (S (S n))
    (escape k +:+ String dquote
       (String ":" (String " " (float_repr y +:+ String "}" x))))
  = Some ([(k, VNum (float_repr y))], x).
Proof.
  rewrite scan_members_S, scan_string_escape.
  cbn [skip_ws is_ws]. change (Ascii.eqb ":" ":") with true. cbn match.
  rewrite (scan_once_no_ws (S n) _ (VNum (float_repr y), String "}" x))
    by by apply scan_once_float.
  rewrite scan_once_float by done.
  cbn [skip_ws is_ws]. done.
Qed.

(** The text of one skill, with enough nested calls allowed. *)
Lemma scan_once_skill (Hfloat : floats_round_trip) n (s : Skill.t) x :
  scan_once (6 + n) (Dumps.skill s +:+ x) = Some (skill_as_read s, x).
Proof.
  unfold Dumps.skill, Dumps.str. norm.
  change (6 + n)%nat with (S (S (S (S (S (S n)))))).
  rewrite scan_once_S. change (Ascii.eqb "{" dquote) with false.
  change (Ascii.eqb "{" "{") with true. cbn match.
  cbn [skip_ws]. change (is_ws dquote) with false. cbn match.
  change (Ascii.eqb dquote "}") with false.
  rewrite Ascii.eqb_refl.
  rewrite !scan_members_str, scan_members_num by done.
  done.
Qed.

Lemma skill_starts (s : Skill.t) : exists r, Dumps.skill s = String "{" r.
Proof. unfold Dumps.skill. eexists. by rewrite app_cons, app_nil_l_s. Qed.

Lemma concat_cons sep (a b : string) l :
  String.concat sep (a :: b :: l) = a +:+ sep +:+ String.concat sep (b :: l).
Proof. done. Qed.

(** The items of the array, from the first one to the closing bracket. *)
Lemma scan_elems_skills (Hfloat : floats_round_trip) (s : Skill.t) l : forall n x,
  scan_elems (7 + length l + n)
    (String.concat ", " (map Dumps.skill (s :: l)) +:+ String "]" x)
  = Some (map skill_as_read (s :: l), x).
Proof.
  revert s. induction l as [|s' l IH]; intros s n x.
  - cbn [map String.concat length].
    change (7 + 0 + n)%nat with (S (6 + n)).
    rewrite scan_elems_S, scan_once_skill by done.
    cbn [skip_ws is_ws]. done.
  - cbn [map]. rewrite concat_cons. norm.
    change (7 + length (s' :: l) + n)%nat with (S (6 + (S (length l) + n))).
    rewrite scan_elems_S, scan_once_skill by done.
    cbn [skip_ws is_ws]. change (Ascii.eqb "," "]") with false.
    change (Ascii.eqb "," ",") with true. cbn match.
    destruct (skill_starts s') as (r & Hr).
    assert (skip_ws (String.concat ", " (Dumps.skill s' :: map Dumps.skill l)
                     +:+ String "]" x)
            = String.concat ", " (Dumps.skill s' :: map Dumps.skill l)
              +:+ String "]" x) as ->.
    { destruct (map Dumps.skill l) as [|b t]; cbn [String.concat];
        rewrite Hr; norm; done. }
    replace (6 + (S (length l) + n))%nat with (7 + length l + n)%nat by lia.
    specialize (IH s' n x). cbn [map] in IH. by rewrite IH.
Qed.

(** The whole text, for some number of nested calls. *)
Lemma scan_once_skills (Hfloat : floats_round_trip) (l : list Skill.t) :
  exists n,
    scan_once n (Dumps.skills l) = Some (VList (map skill_as_read l), EmptyString).
Proof.
  unfold Dumps.skills. destruct l as [|s l].
  - by exists 1%nat.
  - exists (S (7 + length l + 0)). norm.
    rewrite scan_once_S. change (Ascii.eqb "[" dquote) with false.
    change (Ascii.eqb "[" "{") with false. change (Ascii.eqb "[" "[") with true.
    cbn match.
    pose proof (scan_elems_skills Hfloat s l 0 EmptyString) as Hel.
    destruct (skill_starts s) as (r & Hr).
    assert (exists r', String.concat ", " (map Dumps.skill (s :: l)) +:+ "]"
                       = String "{" r') as (r' & Hr').
    { cbn [map]. destruct (map Dumps.skill l) as [|b t]; cbn [String.concat];
        rewrite Hr; norm; by eexists. }
    rewrite Hr' in *. cbn [skip_ws is_ws]. change (Ascii.eqb "{" "]") with false.
    cbn match. by rewrite Hel.
Qed.

Lemma loads_skills (Hfloat : floats_round_trip) (l : list Skill.t) :
  loads (Dumps.skills l) = Some (VList (map skill_as_read l)).
Proof.
  destruct (scan_once_skills Hfloat l) as (n & Hscan).
  destruct (scan_local n) as (Hloc & _ & _).
  destruct (Hloc _ _ _ Hscan) as (used & Hused & _ & _ & Hany).
  rewrite app_nil_r_s in Hused. subst used.
  unfold loads.
  assert (skip_ws (Dumps.skills l) = Dumps.skills l) as -> by by eapply scan_once_no_ws.
  specialize (Hany (2 * String.length (Dumps.skills l) + 2)%nat EmptyString).
  rewrite app_nil_r_s in Hany. rewrite Hany; [done|lia|done].
Qed.

Lemma member_lower x allowed :
  member x allowed = true -> Forall (fun a => lower a = a) allowed -> lower x = x.
Proof.
  unfold member. intros Hm Hall. induction Hall as [|a allowed Ha _ IH]; [done|].
  simpl in Hm. apply orb_true_iff in Hm as [Heq|Hm]; [|by apply IH].
  apply String.eqb_eq in Heq. by subst a.
Qed.

Lemma one_of_member what allowed x :
  member x allowed = true -> Forall (fun a => lower a = a) allowed ->
  one_of what allowed x = Ok x.
Proof.
  intros Hm Hall. unfold one_of. rewrite (member_lower x allowed) by done.
  by rewrite Hm.
Qed.

Lemma skill_init_as_read (Hfloat : floats_round_trip) (s : Skill.t) :
  valid_skill s -> Skill.init (skill_as_read s) = Ok s.
Proof.
  intros [Hl Hc]. unfold Skill.init, skill_as_read, str_field, Skill.float_field.
  cbn [Dict.get String.eqb Ascii.eqb Bool.eqb]. cbn [mbind option_bind].
  unfold Skill.validate_category, Skill.validate_level.
  rewrite (one_of_member _ _ _ Hc) by (repeat constructor).
  rewrite (one_of_member _ _ _ Hl) by (repeat constructor).
  cbn [res_opt]. destruct (Hfloat (Skill.years_experience s)) as [_ ->].
  by destruct s.
Qed.

Lemma collect_skills_as_read (Hfloat : floats_round_trip) (l : list Skill.t) :
  Forall valid_skill l ->
  ProfileAnalyzerAgent.collect_skills (map skill_as_read l) = l.
Proof.
  induction 1 as [|s l Hs _ IH]; [done|].
  cbn [map ProfileAnalyzerAgent.collect_skills].
  by rewrite skill_init_as_read, IH.
Qed.

(** X30.  The JSON text that [execute] writes for the skills it found and
    puts into the analysis prompt reads back to the same skills: for valid
    skills, whatever their names, and a runtime whose floats are written as
    JSON numbers that read back to them, the array pipeline of
    [_extract_skills] parses the text to one object per skill, in order, and
    builds from it the very list the text was written from. *)
Theorem skills_json_round_trip (l : list Skill.t) :
  floats_round_trip -> Forall valid_skill l ->
  ProfileAnalyzerAgent.parse_response "["%char "]"%char (Dumps.skills l)
  = Some (VList (map skill_as_read l))
  /\ ProfileAnalyzerAgent.skills_of_completion (Ok (VStr (Dumps.skills l))) = l.
Proof.
  intros Hfloat Hvalid.
  assert (ProfileAnalyzerAgent.parse_response "["%char "]"%char (Dumps.skills l)
          = Some (VList (map skill_as_read l))) as Hparse.
  { pose proof (loads_skills Hfloat l) as Hloads. unfold Dumps.skills in *.
    pose proof (embedded_brackets_recovered EmptyString
                  (String.concat ", " (map Dumps.skill l)) EmptyString
                  (map skill_as_read l) Hloads eq_refl eq_refl) as Hrec.
    by rewrite app_nil_l_s, app_nil_r_s in Hrec. }
  split; [done|].
  unfold ProfileAnalyzerAgent.skills_of_completion. rewrite Hparse.
  cbn [ProfileAnalyzerAgent.py_iter]. by apply collect_skills_as_read.
Qed.

End RoundTrip.

(** Two skills whose names hold quotes, brackets and a backslash. *)
Lemma skills_json_round_trip_witness :
  ProfileAnalyzerAgent.parse_response "["%char "]"%char (Dumps.skills quoted_skills)
  = Some (VList (map skill_as_read quoted_skills))
  /\ ProfileAnalyzerAgent.skills_of_completion
       (Ok (VStr (Dumps.skills quoted_skills)))
     = quoted_skills.
Proof.
  apply (skills_json_round_trip (H := small_runtime) quoted_skills).
  - intros y. destruct y; split; vm_compute; reflexivity.
  - repeat constructor.
Defined.

(** ** The model at work *)

(** The end-to-end example of the specification: one skill, category
    "technical", level "advanced". *)
Example end_to_end_skill :
  fst (ProfileAnalyzerAgent._extract_skills
         (sample_agent
            [Ok (OpenRouterLLM.envelope (VStr ("[" +:+ python_item +:+ "]")))])
         "5 years of Python and team leadership")
  = [sample_skill "Python" "technical" "advanced" "5"].
Proof. vm_compute. reflexivity. Qed.

(** With [max_retries = 0] the loop body never runs: [generate_text] sends
    nothing and returns [None], on which [get_completion] raises. *)
Example zero_retries :
  OpenRouterLLM.generate_text (sample_llm 0 1) (OpenRouterLLM.PromptStr "hi")
    "openai/gpt-4o-mini" (7 # 10) 1000 dead_world
  = (Ok VNone, sample_llm 0 1, dead_world)
  /\ get_completion (sample_llm 0 1, dead_world) "hi" (kw_temp (3 # 10))
     = (Raise (Exn AttributeError "object has no attribute 'get'"),
        (sample_llm 0 1, dead_world)).
Proof. vm_compute. split; reflexivity. Qed.

(** A failure that is not a [RequestException] leaves [search] at the first
    attempt: one request, no sleep. *)
Example other_failure_not_retried :
  TavilySearchTool.search (sample_tool 3 1) "jobs" None broken_world
  = (Raise (Exn TypeError "not JSON serializable"),
     after broken_world [] [http_request_of (sample_tool 3 1) "jobs" None] []).
Proof. vm_compute. reflexivity. Qed.

(** An answer whose [usage] is [None] counts as a failed attempt: it is asked
    for again, and after the last attempt the call fails. *)
Example usage_none_is_a_failure :
  let '(r, self, w) :=
    OpenRouterLLM.generate_text (sample_llm 2 1) (OpenRouterLLM.PromptStr "hi")
      "openai/gpt-4o-mini" (7 # 10) 1000 no_usage_world in
  raises r /\ length (chat_log w) = 2%nat /\ slept w = [1%Q].
Proof. vm_compute. repeat split; reflexivity. Qed.

(** The counters after a failed attempt, a retry that succeeds and a second
    call that succeeds at once. *)
Example counters_after_two_calls :
  OpenRouterLLM.get_usage_stats
    (fst (run_calls [sample_call "a"; sample_call "b"] (sample_llm 3 1) flaky_world))
  = {| OpenRouterLLM.stats_total_tokens := 84;
       OpenRouterLLM.stats_prompt_tokens := 24;
       OpenRouterLLM.stats_completion_tokens := 60;
       OpenRouterLLM.estimated_cost := 0 |}.
Proof. vm_compute. reflexivity. Qed.

(** The boundary of the cache: with a maximal age of 0 an entry is served at
    the very instant it was stored and at no later one. *)
Example cache_boundary :
  let a := BaseAgent._cache_result
             (BaseAgent.__init__ tt (sample_tool 3 1) : BaseAgent.t unit nat)
             "k" 7%nat 100 in
  fst (BaseAgent._get_cached_result a "k" 0 100) = Some 7%nat
  /\ fst (BaseAgent._get_cached_result a "k" 0 (100 + (1 # 1000))%Q) = None.
Proof. vm_compute. split; reflexivity. Qed.
